(** * user-verifier: the decision logic of [app_fixed.py]

    A shallow embedding of the configuration resolver, the paginated badge
    fetchers, the rule evaluators, the live-blacklist loader and the
    aggregation flow of [app_fixed.py], with the properties stated in the
    specification.

    Conventions of the embedding.
    - Values decoded from JSON keep their dynamic type ([json]); the Python
      operations the program applies to them ([int], [str], truthiness,
      [.get], [len], iteration, set membership) are defined on that type,
      with the exceptions they raise made explicit.
    - Text is a [string] of 8-bit characters; the character classes
      ([str.lower], [str.isdigit], white space) are those of Python on the
      ASCII range. A character above 127 belongs to the encoding of a
      character outside ASCII; where the program trims a text, tests it for
      digits or reads it as an integer, a text with such characters is
      handed to the library routines below.
    - Standard-library routines whose behaviour depends on the interpreter
      version ([datetime.fromisoformat], [urlparse], [csv.reader], the
      rendering of floats and containers) are fields of the class [PyLib]:
      every theorem holds for every instance.
    - The network is a function from the history of requests to the response
      of the latest one; the state threaded through the fetchers is that
      history. *)

From stdpp Require Import base option list gmap strings pretty.
From Equations Require Import Equations.
From Equations.Prop Require Import Logic.
From Stdlib Require Import ZArith Lia Ascii.
From Stdlib Require String.

Local Open Scope Z_scope.
#[local] Set Warnings "-register-all".

(** ** Python text operations (ASCII range) *)

Module Text.

Definition code (c : ascii) : N := Ascii.N_of_ascii c.

(** [ch.isdigit()] *)
Definition isdigit_char (c : ascii) : bool :=
  ((48 <=? code c) && (code c <=? 57))%N.

(** [ch.isspace()], the white space of [str.strip]: TAB..CR, FS..US, SPACE. *)
Definition isspace_char (c : ascii) : bool :=
  (((9 <=? code c) && (code c <=? 13)) || ((28 <=? code c) && (code c <=? 32)))%N.

(** The white space [int] skips around a literal: TAB..CR and SPACE. *)
Definition isspace_int (c : ascii) : bool :=
  (((9 <=? code c) && (code c <=? 13)) || (code c =? 32))%N.

Definition lower_char (c : ascii) : ascii :=
  if ((65 <=? code c) && (code c <=? 90))%N
  then Ascii.ascii_of_N (code c + 32) else c.

(** [s.lower()] *)
Fixpoint lower (s : string) : string :=
  match s with
  | EmptyString => EmptyString
  | String c r => String (lower_char c) (lower r)
  end.

Definition chars (s : string) : list ascii := String.list_ascii_of_string s.

(** [s.isascii()] *)
Definition isascii (s : string) : bool :=
  forallb (fun c => (code c <? 128)%N) (chars s).

(** [s.startswith(p)] *)
Fixpoint startswith (p s : string) : bool :=
  match p, s with
  | EmptyString, _ => true
  | String a p', String b s' => bool_decide (a = b) && startswith p' s'
  | String _ _, EmptyString => false
  end.

(** [needle in hay] *)
Fixpoint contains (needle hay : string) : bool :=
  startswith needle hay ||
  match hay with
  | EmptyString => false
  | String _ r => contains needle r
  end.

(** [s.endswith(p)] *)
Definition endswith (p s : string) : bool :=
  startswith (String.rev p) (String.rev s).

(** [s.replace(c, new)] for a one-character pattern [c]. *)
Fixpoint replace_char (c : ascii) (new : string) (s : string) : string :=
  match s with
  | EmptyString => EmptyString
  | String a r =>
      if bool_decide (a = c) then new +:+ replace_char c new r
      else String a (replace_char c new r)
  end.

Fixpoint lstrip (space : ascii → bool) (s : string) : string :=
  match s with
  | String c r => if space c then lstrip space r else s
  | EmptyString => EmptyString
  end.

(** Removal of the characters of the class [space] at both ends. *)
Definition strip_with (space : ascii → bool) (s : string) : string :=
  String.rev (lstrip space (String.rev (lstrip space s))).

(** [s.strip()] *)
Definition strip (s : string) : string := strip_with isspace_char s.

(** [s.isdigit()]: non-empty and made of digits only. *)
Definition isdigit (s : string) : bool :=
  match s with
  | EmptyString => false
  | _ => forallb isdigit_char (chars s)
  end.

(** [sum(ch.isdigit() for ch in s)] *)
Definition count_digits (s : string) : Z :=
  Z.of_nat (length (filter (fun c => isdigit_char c = true) (chars s))).

Definition digit_value (c : ascii) : Z := Z.of_N (code c) - 48.

(** The value of a run of decimal digits, most significant first. *)
Definition decimal_value (ds : list ascii) : Z :=
  fold_left (fun acc c => 10 * acc + digit_value c) ds 0.

(** The digit groups of an integer literal: digits, with single
    underscores allowed between two digits. [prev] tells whether the
    previous character was a digit. Returns the digits without the
    underscores. *)
Fixpoint literal_digits (prev : bool) (s : list ascii) : option (list ascii) :=
  match s with
  | [] => if prev then Some [] else None
  | c :: r =>
      if isdigit_char c then cons c <$> literal_digits true r
      else if bool_decide (c = "_"%char) && prev then
        match r with
        | d :: _ => if isdigit_char d then literal_digits false r else None
        | [] => None
        end
      else None
  end.

End Text.

(** ** JSON values as Python sees them *)

(** A float is its exact rational value [num/den], an infinity or NaN. *)
Inductive pyfloat :=
| FFin (num : Z) (den : positive)
| FInf (negative : bool)
| FNaN.

(** What [json.load] and [r.json()] return. A [JDict] lists the items of the
    object in insertion order, each key once. *)
Inductive json :=
| JNull
| JBool (b : bool)
| JInt (z : Z)
| JFloat (f : pyfloat)
| JStr (s : string)
| JList (l : list json)
| JDict (d : list (string * json)).

Abbreviation dict := (list (string * json)).

(** Exceptions that escape a function. *)
Inductive pyexn :=
| TypeError
| AttributeError
| ValueError
| OSError
| UnicodeDecodeError
| RecursionError.

Inductive result (A : Type) :=
| Returns (a : A)
| Raises (e : pyexn).
Arguments Returns {A} a.
Arguments Raises {A} e.

Module Py.

(** [bool(x)] *)
Definition truthy (j : json) : bool :=
  match j with
  | JNull => false
  | JBool b => b
  | JInt z => negb (z =? 0)
  | JFloat (FFin n _) => negb (n =? 0)
  | JFloat _ => true
  | JStr s => negb (bool_decide (s = ""))
  | JList l => negb (bool_decide (l = []))
  | JDict d => negb (bool_decide (d = []))
  end.

Fixpoint lookup (d : dict) (k : string) : option json :=
  match d with
  | [] => None
  | (k', v) :: r => if bool_decide (k' = k) then Some v else lookup r k
  end.

(** [d.get(k, dflt)] *)
Definition get_or (d : dict) (k : string) (dflt : json) : json :=
  default dflt (lookup d k).

(** [d.get(k)] *)
Definition get (d : dict) (k : string) : json := get_or d k JNull.

(** [isinstance(x, dict)], giving the dict. *)
Definition as_dict (j : json) : option dict :=
  match j with JDict d => Some d | _ => None end.

(** [x.get(k)] on an arbitrary value: [AttributeError] unless a dict. *)
Definition attr_get (j : json) (k : string) : result json :=
  match j with
  | JDict d => Returns (get d k)
  | _ => Raises AttributeError
  end.

(** [int(s)] for a string, base 10. [limit] is the interpreter's bound on
    the number of digits, when it has one. *)
Definition int_of_string (limit : option nat) (s : string) : option Z :=
  let t := Text.chars (Text.strip_with Text.isspace_int s) in
  let '(neg, body) :=
    match t with
    | "-"%char :: r => (true, r)
    | "+"%char :: r => (false, r)
    | _ => (false, t)
    end in
  ds ← Text.literal_digits false body;
  if match limit with Some n => bool_decide (n < length ds)%nat | None => false end
  then None
  else Some (if neg : bool then - Text.decimal_value ds else Text.decimal_value ds).

(** [int(x)]; [None] when it raises. *)
Definition int (limit : option nat) (j : json) : option Z :=
  match j with
  | JBool b => Some (if b then 1 else 0)
  | JInt z => Some z
  | JFloat (FFin n d) => Some (Z.quot n (Z.pos d))
  | JStr s => int_of_string limit s
  | _ => None
  end.

(** [len(x)]; [None] when it raises. *)
Definition len (j : json) : option Z :=
  match j with
  | JStr s => Some (Z.of_nat (String.length s))
  | JList l => Some (Z.of_nat (length l))
  | JDict d => Some (Z.of_nat (length d))
  | _ => None
  end.

(** The elements [list.extend(x)] appends; [None] when [x] is not
    iterable. *)
Definition iter (j : json) : option (list json) :=
  match j with
  | JList l => Some l
  | JStr s => Some (map (fun c => JStr (String c "")) (Text.chars s))
  | JDict d => Some (map (fun kv => JStr kv.1) d)
  | _ => None
  end.

Definition number (j : json) : option (Z * positive) :=
  match j with
  | JBool b => Some (if b then 1 else 0, 1%positive)
  | JInt z => Some (z, 1%positive)
  | JFloat (FFin n d) => Some (n, d)
  | _ => None
  end.

(** [a == b] on hashable values. *)
Definition eqb (a b : json) : bool :=
  match a, b with
  | JNull, JNull => true
  | JStr s, JStr t => bool_decide (s = t)
  | JFloat (FInf x), JFloat (FInf y) => bool_decide (x = y)
  | _, _ =>
      match number a, number b with
      | Some (n1, d1), Some (n2, d2) => n1 * Z.pos d2 =? n2 * Z.pos d1
      | _, _ => false
      end
  end.

Definition hashable (j : json) : bool :=
  match j with JList _ | JDict _ => false | _ => true end.

(** [x in s] for a set [s] of hashable values; [None] is the [TypeError]
    of an unhashable [x]. *)
Definition set_contains (s : list json) (x : json) : option bool :=
  if hashable x then Some (existsb (eqb x) s) else None.

(** [l[:n]] *)
Definition slice_to {A} (l : list A) (n : Z) : list A :=
  if 0 <=? n then take (Z.to_nat n) l
  else take (Z.to_nat (Z.of_nat (length l) + n)) l.

End Py.

(** ** Standard-library routines taken as given *)

(** A [datetime]: the wall-clock fields as microseconds from the epoch the
    clock is read from, and the UTC offset in microseconds when the value is
    timezone-aware. *)
Record datetime := { wall_us : Z; utcoffset_us : option Z }.

(** What the program reads of [urlparse(url)]. *)
Record parsed_url := { scheme : string; hostname : option string; path : string }.

Class PyLib := {
  (** [datetime.fromisoformat]; [None] when it raises. *)
  fromisoformat : string → option datetime;
  (** [urlparse]; [None] when it raises. *)
  urlparse : string → option parsed_url;
  (** All rows of [csv.reader(io.StringIO(text))]; [None] when reading
      raises at some row. *)
  csv_reader : string → option (list (list string));
  (** [str(x)] for floats, lists and dicts. *)
  str_other : json → string;
  (** [sys.get_int_max_str_digits()], when the interpreter has it. *)
  int_max_str_digits : option nat;
  (** On a text with characters outside ASCII, where Unicode white space
      and Unicode digits count: [s.strip()], [s.isdigit()], and [int(s)]
      with [None] when it raises. *)
  strip_other : string → string;
  isdigit_other : string → bool;
  int_other : string → option Z
}.

(** [str(x)] *)
Definition py_str `{PyLib} (j : json) : string :=
  match j with
  | JStr s => s
  | JInt z => pretty z
  | JBool true => "True"
  | JBool false => "False"
  | JNull => "None"
  | _ => str_other j
  end.

(** [int(x)] under the interpreter's digit limit. *)
Definition py_int `{PyLib} (j : json) : option Z :=
  match j with
  | JStr s => if Text.isascii s then Py.int int_max_str_digits j else int_other s
  | _ => Py.int int_max_str_digits j
  end.

(** [s.strip()] *)
Definition py_strip `{PyLib} (s : string) : string :=
  if Text.isascii s then Text.strip s else strip_other s.

(** [s.isdigit()] *)
Definition py_isdigit `{PyLib} (s : string) : bool :=
  if Text.isascii s then Text.isdigit s else isdigit_other s.

(** ** Configuration resolver *)

(** What [open] and [json.load] give for [config.json]. [FileMissing]:
    [open] raises [FileNotFoundError]. [FileNotJson]: [json.load] raises
    [JSONDecodeError]. [FileRaises e]: one of them raises another exception
    [e]: an [OSError] for a file that cannot be opened or read,
    [UnicodeDecodeError] for bytes that are not UTF-8, [RecursionError] for
    JSON nested too deeply. [FileJson root]: the decoded value. *)
Inductive config_file :=
| FileMissing
| FileNotJson
| FileRaises (e : pyexn)
| FileJson (root : json).

(** [load_config]: only [FileNotFoundError] and [JSONDecodeError] are
    caught. *)
Definition load_config (f : config_file) : result dict :=
  match f with
  | FileMissing => Returns []
  | FileNotJson => Returns []
  | FileRaises e => Raises e
  | FileJson (JDict raw) => Returns raw
  | FileJson _ => Raises ValueError
  end.

Record config := {
  FRIENDLY_OWNER_IDS : gset Z;
  BA_UK_GROUP_IDS : gset Z;
  BLACKLISTED_GROUP_IDS : gset Z;
  BA_BADGE_IDS : gset Z;
  IFD_BLACKLIST_IDS : gset Z;
  BA_BLACKLIST_IDS : gset Z;
  NSFW_WORDS : gset string;
  BA_MEMBER_IMPERSONATION_LIST : gset string;
  MIN_ACCOUNT_AGE_DAYS : Z;
  MIN_FRIEND_COUNT : Z;
  MIN_NON_BA_GROUP_COUNT : Z;
  MIN_BADGE_COUNT : Z;
  OLDEST_BADGES_TO_CHECK : Z;
  USERNAME_DIGIT_THRESHOLD : Z;
  MAX_BADGE_PAGES : Z;
  REQUEST_TIMEOUT : Z
}.

Section Resolver.
Context `{PyLib}.

(** [_to_int_set]: the [for] loop adds [int(v)] and skips the entries on
    which [int] raises. A decoded JSON value is never a tuple or a set. *)
Definition _to_int_set (value : json) : gset Z :=
  match value with
  | JNull => ∅
  | JList l =>
      foldl (fun out v =>
               match py_int v with
               | Some z => out ∪ {[z]}
               | None => out
               end) ∅ l
  | _ =>
      match py_int value with
      | Some z => {[z]}
      | None => ∅
      end
  end.

(** [_to_str_set] *)
Definition _to_str_set (value : json) : gset string :=
  match value with
  | JNull => ∅
  | JList l => foldl (fun out v => out ∪ {[Text.lower (py_str v)]}) ∅ l
  | _ => {[Text.lower (py_str value)]}
  end.

(** [_get_int_cfg] *)
Definition _get_int_cfg (raw : dict) (key : string) (dflt : Z) : Z :=
  let v := Py.get_or raw key (JInt dflt) in
  match py_int v with
  | Some z => z
  | None => dflt
  end.

(** The module-level constants derived from the loaded [config]. *)
Definition resolve (raw : dict) : config := {|
  FRIENDLY_OWNER_IDS := _to_int_set (Py.get_or raw "FRIENDLY_OWNER_IDS" (JList []));
  BA_UK_GROUP_IDS := _to_int_set (Py.get_or raw "BA_UK_GROUP_IDS" (JList []));
  BLACKLISTED_GROUP_IDS := _to_int_set (Py.get_or raw "BLACKLISTED_GROUP_IDS" (JList []));
  BA_BADGE_IDS := _to_int_set (Py.get_or raw "BA_BADGE_IDS" (JList []));
  IFD_BLACKLIST_IDS := _to_int_set (Py.get_or raw "IFD_BLACKLIST_IDS" (JList []));
  BA_BLACKLIST_IDS := _to_int_set (Py.get_or raw "BA_BLACKLIST_IDS" (JList []));
  NSFW_WORDS := _to_str_set (Py.get_or raw "NSFW_WORDS" (JList []));
  BA_MEMBER_IMPERSONATION_LIST :=
    _to_str_set (Py.get_or raw "BA_MEMBER_IMPERSONATION_LIST" (JList []));
  MIN_ACCOUNT_AGE_DAYS := _get_int_cfg raw "MIN_ACCOUNT_AGE_DAYS" 60;
  MIN_FRIEND_COUNT := _get_int_cfg raw "MIN_FRIEND_COUNT" 30;
  MIN_NON_BA_GROUP_COUNT := _get_int_cfg raw "MIN_NON_BA_GROUP_COUNT" 13;
  MIN_BADGE_COUNT := _get_int_cfg raw "MIN_BADGE_COUNT" 300;
  OLDEST_BADGES_TO_CHECK := _get_int_cfg raw "OLDEST_BADGES_TO_CHECK" 90;
  USERNAME_DIGIT_THRESHOLD := _get_int_cfg raw "USERNAME_DIGIT_THRESHOLD" 4;
  MAX_BADGE_PAGES := _get_int_cfg raw "MAX_BADGE_PAGES" 10;
  REQUEST_TIMEOUT := _get_int_cfg raw "REQUEST_TIMEOUT_SECONDS" 6
|}.

End Resolver.

(** ** The network *)

Inductive sort_order := Asc | Desc.

(** The requests of the modelled functions, with the parameters that
    distinguish them. *)
Inductive request :=
| GetAvatar (user_id : Z)
| GetFriendCount (user_id : Z)
| GetBadges (user_id : Z) (order : sort_order) (cursor : option json)
| GetSheet (url : string).

(** [Failed]: the call or [raise_for_status] raised. [Replied body text]:
    [body] is what [r.json()] returns ([None] when it raises), [text] is
    [r.content] decoded with replacement. *)
Inductive response :=
| Failed
| Replied (body : option json) (text : string).

(** The requests issued so far, latest first. *)
Abbreviation world := (list request).

(** The remote side: the response to the latest request of a history. *)
Abbreviation server := (list request → response).

Definition http_get (srv : server) (req : request) (w : world) : response * world :=
  (srv (req :: w), req :: w).

Definition json_of (r : response) : option json :=
  match r with
  | Failed => None
  | Replied body _ => body
  end.

Definition is_badge_request (req : request) : bool :=
  match req with GetBadges _ _ _ => true | _ => false end.

(** How one pass through the body of a pagination loop ends. *)
Inductive step (A : Type) :=
| Break (acc : A)
| Next (acc : A) (cursor : json) (seen_cursors : list json).
Arguments Break {A} acc.
Arguments Next {A} acc cursor seen_cursors.

(** ** HTTP data-fetchers *)

Section Fetchers.
Context `{PyLib} (cfg : config) (srv : server).

(** [get_user_avatar_url]; [JNull] stands for [None]. *)
Definition get_user_avatar_url (user_id : Z) (w : world) : json * world :=
  let '(r, w) := http_get srv (GetAvatar user_id) w in
  (match json_of r with
   | Some (JDict body) =>
       let data := Py.get_or body "data" (JList []) in
       if negb (Py.truthy data) then JNull
       else match data with
            | JList (JDict first :: _) => Py.get first "imageUrl"
            | _ => JNull
            end
   | _ => JNull
   end, w).

(** [get_friend_count] *)
Definition get_friend_count (user_id : Z) (w : world) : option Z * world :=
  let '(r, w) := http_get srv (GetFriendCount user_id) w in
  (match json_of r with
   | Some (JDict body) =>
       match Py.get body "count" with
       | JNull => None
       | c => py_int c
       end
   | _ => None
   end, w).

(** The [try] block of the loop of [get_oldest_badges]; every exception
    raised inside it takes the [except] branch, which breaks. *)
Definition oldest_page (r : response) (badges seen_cursors : list json) : step (list json) :=
  match json_of r with
  | Some (JDict data) =>
      let new_badges := Py.get_or data "data" (JList []) in
      if negb (Py.truthy new_badges) then Break badges
      else
        match Py.iter new_badges with
        | None => Break badges
        | Some items =>
            let badges := badges ++ items in
            let c := Py.get data "nextPageCursor" in
            let next_cursor := if Py.truthy c then c else JStr "" in
            match Py.set_contains seen_cursors next_cursor with
            | None => Break badges
            | Some true => Break badges
            | Some false =>
                if negb (Py.truthy next_cursor) then Break badges
                else Next badges next_cursor (next_cursor :: seen_cursors)
            end
        end
  | _ => Break badges
  end.

(** The parameter [cursor] of a page request: sent only [if cursor]. *)
Definition cursor_param (cursor : json) : option json :=
  if Py.truthy cursor then Some cursor else None.

(** The [while] loop of [get_oldest_badges]. *)
Equations? oldest_loop (user_id total_limit : Z) (badges : list json)
    (cursor : json) (seen_cursors : list json) (pages : Z) (w : world)
    : list json * world
    by wf (Z.to_nat (MAX_BADGE_PAGES cfg - pages)) lt :=
  oldest_loop user_id total_limit badges cursor seen_cursors pages w
    with inspect ((Z.of_nat (length badges) <? total_limit)
                  && (pages <? MAX_BADGE_PAGES cfg)) := {
    | exist _ true running =>
        let pages' := pages + 1 in
        let rw := http_get srv (GetBadges user_id Asc (cursor_param cursor)) w in
        match oldest_page rw.1 badges seen_cursors with
        | Break badges' => (badges', rw.2)
        | Next badges' cursor' seen' =>
            oldest_loop user_id total_limit badges' cursor' seen' pages' rw.2
        end
    | exist _ false stopped => (badges, w) }.
Proof. subst pages'. apply andb_prop in running as [_ running]. lia. Qed.

(** [get_oldest_badges] *)
Definition get_oldest_badges (user_id total_limit : Z) (w : world)
    : list json * world :=
  let '(badges, w) := oldest_loop user_id total_limit [] (JStr "") [] 0 w in
  (Py.slice_to badges total_limit, w).

(** The [try] block of the loop of [get_total_badge_count]. Reaching
    [pass_threshold] returns the running total, as breaking does. *)
Definition count_page (pass_threshold : Z) (r : response) (total_badges : Z)
    (seen_cursors : list json) : step Z :=
  match json_of r with
  | Some (JDict data) =>
      let new_badges := Py.get_or data "data" (JList []) in
      if negb (Py.truthy new_badges) then Break total_badges
      else
        match Py.len new_badges with
        | None => Break total_badges
        | Some n =>
            let total_badges := total_badges + n in
            if pass_threshold <=? total_badges then Break total_badges
            else
              let c := Py.get data "nextPageCursor" in
              let next_cursor := if Py.truthy c then c else JStr "" in
              if negb (Py.truthy next_cursor) then Break total_badges
              else
                match Py.set_contains seen_cursors next_cursor with
                | None => Break total_badges
                | Some true => Break total_badges
                | Some false =>
                    Next total_badges next_cursor (next_cursor :: seen_cursors)
                end
        end
  | _ => Break total_badges
  end.

(** The [while] loop of [get_total_badge_count]. *)
Equations? count_loop (user_id pass_threshold : Z) (total_badges : Z)
    (cursor : json) (seen_cursors : list json) (pages : Z) (w : world)
    : Z * world
    by wf (Z.to_nat (MAX_BADGE_PAGES cfg - pages)) lt :=
  count_loop user_id pass_threshold total_badges cursor seen_cursors pages w
    with inspect (pages <? MAX_BADGE_PAGES cfg) := {
    | exist _ true running =>
        let pages' := pages + 1 in
        let rw := http_get srv (GetBadges user_id Desc (cursor_param cursor)) w in
        match count_page pass_threshold rw.1 total_badges seen_cursors with
        | Break total' => (total', rw.2)
        | Next total' cursor' seen' =>
            count_loop user_id pass_threshold total' cursor' seen' pages' rw.2
        end
    | exist _ false stopped => (total_badges, w) }.
Proof. subst pages'. lia. Qed.

(** [get_total_badge_count] *)
Definition get_total_badge_count (user_id pass_threshold : Z) (w : world)
    : Z * world :=
  count_loop user_id pass_threshold 0 (JStr "") [] 0 w.

End Fetchers.

(** ** Rule evaluators *)

Definition us_per_day : Z := 86400000000.

(** [x in s] for an [Optional[int]] and a set of integers: [None] is in no
    such set. *)
Definition opt_in (x : option Z) (s : gset Z) : bool :=
  match x with
  | Some z => bool_decide (z ∈ s)
  | None => false
  end.

Section Rules.
Context `{PyLib} (cfg : config) (srv : server).

(** The [try] block of [check_account_age]: the parsed creation date, or
    [None] when an exception is caught. A value without [endswith] raises
    [AttributeError] there. *)
Definition parse_created (created_str : json) : option datetime :=
  match created_str with
  | JStr s =>
      if Text.endswith "Z" s then
        fromisoformat (Text.replace_char "Z"%char "+00:00" s)
      else
        created_date ← fromisoformat s;
        Some (match utcoffset_us created_date with
              | None => {| wall_us := wall_us created_date; utcoffset_us := Some 0 |}
              | Some _ => created_date
              end)
  | _ => None
  end.

(** [(now - created_date).days] for an aware [created_date] with offset
    [off]; [now] is the UTC clock in microseconds. *)
Definition days_between (now : Z) (created_date : datetime) (off : Z) : Z :=
  (now - (wall_us created_date - off)) `div` us_per_day.

(** [check_account_age]. Subtracting a naive datetime from the aware
    [now] raises [TypeError], outside the [try]. *)
Definition check_account_age (now : Z) (user_info : dict) : result (bool * string) :=
  let created_str := Py.get user_info "created" in
  if negb (Py.truthy created_str) then
    Returns (false, "Created date not available. Manual review required.")
  else
    match parse_created created_str with
    | None => Returns (false, "Could not parse creation date: " +:+ py_str created_str)
    | Some created_date =>
        match utcoffset_us created_date with
        | None => Raises TypeError
        | Some off =>
            let days_old := days_between now created_date off in
            if days_old <? MIN_ACCOUNT_AGE_DAYS cfg then
              Returns (true, "Account is " +:+ pretty days_old +:+ " days old (under "
                             +:+ pretty (MIN_ACCOUNT_AGE_DAYS cfg) +:+ ").")
            else
              Returns (false, "Account is " +:+ pretty days_old +:+ " days old.")
        end
    end.

Definition alt_flag : string := "Username contains 'alt'.".

Definition digits_flag (digits : Z) : string :=
  "Username contains " +:+ pretty digits +:+ " digits (>= "
    +:+ pretty (USERNAME_DIGIT_THRESHOLD cfg) +:+ ").".

Definition impersonation_reason : string := "Username impersonates a BA member.".

Definition offensive_reason (word : string) : string :=
  "Username contains offensive term: '" +:+ word +:+ "'.".

(** The body of [for word in NSFW_WORDS]. *)
Definition nsfw_step (username : string) (dismissal : option string) (word : string)
    : option string :=
  if negb (bool_decide (word = EmptyString)) && Text.contains word username then
    match dismissal with
    | Some d => Some d
    | None => Some (offensive_reason word)
    end
  else dismissal.

(** [check_username]. The set [NSFW_WORDS] is iterated in the order of
    [elements]. *)
Definition check_username (user_info : dict) : option string * list string :=
  let username := Text.lower (py_str (Py.get_or user_info "name" (JStr ""))) in
  let flags := if Text.contains "alt" username then [alt_flag] else [] in
  let dismissal :=
    if bool_decide (username ∈ BA_MEMBER_IMPERSONATION_LIST cfg)
    then Some impersonation_reason else None in
  let dismissal := foldl (nsfw_step username) dismissal (elements (NSFW_WORDS cfg)) in
  let digits := Text.count_digits username in
  let flags :=
    if USERNAME_DIGIT_THRESHOLD cfg <=? digits then flags ++ [digits_flag digits]
    else flags in
  (dismissal, flags).

Definition blacklisted_group_reason (grp : dict) : string :=
  "User is in a blacklisted group: " +:+ py_str (Py.get grp "name") +:+ ".".

Definition lookalike_reason (grp : dict) : string :=
  "User is in another British Army group: " +:+ py_str (Py.get grp "name") +:+ ".".

(** [grp.get("group") if isinstance(item, dict) else None] *)
Definition group_of (item : json) : json :=
  match item with
  | JDict d => Py.get d "group"
  | _ => JNull
  end.

(** [int(x) if x is not None else None], with [None] when [int] raises. *)
Definition int_or_none (x : json) : option Z :=
  match x with
  | JNull => None
  | _ => py_int x
  end.

Definition group_name_of (grp : dict) : string :=
  Text.lower (py_str (Py.get_or grp "name" (JStr ""))).

Definition owner_id_of (grp : dict) : option Z :=
  match Py.get grp "owner" with
  | JDict owner => int_or_none (Py.get owner "userId")
  | _ => None
  end.

(** The two tests of the loop body of [check_blacklists] on a group. *)
Definition blacklisted_group (grp : dict) : bool :=
  opt_in (int_or_none (Py.get grp "id")) (BLACKLISTED_GROUP_IDS cfg).

Definition lookalike_group (grp : dict) : bool :=
  Text.contains "british army" (group_name_of grp)
  && negb (opt_in (int_or_none (Py.get grp "id")) (BA_UK_GROUP_IDS cfg))
  && negb (opt_in (owner_id_of grp) (FRIENDLY_OWNER_IDS cfg)).

(** The body of [for item in groups_list] in [check_blacklists]. *)
Definition blacklist_step (dismissals : list string) (item : json) : list string :=
  match group_of item with
  | JDict grp =>
      let dismissals :=
        if blacklisted_group grp then dismissals ++ [blacklisted_group_reason grp]
        else dismissals in
      if lookalike_group grp then dismissals ++ [lookalike_reason grp]
      else dismissals
  | _ => dismissals
  end.

(** [check_blacklists] *)
Definition check_blacklists (user_id : Z) (groups : list json) (ifd_blacklist : gset Z)
    : list string :=
  let dismissals := [] in
  let dismissals :=
    if bool_decide (user_id ∈ ifd_blacklist)
    then dismissals ++ ["User is on the IFD Blacklist."] else dismissals in
  let dismissals :=
    if bool_decide (user_id ∈ BA_BLACKLIST_IDS cfg)
    then dismissals ++ ["User is on the BA Blacklist."] else dismissals in
  foldl blacklist_step dismissals groups.

(** The body of [for g in groups_list] in [check_social_activity];
    [grp.get] raises on a truthy [grp] that is not a dict. *)
Definition non_ba_step (non_ba_groups : list json) (g : json) : result (list json) :=
  let grp := group_of g in
  if negb (Py.truthy grp) then Returns non_ba_groups
  else
    match Py.attr_get grp "id" with
    | Raises e => Raises e
    | Returns JNull => Returns non_ba_groups
    | Returns gid =>
        match py_int gid with
        | None => Returns non_ba_groups
        | Some gid_int =>
            if bool_decide (gid_int ∈ BA_UK_GROUP_IDS cfg) then Returns non_ba_groups
            else Returns (non_ba_groups ++ [g])
        end
    end.

Fixpoint non_ba_loop (non_ba_groups : list json) (groups : list json)
    : result (list json) :=
  match groups with
  | [] => Returns non_ba_groups
  | g :: rest =>
      match non_ba_step non_ba_groups g with
      | Raises e => Raises e
      | Returns acc => non_ba_loop acc rest
      end
  end.

Definition badge_flag (bid : json) : string :=
  "BA-related badge found among oldest badges (ID: " +:+ py_str bid +:+ ").".

(** [for badge in oldest_badges]: the flag appended at the [break], if
    any; [badge.get] raises on a badge that is not a dict. *)
Fixpoint scan_badges (oldest_badges : list json) : result (option string) :=
  match oldest_badges with
  | [] => Returns None
  | badge :: rest =>
      match Py.attr_get badge "id" with
      | Raises e => Raises e
      | Returns JNull => scan_badges rest
      | Returns bid =>
          match py_int bid with
          | Some z =>
              if bool_decide (z ∈ BA_BADGE_IDS cfg) then Returns (Some (badge_flag bid))
              else scan_badges rest
          | None => scan_badges rest
          end
      end
  end.

(** [check_social_activity] *)
Definition check_social_activity (user_id : Z) (groups : list json) (w : world)
    : result (list string) * world :=
  let red_flags := [] in
  let '(friend_count, w) := get_friend_count srv user_id w in
  let red_flags :=
    match friend_count with
    | None => red_flags ++ ["Could not verify friend count."]
    | Some n =>
        if n <? MIN_FRIEND_COUNT cfg then
          red_flags ++ ["Fewer than " +:+ pretty (MIN_FRIEND_COUNT cfg) +:+ " friends ("
                          +:+ pretty n +:+ ")."]
        else red_flags
    end in
  match non_ba_loop [] groups with
  | Raises e => (Raises e, w)
  | Returns non_ba_groups =>
      let non_ba_group_count := Z.of_nat (length non_ba_groups) in
      let red_flags :=
        if non_ba_group_count <? MIN_NON_BA_GROUP_COUNT cfg then
          red_flags ++ ["Fewer than " +:+ pretty (MIN_NON_BA_GROUP_COUNT cfg)
                          +:+ " non-BA groups (" +:+ pretty non_ba_group_count +:+ ")."]
        else red_flags in
      let '(badge_count, w) :=
        get_total_badge_count cfg srv user_id (MIN_BADGE_COUNT cfg) w in
      let red_flags :=
        if badge_count <? MIN_BADGE_COUNT cfg then
          red_flags ++ ["Fewer than " +:+ pretty (MIN_BADGE_COUNT cfg) +:+ " badges ("
                          +:+ pretty badge_count +:+ " total)."]
        else red_flags in
      let '(oldest_badges, w) :=
        get_oldest_badges cfg srv user_id (Z.min (OLDEST_BADGES_TO_CHECK cfg) 100) w in
      match scan_badges oldest_badges with
      | Raises e => (Raises e, w)
      | Returns None => (Returns red_flags, w)
      | Returns (Some flag) => (Returns (red_flags ++ [flag]), w)
      end
  end.

End Rules.

(** ** Live blacklist loader *)

Section LiveBlacklist.
Context `{PyLib} (srv : server).

(** The body of [for col in row]: digit-only cells are added; a cell on
    which [int] raises is skipped. *)
Definition cell_step (ids : gset Z) (col : string) : gset Z :=
  let s := py_strip col in
  if py_isdigit s then
    match py_int (JStr s) with
    | Some z => ids ∪ {[z]}
    | None => ids
    end
  else ids.

Definition collect_ids (rows : list (list string)) : gset Z :=
  foldl (fun ids row => foldl cell_step ids row) ∅ rows.

(** [fetch_live_blacklist]. Every exception of the [try] block returns a
    fresh empty set. *)
Definition fetch_live_blacklist (sheet_csv_url : string) (w : world) : gset Z * world :=
  if bool_decide (sheet_csv_url = EmptyString) then (∅, w)
  else
    match urlparse sheet_csv_url with
    | None => (∅, w)
    | Some parsed =>
        if negb (bool_decide (scheme parsed = "https")) then (∅, w)
        else
          let host := default EmptyString (hostname parsed) in
          if negb (bool_decide (host = "docs.google.com")) then (∅, w)
          else
            let '(r, w) := http_get srv (GetSheet sheet_csv_url) w in
            match r with
            | Failed => (∅, w)
            | Replied _ text =>
                match csv_reader text with
                | None => (∅, w)
                | Some rows => (collect_ids rows, w)
                end
            end
    end.

Definition is_sheet_request (req : request) : bool :=
  match req with GetSheet _ => true | _ => false end.

End LiveBlacklist.

(** ** Verification flow *)

Inductive verdict := Dismissed | Verified.

(** How a run ends: at [st.stop()] with the instant dismissals, or with the
    final report. *)
Inductive report :=
| InstantDismissal (instant_dismissals red_flags : list string)
| FinalReport (v : verdict) (red_flags : list string).

Definition is_social_request (req : request) : bool :=
  match req with
  | GetFriendCount _ | GetBadges _ _ _ => true
  | _ => false
  end.

Section Flow.
Context `{PyLib} (cfg : config) (srv : server).

(** The IFD blacklist of the run: the stored one, with the live IDs when a
    sheet URL is given. *)
Definition run_blacklist (sheet_url : string) (w : world) : gset Z * world :=
  if negb (bool_decide (sheet_url = EmptyString)) then
    let '(live_ids, w) := fetch_live_blacklist srv sheet_url w in
    if negb (bool_decide (live_ids = ∅)) then (IFD_BLACKLIST_IDS cfg ∪ live_ids, w)
    else (IFD_BLACKLIST_IDS cfg, w)
  else (IFD_BLACKLIST_IDS cfg, w).

(** The account-age step of the flow: the dismissals and red flags it
    records. *)
Definition age_step (now : Z) (user_info : dict) : result (list string * list string) :=
  match check_account_age cfg now user_info with
  | Raises e => Raises e
  | Returns (is_dismissed_age, age_msg) =>
      if is_dismissed_age then Returns ([age_msg], [])
      else if Text.contains "Could not parse" age_msg
              || Text.contains "not available" age_msg
      then Returns ([], [age_msg])
      else Returns ([], [])
  end.

(** The username step. *)
Definition username_step (user_info : dict) (st : list string * list string)
    : list string * list string :=
  let '(instant_dismissals, red_flags) := st in
  let '(dismissal_reason, flag_reasons) := check_username cfg user_info in
  let instant_dismissals :=
    match dismissal_reason with
    | Some reason =>
        if negb (bool_decide (reason = EmptyString)) then instant_dismissals ++ [reason]
        else instant_dismissals
    | None => instant_dismissals
    end in
  (instant_dismissals, red_flags ++ flag_reasons).

(** The dismissals and red flags gathered by the account-age, username
    and blacklist checks. *)
Definition gather (now : Z) (user_id : Z) (user_info : dict) (groups : list json)
    (temp_ifd : gset Z) : result (list string * list string) :=
  match age_step now user_info with
  | Raises e => Raises e
  | Returns st =>
      let '(instant_dismissals, red_flags) := username_step user_info st in
      Returns (instant_dismissals ++ check_blacklists cfg user_id groups temp_ifd,
               red_flags)
  end.

(** The flow from [# Run checks] to the verdict. *)
Definition run_checks (now : Z) (user_id : Z) (user_info : dict) (groups : list json)
    (temp_ifd : gset Z) (w : world) : result report * world :=
  match gather now user_id user_info groups temp_ifd with
  | Raises e => (Raises e, w)
  | Returns (instant_dismissals, red_flags) =>
      let '(avatar_url, w) := get_user_avatar_url srv user_id w in
      if negb (bool_decide (instant_dismissals = [])) then
        (Returns (InstantDismissal instant_dismissals red_flags), w)
      else
        let '(activity, w) := check_social_activity cfg srv user_id groups w in
        match activity with
        | Raises e => (Raises e, w)
        | Returns activity_flags =>
            let red_flags := red_flags ++ activity_flags in
            if 2 <=? Z.of_nat (length red_flags)
            then (Returns (FinalReport Dismissed red_flags), w)
            else (Returns (FinalReport Verified red_flags), w)
        end
  end.

End Flow.

(** ** A reference instance of the library routines

    Used to run the definitions on concrete inputs. It reads timestamps of
    the form [YYYY-MM-DD], optionally followed by a separator, which may be
    any character, and a time [HH:MM] or [HH:MM:SS], the latter optionally
    with a fraction of three or six digits, and then optionally by an offset
    [+HH:MM] or [-HH:MM]; URLs of the form [scheme://host/path]; CSV text
    without quoted cells; and no text with characters outside ASCII. *)

Module Reference.

Definition two (a b : ascii) : option Z :=
  if Text.isdigit_char a && Text.isdigit_char b
  then Some (10 * Text.digit_value a + Text.digit_value b) else None.

Definition number_of (ds : list ascii) : option Z :=
  if forallb Text.isdigit_char ds then Some (Text.decimal_value ds) else None.

(** Days from 1970-01-01 to the civil date [y-m-d]. *)
Definition days_from_civil (y m d : Z) : Z :=
  let y' := if m <=? 2 then y - 1 else y in
  let era := y' `div` 400 in
  let yoe := y' - era * 400 in
  let doy := (153 * (if 2 <? m then m - 3 else m + 9) + 2) `div` 5 + d - 1 in
  let doe := yoe * 365 + yoe `div` 4 - yoe `div` 100 + doy in
  era * 146097 + doe - 719468.

Definition offset_of (s : list ascii) : option (option Z) :=
  match s with
  | [] => Some None
  | [sg; h1; h2; ":"%char; m1; m2] =>
      h ← two h1 h2; m ← two m1 m2;
      let off := (h * 3600 + m * 60) * 1000000 in
      if bool_decide (sg = "+"%char) then Some (Some off)
      else if bool_decide (sg = "-"%char) then Some (Some (- off))
      else None
  | _ => None
  end.

Definition fraction_of (s : list ascii) : option (Z * list ascii) :=
  match s with
  | "."%char :: a :: b :: c :: r =>
      match r with
      | d :: e :: f :: r' =>
          if forallb Text.isdigit_char [d; e; f] then
            n ← number_of [a; b; c; d; e; f]; Some (n, r')
          else n ← number_of [a; b; c]; Some (n * 1000, r)
      | _ => n ← number_of [a; b; c]; Some (n * 1000, r)
      end
  | "."%char :: _ => None
  | _ => Some (0, s)
  end.

(** The seconds and the fraction after [HH:MM], in microseconds, and the
    rest of the text. *)
Definition seconds_of (s : list ascii) : option (Z * list ascii) :=
  match s with
  | ":"%char :: s1 :: s2 :: rest =>
      sec ← two s1 s2;
      '(frac, rest) ← fraction_of rest;
      if sec <? 60 then Some (sec * 1000000 + frac, rest) else None
  | _ => Some (0, s)
  end.

(** The time of day after the date, in microseconds, and the offset. *)
Definition time_of (s : list ascii) : option (Z * option Z) :=
  match s with
  | [] => Some (0, None)
  | _ :: h1 :: h2 :: ":"%char :: i1 :: i2 :: rest =>
      h ← two h1 h2; mi ← two i1 i2;
      '(sec, rest) ← seconds_of rest;
      off ← offset_of rest;
      if (h <? 24) && (mi <? 60) then Some ((h * 60 + mi) * 60000000 + sec, off)
      else None
  | _ => None
  end.

Definition days_in_month (y m : Z) : Z :=
  if m =? 2 then
    if (y `mod` 4 =? 0) && (negb (y `mod` 100 =? 0) || (y `mod` 400 =? 0)) then 29 else 28
  else if (m =? 4) || (m =? 6) || (m =? 9) || (m =? 11) then 30
  else 31.

Definition parse_iso (s : string) : option datetime :=
  match Text.chars s with
  | y1 :: y2 :: y3 :: y4 :: "-"%char :: m1 :: m2 :: "-"%char :: d1 :: d2 :: rest =>
      y ← number_of [y1; y2; y3; y4];
      m ← two m1 m2; d ← two d1 d2;
      '(time, off) ← time_of rest;
      if (1 <=? y) && (1 <=? m) && (m <=? 12) && (1 <=? d) && (d <=? days_in_month y m)
      then Some {| wall_us := days_from_civil y m d * 86400000000 + time;
                   utcoffset_us := off |}
      else None
  | _ => None
  end.

(** The characters up to the first one satisfying [stop], and the rest. *)
Fixpoint span_until (stop : ascii → bool) (s : string) : string * string :=
  match s with
  | EmptyString => (EmptyString, EmptyString)
  | String c r =>
      if stop c then (EmptyString, s)
      else let '(a, b) := span_until stop r in (String c a, b)
  end.

Definition parse_url (url : string) : option parsed_url :=
  let '(sch, rest) := span_until (fun c => bool_decide (c = ":"%char)) url in
  if Text.startswith "://" rest then
    let after := String.substring 3 (String.length rest - 3) rest in
    let '(netloc, tail) :=
      span_until (fun c => bool_decide (c = "/"%char) || bool_decide (c = "?"%char)
                           || bool_decide (c = "#"%char)) after in
    let '(host, _) := span_until (fun c => bool_decide (c = ":"%char)) netloc in
    let '(pth, _) :=
      span_until (fun c => bool_decide (c = "?"%char) || bool_decide (c = "#"%char)) tail in
    Some {| scheme := Text.lower sch;
            hostname := if bool_decide (host = EmptyString) then None
                        else Some (Text.lower host);
            path := pth |}
  else Some {| scheme := EmptyString; hostname := None; path := url |}.

Fixpoint split_on (sep : ascii) (cur : string) (s : string) : list string :=
  match s with
  | EmptyString => [String.rev cur]
  | String c r =>
      if bool_decide (c = sep) then String.rev cur :: split_on sep EmptyString r
      else split_on sep (String c cur) r
  end.

Definition newline : ascii := Ascii.ascii_of_N 10.

Definition read_csv (text : string) : option (list (list string)) :=
  Some (map (split_on ","%char EmptyString)
            (filter (fun line => line ≠ EmptyString) (split_on newline EmptyString text))).

Definition lib : PyLib := {|
  fromisoformat := parse_iso;
  urlparse := parse_url;
  csv_reader := read_csv;
  str_other := fun _ => "<object>";
  int_max_str_digits := Some 4300%nat;
  strip_other := fun s => s;
  isdigit_other := fun _ => false;
  int_other := fun _ => None
|}.

End Reference.

(** ** Vocabulary of the properties *)

(** The requests a fetch adds to the history [w]: all of them page requests,
    at most [budget] of them. *)
Definition pages_within (budget : Z) (w w' : world) : Prop :=
  ∃ reqs : list request,
    w' = reqs ++ w
    ∧ Forall (fun req => is_badge_request req = true) reqs
    ∧ Z.of_nat (length reqs) ≤ Z.max 0 budget.

(** A response the [try] block of a page fetch cannot use: the call failed,
    the body is not JSON, or it is not an object. *)
Definition unusable (r : response) : Prop :=
  ∀ data, json_of r ≠ Some (JDict data).

(** The scalar thresholds: configuration key, hardcoded default, field. *)
Definition threshold_table : list (string * Z * (config → Z)) :=
  [ ("MIN_ACCOUNT_AGE_DAYS", 60, MIN_ACCOUNT_AGE_DAYS);
    ("MIN_FRIEND_COUNT", 30, MIN_FRIEND_COUNT);
    ("MIN_NON_BA_GROUP_COUNT", 13, MIN_NON_BA_GROUP_COUNT);
    ("MIN_BADGE_COUNT", 300, MIN_BADGE_COUNT);
    ("OLDEST_BADGES_TO_CHECK", 90, OLDEST_BADGES_TO_CHECK);
    ("USERNAME_DIGIT_THRESHOLD", 4, USERNAME_DIGIT_THRESHOLD);
    ("MAX_BADGE_PAGES", 10, MAX_BADGE_PAGES);
    ("REQUEST_TIMEOUT_SECONDS", 6, REQUEST_TIMEOUT) ].

(** The integer-set fields: configuration key, field. *)
Definition int_set_table : list (string * (config → gset Z)) :=
  [ ("FRIENDLY_OWNER_IDS", FRIENDLY_OWNER_IDS);
    ("BA_UK_GROUP_IDS", BA_UK_GROUP_IDS);
    ("BLACKLISTED_GROUP_IDS", BLACKLISTED_GROUP_IDS);
    ("BA_BADGE_IDS", BA_BADGE_IDS);
    ("IFD_BLACKLIST_IDS", IFD_BLACKLIST_IDS);
    ("BA_BLACKLIST_IDS", BA_BLACKLIST_IDS) ].

(** The value a threshold resolves to, in the words of the specification:
    the coerced value when the key is present and coercible, the default
    otherwise. *)
Definition threshold_spec `{PyLib} (raw : dict) (key : string) (dflt : Z) : Z :=
  match Py.lookup raw key with
  | Some v => default dflt (py_int v)
  | None => dflt
  end.

(** The members of an integer-set field, in the words of the specification:
    the coercions of the coercible elements (of the scalar itself when the
    value is no list); nothing for a missing key or [null]. *)
Definition int_set_spec `{PyLib} (raw : dict) (key : string) (z : Z) : Prop :=
  match Py.lookup raw key with
  | None | Some JNull => False
  | Some (JList l) => ∃ v, v ∈ l ∧ py_int v = Some z
  | Some v => py_int v = Some z
  end.

(** The ten decimal digits. *)
Definition decimal_digits : list ascii :=
  ["0"; "1"; "2"; "3"; "4"; "5"; "6"; "7"; "8"; "9"]%char.


(** The text [needle] occurs in the text [hay]. *)
Definition occurs_in (needle hay : string) : Prop :=
  ∃ before after, hay = before +:+ needle +:+ after.

(** [username] as [check_username] reads it. *)
Definition username_of `{PyLib} (user_info : dict) : string :=
  Text.lower (py_str (Py.get_or user_info "name" (JStr ""))).

(** The JSON value [x] is an ID of the set [s]: it is not [null] and [int]
    reads it as a member of [s]. *)
Definition id_in `{PyLib} (x : json) (s : gset Z) : Prop :=
  x ≠ JNull ∧ ∃ z, py_int x = Some z ∧ z ∈ s.

(** The group is in the allowlist of recognized groups. *)
Definition recognized_group `{PyLib} (cfg : config) (grp : dict) : Prop :=
  id_in (Py.get grp "id") (BA_UK_GROUP_IDS cfg).

(** The group has an owner record whose user ID is in the allowlist of
    friendly owners. *)
Definition friendly_owner `{PyLib} (cfg : config) (grp : dict) : Prop :=
  ∃ owner, Py.get grp "owner" = JDict owner
           ∧ id_in (Py.get owner "userId") (FRIENDLY_OWNER_IDS cfg).

(** The reasons [check_blacklists] records for one membership. *)
Definition membership_reasons `{PyLib} (cfg : config) (item : json) : list string :=
  blacklist_step cfg [] item.

Definition unavailable_msg : string :=
  "Created date not available. Manual review required.".

Definition unparseable_msg `{PyLib} (created_str : json) : string :=
  "Could not parse creation date: " +:+ py_str created_str.

Definition badge_id (badge : json) : json :=
  match badge with
  | JDict d => Py.get d "id"
  | _ => JNull
  end.

Definition is_record (badge : json) : bool :=
  match badge with JDict _ => true | _ => false end.

(** A badge whose ID, coerced by [int], is in [BA_BADGE_IDS]. *)
Definition is_notable `{PyLib} (cfg : config) (badge : json) : bool :=
  opt_in (int_or_none (badge_id badge)) (BA_BADGE_IDS cfg).

(** A badge the scan passes over. *)
Definition passed_over `{PyLib} (cfg : config) (badge : json) : Prop :=
  is_record badge = true ∧ is_notable cfg badge = false.

(** The flags of [check_social_activity] ahead of the badge scan, and the
    history when the oldest badges are fetched. *)
Definition before_scan `{PyLib} (cfg : config) (srv : server) (user_id : Z)
    (non_ba_groups : list json) (w : world) : list string * world :=
  let '(friend_count, w) := get_friend_count srv user_id w in
  let red_flags :=
    match friend_count with
    | None => ["Could not verify friend count."]
    | Some n =>
        if n <? MIN_FRIEND_COUNT cfg then
          ["Fewer than " +:+ pretty (MIN_FRIEND_COUNT cfg) +:+ " friends ("
             +:+ pretty n +:+ ")."]
        else []
    end in
  let non_ba_group_count := Z.of_nat (length non_ba_groups) in
  let red_flags :=
    if non_ba_group_count <? MIN_NON_BA_GROUP_COUNT cfg then
      red_flags ++ ["Fewer than " +:+ pretty (MIN_NON_BA_GROUP_COUNT cfg)
                      +:+ " non-BA groups (" +:+ pretty non_ba_group_count +:+ ")."]
    else red_flags in
  let '(badge_count, w) :=
    get_total_badge_count cfg srv user_id (MIN_BADGE_COUNT cfg) w in
  let red_flags :=
    if badge_count <? MIN_BADGE_COUNT cfg then
      red_flags ++ ["Fewer than " +:+ pretty (MIN_BADGE_COUNT cfg) +:+ " badges ("
                      +:+ pretty badge_count +:+ " total)."]
    else red_flags in
  (red_flags, w).

(** The red flag for an account whose age cannot be told: the creation
    date is missing, or the program cannot read it. *)
Definition age_flags `{PyLib} (user_info : dict) : list string :=
  let created_str := Py.get user_info "created" in
  if negb (Py.truthy created_str) then [unavailable_msg]
  else match parse_created created_str with
       | None => [unparseable_msg created_str]
       | Some _ => []
       end.

(** The reasons the account-age and username checks contribute to the
    instant dismissals. *)
Definition age_reasons `{PyLib} (cfg : config) (now : Z) (user_info : dict) : list string :=
  match check_account_age cfg now user_info with
  | Returns (true, age_msg) => [age_msg]
  | _ => []
  end.

Definition username_reasons `{PyLib} (cfg : config) (user_info : dict) : list string :=
  match (check_username cfg user_info).1 with
  | Some reason => [reason]
  | None => []
  end.

(** A URL the loader accepts: not empty, parsed with scheme [https] and
    host [docs.google.com]. *)
Definition accepted_url `{PyLib} (url : string) : Prop :=
  url ≠ EmptyString
  ∧ ∃ parsed, urlparse url = Some parsed
              ∧ scheme parsed = "https" ∧ hostname parsed = Some "docs.google.com".

(** ** Example data *)

(** The configuration resolved from an empty [config.json]. *)
Definition default_config : config := resolve (H := Reference.lib) [].

Definition plain_badge (id : Z) : json := JDict [("id", JInt id)].

(** A server no request reaches. *)
Definition unreachable : server := fun _ => Failed.

(** A server that always answers with the same non-empty page and the same
    cursor. *)
Definition repeating : server := fun _ =>
  Replied (Some (JDict [("data", JList [plain_badge 5]);
                        ("nextPageCursor", JStr "again")])) EmptyString.

(** A server that always answers with a non-empty page and a cursor not
    seen before. *)
Definition endless : server := fun history =>
  Replied (Some (JDict [("data", JList [plain_badge 5]);
                        ("nextPageCursor", JInt (Z.of_nat (length history)))])) EmptyString.

(** An account with 101 badges, served in two pages; the 101st oldest badge
    has ID 999. It has 50 friends. *)
Definition deep_account : server := fun history =>
  match history with
  | GetFriendCount _ :: _ => Replied (Some (JDict [("count", JInt 50)])) EmptyString
  | GetBadges _ _ None :: _ =>
      Replied (Some (JDict [("data", JList (map (fun i => plain_badge (Z.of_nat i)) (seq 1 100)));
                            ("nextPageCursor", JStr "page2")])) EmptyString
  | GetBadges _ _ (Some _) :: _ =>
      Replied (Some (JDict [("data", JList [plain_badge 999]);
                            ("nextPageCursor", JNull)])) EmptyString
  | _ => Failed
  end.

Definition deep_config : config :=
  resolve (H := Reference.lib)
    [("OLDEST_BADGES_TO_CHECK", JInt 101); ("BA_BADGE_IDS", JList [JInt 999])].

Definition early_config : config :=
  resolve (H := Reference.lib) [("BA_BADGE_IDS", JList [JInt 3; JInt 7])].

(** A sheet served from anywhere: three IDs. *)
Definition sheet_host : server := fun _ =>
  Replied None ("101,202" +:+ String Reference.newline "303").

(** 2024-01-01, 2024-01-11 and 2024-03-01 at 00:00:00Z, in microseconds
    since 1970. *)
Definition jan_1 : Z := 1704067200000000.
Definition jan_11 : Z := 1704931200000000.
Definition mar_1 : Z := 1709251200000000.

Definition evil_url : string := "https://evil.example.com/export?format=csv".
Definition sheet_url : string := "https://docs.google.com/spreadsheets/d/abc/export?format=csv".

(** An account created on 2024-01-01T00:00:00Z. *)
Definition new_account : dict :=
  [("name", JStr "cooluser"); ("created", JStr "2024-01-01T00:00:00Z")].

(** An account whose creation date ends in Z and has no time of day. *)
Definition date_only_account : dict :=
  [("name", JStr "cooluser"); ("created", JStr "2020-01-01Z")].

(** An account with an unreadable creation date and [alt] in its name. *)
Definition flagged_account : dict :=
  [("name", JStr "baAlt123"); ("created", JStr "yesterday")].

(** A membership whose group is a text. *)
Definition odd_membership : json := JDict [("group", JStr "oops")].

Definition undated_account : dict :=
  [("name", JStr "cooluser"); ("created", JStr "yesterday")].

(** A membership of the group 77, British Army Reserves, owned by [owner]. *)
Definition reserves_group (owner : Z) : dict :=
  [("id", JInt 77); ("name", JStr "British Army Reserves");
   ("owner", JDict [("userId", JInt owner)])].

Definition reserves (owner : Z) : json :=
  JDict [("group", JDict (reserves_group owner)); ("role", JDict [("name", JStr "Recruit")])].

(** A membership of the recognized group 1, owned by user 5. *)
Definition regiment_group : dict :=
  [("id", JInt 1); ("name", JStr "The BRITISH ARMY");
   ("owner", JDict [("userId", JInt 5)])].

Definition regiment : json := JDict [("group", JDict regiment_group)].

Definition reserves_config : config :=
  resolve (H := Reference.lib)
    [("FRIENDLY_OWNER_IDS", JList [JInt 42]); ("BA_UK_GROUP_IDS", JList [JInt 1])].

Definition sloppy_raw : dict :=
  [("MIN_FRIEND_COUNT", JStr "many");
   ("BA_BADGE_IDS", JList [JInt 1; JStr "x"; JStr " 22 "; JNull])].

(** ** More of the program, and the vocabulary of its properties *)

(** The cursor a page request carries. *)
Definition cursor_of (req : request) : option json :=
  match req with
  | GetBadges _ _ cursor => cursor
  | _ => None
  end.

(** The cursors of a history, latest first. *)
Definition cursors_sent (reqs : list request) : list json := omap cursor_of reqs.

(** No cursor of the list, latest first, is equal ([==]) to one sent before
    it. *)
Fixpoint never_repeats (cursors : list json) : Prop :=
  match cursors with
  | [] => True
  | c :: earlier => existsb (Py.eqb c) earlier = false ∧ never_repeats earlier
  end.

(** A server whose pages hold at most [k] items. *)
Definition pages_at_most (k : Z) (srv : server) : Prop :=
  ∀ history data n,
    json_of (srv history) = Some (JDict data) →
    Py.len (Py.get_or data "data" (JList [])) = Some n →
    n ≤ k.

(** What the cycle guard maintains: the cursor about to be sent and the
    cursors sent never repeat, and all of them are recorded as seen. *)
Definition guarded (cursor : json) (seen sent : list json) : Prop :=
  let pending := option_list (cursor_param cursor) ++ sent in
  never_repeats pending ∧ ∀ x, x ∈ pending → x ∈ seen.

(** Each cursor of the requests [reqs], latest first, issued on top of the
    history [w], is the [nextPageCursor] of the response to the request
    before it. *)
Fixpoint forwards (srv : server) (reqs : list request) (w : world) : Prop :=
  match reqs with
  | [] => True
  | req :: earlier =>
      (∀ c, cursor_of req = Some c →
         ∃ data, json_of (srv (earlier ++ w)) = Some (JDict data)
                 ∧ Py.get data "nextPageCursor" = c)
      ∧ forwards srv earlier w
  end.

(** The page requests of one fetch: for one user, in one sort order. *)
Definition pages_of (user_id : Z) (order : sort_order) (reqs : list request) : Prop :=
  Forall (fun req => ∃ cursor, req = GetBadges user_id order cursor) reqs.

Definition friend_unknown_flag : string := "Could not verify friend count.".

(** The cursor a loop is about to send comes from the latest response. *)
Definition handed_over (srv : server) (cursor : json) (w : world) : Prop :=
  ∀ c, cursor_param cursor = Some c →
    ∃ data, json_of (srv w) = Some (JDict data) ∧ Py.get data "nextPageCursor" = c.

Definition ifd_reason : string := "User is on the IFD Blacklist.".
Definition ba_reason : string := "User is on the BA Blacklist.".

(** The ID a cell of ASCII text stands for: the value of its digits when
    the cell, trimmed, is made of digits only and the interpreter's digit
    limit allows it. *)
Definition cell_id `{PyLib} (col : string) : option Z :=
  let s := Text.strip col in
  if Text.isdigit s then
    if match int_max_str_digits with
       | Some n => bool_decide (n < length (Text.chars s))%nat
       | None => false
       end
    then None
    else Some (Text.decimal_value (Text.chars s))
  else None.

(** What the body of the loop over the cells reads from a cell, if
    anything. *)
Definition cell_value `{PyLib} (col : string) : option Z :=
  let s := py_strip col in
  if py_isdigit s then py_int (JStr s) else None.

(** A sheet without characters outside ASCII. *)
Definition ascii_sheet (rows : list (list string)) : Prop :=
  ∀ row col, row ∈ rows → col ∈ row → Text.isascii col = true.

(** A character of the class [A-Za-z0-9_.-]. *)
Definition safe_char (c : ascii) : bool :=
  let n := Text.code c in
  (((65 <=? n) && (n <=? 90)) || ((97 <=? n) && (n <=? 122))
   || ((48 <=? n) && (n <=? 57)))%N
  || bool_decide (c = "_"%char) || bool_decide (c = "."%char)
  || bool_decide (c = "-"%char).

(** [re.sub(r"[^A-Za-z0-9_.-]", "_", s)] *)
Definition replace_unsafe (s : string) : string :=
  String.string_of_list_ascii
    (map (fun c => if safe_char c then c else "_"%char) (Text.chars s)).

(** [safe_filename] *)
Definition safe_filename (s : string) : string :=
  let s := replace_unsafe s in
  String.string_of_list_ascii (Py.slice_to (Text.chars s) 200).

(** The name of the downloadable report of a user. *)
Definition report_filename (user_id : Z) : string :=
  safe_filename ("report_" +:+ pretty user_id +:+ ".json").

(** A membership whose group is a true value but no object: [grp.get]
    raises on it. *)
Definition malformed_group (g : json) : bool :=
  match group_of g with
  | JDict _ => false
  | grp => Py.truthy grp
  end.

(** A membership that counts as a non-BA group: its group's ID coerces to an
    integer outside [BA_UK_GROUP_IDS]. *)
Definition counts_as_non_ba `{PyLib} (cfg : config) (g : json) : bool :=
  match group_of g with
  | JDict grp =>
      match int_or_none (Py.get grp "id") with
      | Some gid => negb (bool_decide (gid ∈ BA_UK_GROUP_IDS cfg))
      | None => false
      end
  | _ => false
  end.

(** The flags of [check_social_activity] for too few groups and too few
    badges. *)
Definition group_count_flag (cfg : config) (count : Z) : string :=
  "Fewer than " +:+ pretty (MIN_NON_BA_GROUP_COUNT cfg)
    +:+ " non-BA groups (" +:+ pretty count +:+ ").".

Definition badge_count_flag (cfg : config) (count : Z) : string :=
  "Fewer than " +:+ pretty (MIN_BADGE_COUNT cfg) +:+ " badges ("
    +:+ pretty count +:+ " total).".

(** * Properties *)

(** ** Text *)

Lemma startswith_app (p s : string) : Text.startswith p (p +:+ s) = true.
Proof.
  induction p as [| c p IH]; simpl; [destruct s; reflexivity |].
  rewrite bool_decide_eq_true_2 by reflexivity. exact IH.
Qed.

Lemma contains_app_r (needle a hay : string) :
  Text.contains needle hay = true → Text.contains needle (a +:+ hay) = true.
Proof.
  intros Hc. induction a as [| c a IH]; simpl; [exact Hc |].
  rewrite IH. apply orb_true_r.
Qed.

Lemma contains_self_app (s b : string) : Text.contains s (s +:+ b) = true.
Proof.
  destruct (s +:+ b) eqn:Heq; simpl; rewrite <- Heq, startswith_app; reflexivity.
Qed.

(** A text occurs in every text built around it. *)
Lemma contains_infix (a s b : string) : Text.contains s (a +:+ s +:+ b) = true.
Proof. apply contains_app_r, contains_self_app. Qed.

Lemma chars_of_list (l : list ascii) : Text.chars (String.string_of_list_ascii l) = l.
Proof. apply String.list_ascii_of_string_of_list_ascii. Qed.

Lemma chars_app (s t : string) : Text.chars (s +:+ t) = Text.chars s ++ Text.chars t.
Proof. induction s as [| c s IH]; simpl; [reflexivity |]. f_equal. exact IH. Qed.

Lemma of_chars (s : string) : String.string_of_list_ascii (Text.chars s) = s.
Proof. apply String.string_of_list_ascii_of_string. Qed.

Lemma startswith_prefix (p s : string) :
  Text.startswith p s = true → ∃ rest, s = p +:+ rest.
Proof.
  revert s. induction p as [| a p IH]; intros s; simpl; [exists s; reflexivity |].
  destruct s as [| b s]; [discriminate |].
  intros [Hab Hrest]%andb_prop. apply bool_decide_eq_true_1 in Hab. subst b.
  destruct (IH s Hrest) as [rest ->]. exists rest. reflexivity.
Qed.

(** [needle in hay] holds exactly when [needle] occurs in [hay]. *)
Lemma contains_occurs (needle hay : string) :
  Text.contains needle hay = true ↔ occurs_in needle hay.
Proof.
  split.
  - induction hay as [| c hay IH]; simpl.
    + rewrite orb_false_r. intros [rest Hrest]%startswith_prefix.
      exists EmptyString, rest. exact Hrest.
    + intros [Hhere | Hlater]%orb_prop.
      * apply startswith_prefix in Hhere as [rest Hrest].
        exists EmptyString, rest. exact Hrest.
      * destruct (IH Hlater) as (before & after & ->).
        exists (String c before), after. reflexivity.
  - intros (before & after & ->). apply contains_infix.
Qed.



(** The characters of a text that occurs in another are characters of the
    other. *)
Lemma contains_chars (needle hay : string) (c : ascii) :
  Text.contains needle hay = true → c ∈ Text.chars needle → c ∈ Text.chars hay.
Proof.
  intros (before & after & ->)%contains_occurs Hc.
  rewrite !chars_app, !elem_of_app. auto.
Qed.

Lemma pretty_N_char_digit (x : N) : pretty_N_char x ∈ decimal_digits.
Proof.
  apply (bool_decide_eq_true_1 _).
  destruct x as [| p]; [reflexivity |].
  do 4 (destruct p as [p | p |]; try reflexivity).
Qed.

Lemma pretty_N_go_digits (x : N) (s : string) :
  Forall (fun c => c ∈ decimal_digits ∨ c = "-"%char) (Text.chars s) →
  Forall (fun c => c ∈ decimal_digits ∨ c = "-"%char) (Text.chars (pretty_N_go x s)).
Proof.
  revert s. induction (N.lt_wf_0 x) as [x _ IH]. intros s Hs.
  destruct (decide (0 < x)%N) as [Hpos | Hzero].
  - rewrite pretty_N_go_step by exact Hpos.
    apply IH; [apply N.div_lt; lia |].
    simpl. constructor; [left; apply pretty_N_char_digit | exact Hs].
  - replace x with 0%N by lia. rewrite pretty_N_go_0. exact Hs.
Qed.

(** A number is written with digits and the minus sign only. *)
Lemma pretty_Z_chars (z : Z) :
  Forall (fun c => c ∈ decimal_digits ∨ c = "-"%char) (Text.chars (pretty z)).
Proof.
  assert (Hpos : ∀ p : positive,
            Forall (fun c => c ∈ decimal_digits ∨ c = "-"%char) (Text.chars (pretty p))).
  { intros p. unfold pretty, pretty_positive, pretty, pretty_N.
    destruct (decide _); [discriminate |].
    apply pretty_N_go_digits. constructor. }
  destruct z as [| p | p]; unfold pretty, pretty_Z.
  - constructor; [left; left | constructor].
  - apply Hpos.
  - simpl. constructor; [right; reflexivity | apply Hpos].
Qed.

(** The message for an account whose age is known and sufficient holds
    neither of the two phrases by which the flow recognizes a date that
    could not be verified. *)
Lemma age_message_plain (days : Z) :
  Text.contains "Could not parse" ("Account is " +:+ pretty days +:+ " days old.") = false
  ∧ Text.contains "not available" ("Account is " +:+ pretty days +:+ " days old.") = false.
Proof.
  assert (Hfree : ∀ c : ascii,
            bool_decide (c ∈ Text.chars "Account is ") = false →
            bool_decide (c ∈ decimal_digits) = false → c ≠ "-"%char →
            bool_decide (c ∈ Text.chars " days old.") = false →
            c ∉ Text.chars ("Account is " +:+ pretty days +:+ " days old.")).
  { intros c H1 H2 H3 H4. rewrite !chars_app, !elem_of_app.
    apply bool_decide_eq_false_1 in H1, H2, H4.
    intros [? | [Hin | ?]]; [contradiction | | contradiction].
    pose proof (pretty_Z_chars days) as Hall. rewrite Forall_forall in Hall.
    destruct (Hall c Hin); contradiction. }
  split.
  - destruct (Text.contains "Could not parse" _) eqn:Hc; [exfalso | reflexivity].
    apply (contains_chars _ _ "C"%char) in Hc; [| left].
    revert Hc. apply Hfree; first [reflexivity | discriminate].
  - destruct (Text.contains "not available" _) eqn:Hc; [exfalso | reflexivity].
    apply (contains_chars _ _ "v"%char) in Hc; [| do 5 right; left].
    revert Hc. apply Hfree; first [reflexivity | discriminate].
Qed.

(** ** Pagination *)

Section Pagination.
Context (cfg : config) (srv : server).

(** One turn of the loop of [get_oldest_badges]. *)
Lemma oldest_loop_turn user_id total_limit badges cursor seen pages w :
  oldest_loop cfg srv user_id total_limit badges cursor seen pages w =
  if (Z.of_nat (length badges) <? total_limit) && (pages <? MAX_BADGE_PAGES cfg) then
    let rw := http_get srv (GetBadges user_id Asc (cursor_param cursor)) w in
    match oldest_page rw.1 badges seen with
    | Break badges' => (badges', rw.2)
    | Next badges' cursor' seen' =>
        oldest_loop cfg srv user_id total_limit badges' cursor' seen' (pages + 1) rw.2
    end
  else (badges, w).
Proof.
  funelim (oldest_loop cfg srv user_id total_limit badges cursor seen pages w).
  - rewrite running. reflexivity.
  - rewrite stopped. reflexivity.
Qed.

(** One turn of the loop of [get_total_badge_count]. *)
Lemma count_loop_turn user_id pass_threshold total cursor seen pages w :
  count_loop cfg srv user_id pass_threshold total cursor seen pages w =
  if pages <? MAX_BADGE_PAGES cfg then
    let rw := http_get srv (GetBadges user_id Desc (cursor_param cursor)) w in
    match count_page pass_threshold rw.1 total seen with
    | Break total' => (total', rw.2)
    | Next total' cursor' seen' =>
        count_loop cfg srv user_id pass_threshold total' cursor' seen' (pages + 1) rw.2
    end
  else (total, w).
Proof.
  funelim (count_loop cfg srv user_id pass_threshold total cursor seen pages w).
  - rewrite running. reflexivity.
  - rewrite stopped. reflexivity.
Qed.

Lemma pages_within_refl budget w : pages_within budget w w.
Proof. exists []. repeat split; [constructor | simpl; lia]. Qed.

Lemma pages_within_step budget req w w' :
  is_badge_request req = true →
  0 ≤ budget →
  pages_within budget (req :: w) w' →
  pages_within (budget + 1) w w'.
Proof.
  intros Hreq Hb (reqs & -> & Hall & Hlen).
  exists (reqs ++ [req]). rewrite <- app_assoc. repeat split.
  - apply Forall_app. split; [assumption | repeat constructor; assumption].
  - rewrite length_app. simpl. lia.
Qed.

(** From [pages] pages on, the loop issues at most the pages that remain. *)
Lemma oldest_loop_pages user_id total_limit badges cursor seen pages w :
  pages_within (MAX_BADGE_PAGES cfg - pages) w
    (oldest_loop cfg srv user_id total_limit badges cursor seen pages w).2.
Proof.
  funelim (oldest_loop cfg srv user_id total_limit badges cursor seen pages w);
    [| apply pages_within_refl].
  pose proof running as Hp. apply andb_prop in Hp as [_ Hp%Z.ltb_lt].
  replace (MAX_BADGE_PAGES cfg - pages) with (MAX_BADGE_PAGES cfg - (pages + 1) + 1) by lia.
  apply pages_within_step with (req := GetBadges user_id Asc (cursor_param cursor));
    [reflexivity | lia |].
  destruct (oldest_page _ _ _) as [b | b c s]; simpl.
  - apply pages_within_refl.
  - apply H.
Qed.

Lemma count_loop_pages user_id pass_threshold total cursor seen pages w :
  pages_within (MAX_BADGE_PAGES cfg - pages) w
    (count_loop cfg srv user_id pass_threshold total cursor seen pages w).2.
Proof.
  funelim (count_loop cfg srv user_id pass_threshold total cursor seen pages w);
    [| apply pages_within_refl].
  pose proof running as Hp. apply Z.ltb_lt in Hp.
  replace (MAX_BADGE_PAGES cfg - pages) with (MAX_BADGE_PAGES cfg - (pages + 1) + 1) by lia.
  apply pages_within_step with (req := GetBadges user_id Desc (cursor_param cursor));
    [reflexivity | lia |].
  destruct (count_page _ _ _ _) as [b | b c s]; simpl.
  - apply pages_within_refl.
  - apply H.
Qed.

Lemma get_oldest_badges_pages user_id total_limit w :
  pages_within (MAX_BADGE_PAGES cfg) w (get_oldest_badges cfg srv user_id total_limit w).2.
Proof.
  unfold get_oldest_badges.
  pose proof (oldest_loop_pages user_id total_limit [] (JStr "") [] 0 w) as Hp.
  destruct (oldest_loop _ _ _ _ _ _ _ _ _) as [badges w']. simpl in *.
  rewrite Z.sub_0_r in Hp. exact Hp.
Qed.

Lemma get_total_badge_count_pages user_id pass_threshold w :
  pages_within (MAX_BADGE_PAGES cfg) w
    (get_total_badge_count cfg srv user_id pass_threshold w).2.
Proof.
  unfold get_total_badge_count.
  pose proof (count_loop_pages user_id pass_threshold 0 (JStr "") [] 0 w) as Hp.
  rewrite Z.sub_0_r in Hp. exact Hp.
Qed.

Lemma oldest_page_unusable r badges seen :
  unusable r → oldest_page r badges seen = Break badges.
Proof.
  unfold unusable, oldest_page. intros Hr.
  destruct (json_of r) as [[]|]; try reflexivity. exfalso. eapply Hr. reflexivity.
Qed.

Lemma count_page_unusable p r total seen :
  unusable r → count_page p r total seen = Break total.
Proof.
  unfold unusable, count_page. intros Hr.
  destruct (json_of r) as [[]|]; try reflexivity. exfalso. eapply Hr. reflexivity.
Qed.

(** However the [try] block ends, the badges accumulated before it are
    kept. *)
Lemma oldest_page_prefix r badges seen :
  match oldest_page r badges seen with
  | Break b | Next b _ _ => badges `prefix_of` b
  end.
Proof.
  unfold oldest_page.
  destruct (json_of r) as [[]|]; try reflexivity.
  destruct (negb _); [reflexivity |].
  destruct (Py.iter _) as [items|]; [| reflexivity].
  destruct (Py.set_contains _ _) as [[]|]; try destruct (negb _);
    apply prefix_app_r; reflexivity.
Qed.

Lemma oldest_loop_prefix user_id total_limit badges cursor seen pages w :
  badges `prefix_of`
    (oldest_loop cfg srv user_id total_limit badges cursor seen pages w).1.
Proof.
  funelim (oldest_loop cfg srv user_id total_limit badges cursor seen pages w);
    [| reflexivity].
  pose proof (oldest_page_prefix
                (http_get srv (GetBadges user_id Asc (cursor_param cursor)) w).1
                badges seen_cursors) as Hstep.
  destruct (oldest_page _ _ _) as [b | b c s]; simpl; [assumption |].
  etrans; [exact Hstep | apply H].
Qed.

Lemma count_page_mono p r total seen :
  match count_page p r total seen with
  | Break t | Next t _ _ => total ≤ t
  end.
Proof.
  unfold count_page.
  destruct (json_of r) as [[]|]; try reflexivity.
  destruct (negb _); [reflexivity |].
  destruct (Py.len _) as [n|] eqn:Hlen; [| reflexivity].
  assert (0 ≤ n) by (destruct (Py.get_or _ _ _); simplify_eq/=; lia).
  destruct (_ <=? _); [lia |].
  destruct (negb _); [lia |].
  destruct (Py.set_contains _ _) as [[]|]; lia.
Qed.

Lemma count_loop_mono user_id pass_threshold total cursor seen pages w :
  total ≤ (count_loop cfg srv user_id pass_threshold total cursor seen pages w).1.
Proof.
  funelim (count_loop cfg srv user_id pass_threshold total cursor seen pages w);
    [| reflexivity].
  pose proof (count_page_mono pass_threshold
                (http_get srv (GetBadges user_id Desc (cursor_param cursor)) w).1
                total_badges seen_cursors) as Hstep.
  destruct (count_page _ _ _ _) as [t | t c s]; simpl; [assumption |].
  etrans; [exact Hstep | apply H].
Qed.

(** C5. Whatever the server answers, [get_oldest_badges] and
    [get_total_badge_count] return after at most [MAX_BADGE_PAGES] page
    requests (none when the bound is not positive). When the response to a
    page request cannot be used, the loop stops there and returns what it
    has accumulated; in every case the accumulated badges are a prefix of
    the list the loop returns, and the accumulated count is at most the
    count it returns. Both functions are total: every exception of the
    [try] block ends the loop. *)
Theorem badge_fetch_bounded (user_id limit : Z) (w : world) :
  pages_within (MAX_BADGE_PAGES cfg) w (get_oldest_badges cfg srv user_id limit w).2
  ∧ pages_within (MAX_BADGE_PAGES cfg) w (get_total_badge_count cfg srv user_id limit w).2
  ∧ (∀ badges cursor seen pages,
       let req := GetBadges user_id Asc (cursor_param cursor) in
       Z.of_nat (length badges) < limit → pages < MAX_BADGE_PAGES cfg →
       unusable (srv (req :: w)) →
       oldest_loop cfg srv user_id limit badges cursor seen pages w = (badges, req :: w))
  ∧ (∀ total cursor seen pages,
       let req := GetBadges user_id Desc (cursor_param cursor) in
       pages < MAX_BADGE_PAGES cfg →
       unusable (srv (req :: w)) →
       count_loop cfg srv user_id limit total cursor seen pages w = (total, req :: w))
  ∧ (∀ badges cursor seen pages,
       badges `prefix_of` (oldest_loop cfg srv user_id limit badges cursor seen pages w).1)
  ∧ (∀ total cursor seen pages,
       total ≤ (count_loop cfg srv user_id limit total cursor seen pages w).1).
Proof.
  split; [| split; [| split; [| split; [| split]]]].
  - apply get_oldest_badges_pages.
  - apply get_total_badge_count_pages.
  - intros badges cursor seen pages req Hlen Hpages Hbad.
    rewrite oldest_loop_turn.
    apply Z.ltb_lt in Hlen, Hpages. rewrite Hlen, Hpages. simpl.
    rewrite oldest_page_unusable by exact Hbad. reflexivity.
  - intros total cursor seen pages req Hpages Hbad.
    rewrite count_loop_turn.
    apply Z.ltb_lt in Hpages. rewrite Hpages. simpl.
    rewrite count_page_unusable by exact Hbad. reflexivity.
  - intros. apply oldest_loop_prefix.
  - intros. apply count_loop_mono.
Qed.

Lemma slice_to_length {A} (l : list A) (n : Z) :
  0 ≤ n ∨ l = [] → (length (Py.slice_to l n) ≤ Z.to_nat n)%nat.
Proof.
  unfold Py.slice_to. intros Hn.
  destruct (0 <=? n) eqn:Hsign.
  - rewrite length_take. lia.
  - apply Z.leb_gt in Hsign. destruct Hn as [Hn | ->]; [lia |]. simpl.
    rewrite take_nil. simpl. lia.
Qed.

(** With a limit below zero the loop is not entered. *)
Lemma oldest_loop_negative user_id total_limit cursor seen pages w :
  total_limit < 0 →
  oldest_loop cfg srv user_id total_limit [] cursor seen pages w = ([], w).
Proof.
  intros Hn. rewrite oldest_loop_turn.
  replace (Z.of_nat (length []) <? total_limit) with false
    by (symmetry; apply Z.ltb_ge; simpl; lia).
  reflexivity.
Qed.

Lemma get_oldest_badges_fits user_id total_limit w :
  (length (get_oldest_badges cfg srv user_id total_limit w).1 ≤ Z.to_nat total_limit)%nat.
Proof.
  unfold get_oldest_badges.
  destruct (Z.le_gt_cases 0 total_limit) as [Hn | Hn].
  - destruct (oldest_loop _ _ _ _ _ _ _ _ _) as [badges w']. simpl.
    apply slice_to_length. left. exact Hn.
  - rewrite oldest_loop_negative by exact Hn. simpl.
    apply slice_to_length. right. reflexivity.
Qed.

(** C10. [get_oldest_badges] returns at most [total_limit] badges, whatever
    the pages fetched, also when a page takes the accumulated list past the
    limit; for a limit that is not positive it returns none. *)
Theorem get_oldest_badges_length (user_id total_limit : Z) (w : world) :
  Z.of_nat (length (get_oldest_badges cfg srv user_id total_limit w).1)
  ≤ Z.max 0 total_limit.
Proof.
  pose proof (get_oldest_badges_fits user_id total_limit w) as Hfit. lia.
Qed.

End Pagination.

(** C5 at work: the first page request fails, nothing is accumulated, and
    the loop returns the empty list after that one request. *)
Lemma badge_fetch_bounded_witness :
  oldest_loop default_config unreachable 1 90 [] (JStr "") [] 0 []
  = ([], [GetBadges 1 Asc None]).
Proof.
  apply (badge_fetch_bounded default_config unreachable 1 90 []).
  - simpl. lia.
  - vm_compute. reflexivity.
  - intros data. discriminate.
Defined.

(** A page that repeats its cursor ends both fetches at the second request;
    cursors that are always new end them at [MAX_BADGE_PAGES] requests. *)
Example repeating_cursor_stops :
  length (get_oldest_badges default_config repeating 1 90 []).2 = 2%nat
  ∧ length (get_total_badge_count default_config repeating 1 300 []).2 = 2%nat
  ∧ length (get_oldest_badges default_config endless 1 90 []).2 = 10%nat
  ∧ (get_total_badge_count default_config endless 1 300 []).1 = 10.
Proof. vm_compute. repeat split; reflexivity. Qed.

(** A page of 100 badges against a limit of 30: 30 badges are returned. *)
Example oversized_page_is_cut :
  length (get_oldest_badges default_config deep_account 1 30 []).1 = 30%nat.
Proof. vm_compute. reflexivity. Qed.

(** ** Configuration resolver *)

Section ResolverProps.
Context `{PyLib}.

(** The loop of [_to_int_set] keeps the coercions and nothing else. *)
Lemma to_int_set_list_elem (l : list json) (z : Z) :
  z ∈ _to_int_set (JList l) ↔ ∃ v, v ∈ l ∧ py_int v = Some z.
Proof.
  unfold _to_int_set.
  assert (Hgen : ∀ acc : gset Z,
    z ∈ foldl (fun out v => match py_int v with Some z => out ∪ {[z]} | None => out end) acc l
    ↔ z ∈ acc ∨ ∃ v, v ∈ l ∧ py_int v = Some z).
  { induction l as [| a l IH]; intros acc; simpl.
    - split; [auto |]. intros [? | (v & Hv & _)]; [assumption |]. inversion Hv.
    - rewrite IH. split.
      + intros [Hacc | (v & Hv & Hz)].
        * destruct (py_int a) as [y|] eqn:Ha; [| auto].
          apply elem_of_union in Hacc as [? | ->%elem_of_singleton]; [auto |].
          right. exists a. split; [left | assumption].
        * right. exists v. split; [right; assumption | assumption].
      + intros [Hacc | (v & Hv & Hz)].
        * left. destruct (py_int a); [apply elem_of_union; auto | assumption].
        * apply elem_of_cons in Hv as [-> | Hv].
          -- left. rewrite Hz. apply elem_of_union. right. apply elem_of_singleton. reflexivity.
          -- right. exists v. auto. }
  rewrite Hgen. split; [intros [Hempty | ?]; [set_solver | assumption] | auto].
Qed.

Lemma get_int_cfg_spec raw key dflt :
  _get_int_cfg raw key dflt = threshold_spec raw key dflt.
Proof.
  unfold _get_int_cfg, threshold_spec, Py.get_or.
  destruct (Py.lookup raw key) as [v|]; simpl; [destruct (py_int v); reflexivity |].
  reflexivity.
Qed.

Lemma to_int_set_field raw key z :
  z ∈ _to_int_set (Py.get_or raw key (JList [])) ↔ int_set_spec raw key z.
Proof.
  unfold int_set_spec, Py.get_or.
  destruct (Py.lookup raw key) as [v|]; simpl.
  - destruct v; try apply to_int_set_list_elem; unfold _to_int_set;
      try (destruct (py_int _) as [y|]; [rewrite elem_of_singleton | rewrite elem_of_empty];
           split; congruence || (try tauto); intros; simplify_eq; done).
    set_solver.
  - set_solver.
Qed.

(** C7. The resolver is a total function of the raw key-value source: it
    yields a configuration for every one and never raises. Every scalar
    threshold resolves to its hardcoded default when its key is missing or
    its value cannot be coerced by [int], and to the coerced value
    otherwise; every integer-set field holds exactly the coercions of the
    coercible elements of its list, the other elements being dropped. *)
Theorem resolver_defaults (raw : dict) :
  (∀ key dflt field, (key, dflt, field) ∈ threshold_table →
     field (resolve raw) = threshold_spec raw key dflt
     ∧ (Py.lookup raw key = None → field (resolve raw) = dflt)
     ∧ (∀ v, Py.lookup raw key = Some v → py_int v = None → field (resolve raw) = dflt))
  ∧ (∀ key field z, (key, field) ∈ int_set_table →
       z ∈ field (resolve raw) ↔ int_set_spec raw key z)
  ∧ (∀ l z, z ∈ _to_int_set (JList l) ↔ ∃ v, v ∈ l ∧ py_int v = Some z).
Proof.
  split; [| split].
  - intros key dflt field Hin.
    assert (Heq : field (resolve raw) = threshold_spec raw key dflt).
    { unfold threshold_table in Hin.
      repeat (apply elem_of_cons in Hin as [Hin | Hin];
              [injection Hin as -> -> ->; apply get_int_cfg_spec |]).
      inversion Hin. }
    split; [exact Heq | split].
    + intros Hnone. rewrite Heq. unfold threshold_spec. rewrite Hnone. reflexivity.
    + intros v Hv Hno. rewrite Heq. unfold threshold_spec. rewrite Hv, Hno. reflexivity.
  - intros key field z Hin. unfold int_set_table in Hin.
    repeat (apply elem_of_cons in Hin as [Hin | Hin];
            [injection Hin as -> ->; apply to_int_set_field |]).
    inversion Hin.
  - apply to_int_set_list_elem.
Qed.

End ResolverProps.

(** C7 at work: a friend threshold that is no number resolves to 30. *)
Lemma resolver_defaults_witness :
  Py.lookup sloppy_raw "MIN_FRIEND_COUNT" = Some (JStr "many")
  ∧ py_int (H := Reference.lib) (JStr "many") = None
  ∧ MIN_FRIEND_COUNT (resolve (H := Reference.lib) sloppy_raw) = 30.
Proof.
  split; [reflexivity | split; [reflexivity |]].
  apply (resolver_defaults (H := Reference.lib) sloppy_raw)
    with (key := "MIN_FRIEND_COUNT") (v := JStr "many").
  - unfold threshold_table. apply elem_of_cons. right. apply elem_of_cons. left. reflexivity.
  - reflexivity.
  - reflexivity.
Defined.

(** With no key every field has its default; of a sloppy badge list the
    entries 1 and 22 are kept and the others dropped. *)
Example resolve_examples :
  map (fun entry => entry.2 default_config) threshold_table
    = [60; 30; 13; 300; 90; 4; 10; 6]
  ∧ BA_BADGE_IDS (resolve (H := Reference.lib) sloppy_raw) = {[1; 22]}
  ∧ load_config FileMissing = Returns []
  ∧ load_config FileNotJson = Returns [].
Proof. vm_compute. repeat split; reflexivity. Qed.

(** ** Username check *)

Section UsernameProps.
Context `{PyLib} (cfg : config).

(** The loop over the offensive words ends without a dismissal exactly when
    it starts without one and no non-empty word occurs in the name. *)
Lemma nsfw_fold_none username words dismissal :
  foldl (nsfw_step username) dismissal words = None
  ↔ dismissal = None
    ∧ (∀ word, word ∈ words → word = EmptyString ∨ Text.contains word username = false).
Proof.
  revert dismissal. induction words as [| w ws IH]; intros dismissal; simpl.
  - split; [intros ->; split; [reflexivity | intros ? Hin; inversion Hin] | tauto].
  - rewrite IH. unfold nsfw_step.
    destruct (bool_decide (w = EmptyString)) eqn:Hw; simpl.
    + apply bool_decide_eq_true_1 in Hw. split; intros [Hd Hall]; (split; [exact Hd |]);
        intros word Hin.
      * apply elem_of_cons in Hin as [-> | Hin]; auto.
      * apply Hall. right. exact Hin.
    + destruct (Text.contains w username) eqn:Hc.
      * split.
        -- intros [Hd _]. destruct dismissal; discriminate.
        -- intros [_ Hall]. apply bool_decide_eq_false_1 in Hw.
           destruct (Hall w) as [? | ?]; [left | contradiction | congruence].
      * split; intros [Hd Hall]; (split; [exact Hd |]); intros word Hin.
        -- apply elem_of_cons in Hin as [-> | Hin]; auto.
        -- apply Hall. right. exact Hin.
Qed.

Lemma nsfw_fold_nonempty username words dismissal :
  (∀ r, dismissal = Some r → r ≠ EmptyString) →
  ∀ r, foldl (nsfw_step username) dismissal words = Some r → r ≠ EmptyString.
Proof.
  revert dismissal. induction words as [| word words IH]; intros dismissal Hd; simpl;
    [exact Hd |].
  apply IH. unfold nsfw_step.
  destruct (_ && _); [| exact Hd].
  destruct dismissal as [d|]; [exact Hd |].
  intros r [= <-]. discriminate.
Qed.

(** A dismissal reason of [check_username] is never the empty text, so the
    flow's test [if dismissal_reason] sees every reason. *)
Lemma check_username_reason_nonempty (user_info : dict) (r : string) :
  (check_username cfg user_info).1 = Some r → r ≠ EmptyString.
Proof.
  unfold check_username. simpl. apply nsfw_fold_nonempty.
  intros r'. destruct (bool_decide _); [intros [= <-]; discriminate | discriminate].
Qed.


End UsernameProps.


(** Four digits reach the threshold; an offensive word dismisses and leaves
    the heuristics as flags. *)
Example check_username_examples :
  check_username (H := Reference.lib) default_config [("name", JStr "Walter2024")]
    = (None, ["Username contains 'alt'."; "Username contains 4 digits (>= 4)."])
  ∧ check_username (H := Reference.lib)
      (resolve (H := Reference.lib) [("NSFW_WORDS", JList [JStr "Darn"])])
      [("name", JStr "DARNalt")]
    = (Some "Username contains offensive term: 'darn'.", ["Username contains 'alt'."]).
Proof. vm_compute. split; reflexivity. Qed.

(** ** Blacklist check *)

Section BlacklistProps.
Context `{PyLib} (cfg : config).

Lemma blacklist_step_app (item : json) (acc : list string) :
  blacklist_step cfg acc item = acc ++ blacklist_step cfg [] item.
Proof.
  unfold blacklist_step. destruct (group_of item); try (rewrite app_nil_r; reflexivity).
  destruct (blacklisted_group cfg d), (lookalike_group cfg d); simpl;
    rewrite <- ?app_assoc, ?app_nil_r; reflexivity.
Qed.

Lemma blacklist_fold_app (groups : list json) (acc : list string) :
  foldl (blacklist_step cfg) acc groups = acc ++ foldl (blacklist_step cfg) [] groups.
Proof.
  revert acc. induction groups as [| g gs IH]; intros acc; simpl.
  - rewrite app_nil_r. reflexivity.
  - rewrite IH. rewrite (IH (blacklist_step cfg [] g)). rewrite app_assoc. f_equal.
    apply blacklist_step_app.
Qed.

(** The reasons of a membership sit between those of the memberships before
    it and those of the memberships after it. *)
Lemma check_blacklists_app user_id before item after ifd :
  check_blacklists cfg user_id (before ++ item :: after) ifd
  = check_blacklists cfg user_id before ifd
    ++ membership_reasons cfg item
    ++ foldl (blacklist_step cfg) [] after.
Proof.
  unfold check_blacklists, membership_reasons.
  rewrite foldl_app. simpl.
  rewrite (blacklist_fold_app after), blacklist_step_app.
  rewrite <- app_assoc. reflexivity.
Qed.

Lemma lookalike_ne_blacklisted (grp grp' : dict) :
  lookalike_reason grp ≠ blacklisted_group_reason grp'.
Proof. unfold lookalike_reason, blacklisted_group_reason. simpl. discriminate. Qed.

(** An ID read by [int] is in a set exactly when the value is an ID of the
    set. *)
Lemma opt_in_id_in (x : json) (s : gset Z) :
  opt_in (int_or_none x) s = true ↔ id_in x s.
Proof.
  unfold id_in, int_or_none, opt_in. split.
  - intros Hin. assert (Hx : x ≠ JNull) by (intros ->; discriminate).
    split; [exact Hx |].
    assert (Hint : match py_int x with Some z => bool_decide (z ∈ s) | None => false end
                   = true) by (destruct x; first [exact Hin | contradiction]).
    destruct (py_int x) as [z |]; [| discriminate].
    exists z. split; [reflexivity |]. apply bool_decide_eq_true in Hint. exact Hint.
  - intros (Hx & z & Hz & Hin).
    assert (Hread : match x with JNull => None | _ => py_int x end = Some z)
      by (destruct x; first [exact Hz | contradiction]).
    rewrite Hread. apply bool_decide_eq_true_2, Hin.
Qed.

Lemma owner_in_friendly (grp : dict) :
  opt_in (owner_id_of grp) (FRIENDLY_OWNER_IDS cfg) = true ↔ friendly_owner cfg grp.
Proof.
  unfold owner_id_of, friendly_owner. split.
  - destruct (Py.get grp "owner") as [| | | | | | owner]; try discriminate.
    intros Hin%opt_in_id_in. exists owner. auto.
  - intros (owner & -> & Hin). apply opt_in_id_in, Hin.
Qed.

(** C3. For a membership whose group name contains the marker, taken
    case-insensitively, [check_blacklists] records the look-alike reason,
    which mentions the group's name, exactly when the group's ID is not in
    [BA_UK_GROUP_IDS] and its owner's ID is not in [FRIENDLY_OWNER_IDS]. A
    recognized group or a friendly owner gives no look-alike reason. The
    reasons of a membership are recorded in place, between those of the
    memberships before and after it. *)
Theorem lookalike_group_dismissal (user_id : Z) (ifd : gset Z)
    (before after : list json) (item : json) (membership grp : dict) :
  item = JDict membership →
  Py.get membership "group" = JDict grp →
  occurs_in "british army" (Text.lower (py_str (Py.get_or grp "name" (JStr "")))) →
  check_blacklists cfg user_id (before ++ item :: after) ifd
    = check_blacklists cfg user_id before ifd
      ++ membership_reasons cfg item ++ foldl (blacklist_step cfg) [] after
  ∧ (lookalike_reason grp ∈ membership_reasons cfg item
     ↔ ¬ recognized_group cfg grp ∧ ¬ friendly_owner cfg grp)
  ∧ (recognized_group cfg grp ∨ friendly_owner cfg grp →
     ∀ grp', lookalike_reason grp' ∉ membership_reasons cfg item)
  ∧ occurs_in (py_str (Py.get grp "name")) (lookalike_reason grp).
Proof.
  intros -> Hgroup Hname%contains_occurs.
  assert (Hgrp : group_of (JDict membership) = JDict grp) by exact Hgroup.
  set (item := JDict membership) in *.
  assert (Hid : opt_in (int_or_none (Py.get grp "id")) (BA_UK_GROUP_IDS cfg) = true
                ↔ recognized_group cfg grp) by apply opt_in_id_in.
  pose proof (owner_in_friendly grp) as Howner.
  assert (Hlook : lookalike_group cfg grp
                  = negb (opt_in (int_or_none (Py.get grp "id")) (BA_UK_GROUP_IDS cfg))
                    && negb (opt_in (owner_id_of grp) (FRIENDLY_OWNER_IDS cfg))).
  { unfold lookalike_group, group_name_of. rewrite Hname. reflexivity. }
  assert (Hreasons : membership_reasons cfg item
                     = (if blacklisted_group cfg grp then [blacklisted_group_reason grp] else [])
                       ++ (if lookalike_group cfg grp then [lookalike_reason grp] else [])).
  { unfold membership_reasons, blacklist_step. rewrite Hgrp.
    destruct (blacklisted_group cfg grp), (lookalike_group cfg grp); reflexivity. }
  assert (Hnone : lookalike_group cfg grp = false →
                  ∀ grp', lookalike_reason grp' ∉ membership_reasons cfg item).
  { intros Hfalse grp' Hin. rewrite Hreasons, Hfalse, app_nil_r in Hin.
    destruct (blacklisted_group cfg grp); [| inversion Hin].
    apply list_elem_of_singleton in Hin. destruct (lookalike_ne_blacklisted _ _ Hin). }
  split; [apply check_blacklists_app | split; [| split]].
  - rewrite <- Hid, <- Howner. split.
    + intros Hin. destruct (lookalike_group cfg grp) eqn:Hl.
      * symmetry in Hlook. apply andb_prop in Hlook as [Hg Ho].
        apply negb_true_iff in Hg, Ho. rewrite Hg, Ho. split; discriminate.
      * destruct (Hnone eq_refl grp Hin).
    + intros [Hg Ho]. apply not_true_is_false in Hg, Ho.
      rewrite Hreasons, Hlook, Hg, Ho. simpl. apply elem_of_app. right. left.
  - rewrite <- Hid, <- Howner. intros Hor. apply Hnone. rewrite Hlook.
    destruct Hor as [-> | ->]; [reflexivity | apply andb_false_r].
  - unfold lookalike_reason. eexists _, _. reflexivity.
Qed.

End BlacklistProps.

(** C3 at work. British Army Reserves, unrecognized and owned by user 5, who
    is no friendly owner, gets the look-alike reason; owned by the friendly
    owner 42 it gets none; the recognized group 1, whose name carries the
    marker in capitals, gets none either. *)
Lemma lookalike_group_dismissal_witness :
  (lookalike_reason (H := Reference.lib) (reserves_group 5)
     ∈ membership_reasons (H := Reference.lib) reserves_config (reserves 5))
  ∧ (lookalike_reason (H := Reference.lib) (reserves_group 42)
     ∉ membership_reasons (H := Reference.lib) reserves_config (reserves 42))
  ∧ (lookalike_reason (H := Reference.lib) regiment_group
     ∉ membership_reasons (H := Reference.lib) reserves_config regiment).
Proof.
  split; [| split].
  - apply (lookalike_group_dismissal (H := Reference.lib) reserves_config 1 ∅ [] []
             (reserves 5) _ (reserves_group 5) eq_refl eq_refl).
    + exists EmptyString, " reserves". reflexivity.
    + split.
      * intros (_ & z & [= <-] & Hin). revert Hin.
        apply (bool_decide_eq_false_1 (77 ∈ BA_UK_GROUP_IDS reserves_config)).
        vm_compute. reflexivity.
      * intros (owner & [= <-] & _ & z & [= <-] & Hin). revert Hin.
        apply (bool_decide_eq_false_1 (5 ∈ FRIENDLY_OWNER_IDS reserves_config)).
        vm_compute. reflexivity.
  - apply (lookalike_group_dismissal (H := Reference.lib) reserves_config 1 ∅ [] []
             (reserves 42) _ (reserves_group 42) eq_refl eq_refl).
    + exists EmptyString, " reserves". reflexivity.
    + right. eexists. split; [reflexivity |]. split; [discriminate |].
      exists 42. split; [reflexivity |].
      apply (bool_decide_eq_true_1 (42 ∈ FRIENDLY_OWNER_IDS reserves_config)).
      vm_compute. reflexivity.
  - apply (lookalike_group_dismissal (H := Reference.lib) reserves_config 1 ∅ [] []
             regiment _ regiment_group eq_refl eq_refl).
    + exists "the ", EmptyString. reflexivity.
    + left. split; [discriminate |].
      exists 1. split; [reflexivity |].
      apply (bool_decide_eq_true_1 (1 ∈ BA_UK_GROUP_IDS reserves_config)).
      vm_compute. reflexivity.
Defined.

(** The same group owned by the friendly owner 42 gives no dismissal; owned
    by user 5 it gives the reason that names it. *)
Example reserves_examples :
  check_blacklists (H := Reference.lib) reserves_config 1 [reserves 42] ∅ = []
  ∧ check_blacklists (H := Reference.lib) reserves_config 1 [reserves 5] ∅
    = ["User is in another British Army group: British Army Reserves."].
Proof. vm_compute. split; reflexivity. Qed.

(** ** Account age *)

Section AccountAgeProps.
Context `{PyLib} (cfg : config).

(** Whole days, rounded down, are below a bound exactly when the elapsed
    time is below that many days. *)
Lemma whole_days_lt (elapsed days : Z) :
  elapsed `div` us_per_day < days ↔ elapsed < days * us_per_day.
Proof.
  unfold us_per_day. split; intros Hlt.
  - destruct (Z.lt_ge_cases elapsed (days * 86400000000)) as [? | Hge]; [assumption |].
    assert (days ≤ elapsed `div` 86400000000) by (apply Z.div_le_lower_bound; lia). lia.
  - apply Z.div_lt_upper_bound; lia.
Qed.

(** C2. For a record whose creation timestamp is present and parses to a
    point in time, [check_account_age] answers with an instant dismissal
    exactly when the age in whole days is strictly less than
    [MIN_ACCOUNT_AGE_DAYS], that is when less than that many days have
    elapsed. An account created exactly [MIN_ACCOUNT_AGE_DAYS] days ago is
    not dismissed; one created [MIN_ACCOUNT_AGE_DAYS - 1] days ago is. A
    timestamp that parses to a date and time without offset gets no answer:
    the subtraction from the clock raises [TypeError]. That happens only to
    a text that ends in Z, for which the program does not supply the offset
    it supplies otherwise. *)
Theorem account_age_strict (now : Z) (user_info : dict) (created_date : datetime) :
  Py.truthy (Py.get user_info "created") = true →
  parse_created (Py.get user_info "created") = Some created_date →
  (∀ off, utcoffset_us created_date = Some off →
     let elapsed := now - (wall_us created_date - off) in
     let days_old := elapsed `div` us_per_day in
     let min_days := MIN_ACCOUNT_AGE_DAYS cfg in
     (∃ msg, check_account_age cfg now user_info
             = Returns (bool_decide (days_old < min_days), msg))
     ∧ (days_old < min_days ↔ elapsed < min_days * us_per_day)
     ∧ (elapsed = min_days * us_per_day →
        ∃ msg, check_account_age cfg now user_info = Returns (false, msg))
     ∧ (elapsed = (min_days - 1) * us_per_day →
        ∃ msg, check_account_age cfg now user_info = Returns (true, msg)))
  ∧ (utcoffset_us created_date = None →
     check_account_age cfg now user_info = Raises TypeError
     ∧ ∃ s, Py.get user_info "created" = JStr s ∧ Text.endswith "Z" s = true).
Proof.
  intros Hpresent Hparse. split.
  - intros off Hoff elapsed days_old min_days.
    assert (Hrun : ∃ msg, check_account_age cfg now user_info
                          = Returns (bool_decide (days_old < min_days), msg)).
    { unfold check_account_age. rewrite Hpresent, Hparse, Hoff. simpl.
      unfold days_between. fold elapsed. fold days_old. fold min_days.
      destruct (Z.ltb_spec days_old min_days).
      - rewrite bool_decide_eq_true_2 by assumption. eauto.
      - rewrite bool_decide_eq_false_2 by lia. eauto. }
    split; [exact Hrun | split; [apply whole_days_lt | split]].
    + intros Hexact. destruct Hrun as [msg Hrun]. exists msg. rewrite Hrun.
      rewrite bool_decide_eq_false_2; [reflexivity |].
      intros Hlt. apply whole_days_lt in Hlt. lia.
    + intros Hexact. destruct Hrun as [msg Hrun]. exists msg. rewrite Hrun.
      rewrite bool_decide_eq_true_2; [reflexivity |].
      apply whole_days_lt. unfold us_per_day in *. lia.
  - intros Hnaive. split.
    + unfold check_account_age. rewrite Hpresent, Hparse, Hnaive. reflexivity.
    + unfold parse_created in Hparse.
      destruct (Py.get user_info "created") as [| | | | s | |]; try discriminate.
      exists s. split; [reflexivity |].
      destruct (Text.endswith "Z" s); [reflexivity |].
      destruct (fromisoformat s) as [dt |]; [| discriminate].
      simpl in Hparse. injection Hparse as <-.
      destruct (utcoffset_us dt) eqn:Hdt; simpl in Hnaive; [| discriminate].
      rewrite Hdt in Hnaive. discriminate.
Qed.

(** C4. When the creation timestamp is missing (absent, [null] or otherwise
    false) or does not parse, [check_account_age] does not dismiss, and the
    account-age step of the run records no instant dismissal and exactly one
    red flag: the message that the date is not available, or that it could
    not be parsed. The run then carries that flag in front of the username
    flags, and its instant dismissals are those of the username and
    blacklist checks only. *)
Theorem unverifiable_age_is_flagged (now : Z) (user_id : Z) (user_info : dict)
    (groups : list json) (temp_ifd : gset Z) :
  let created_str := Py.get user_info "created" in
  Py.truthy created_str = false ∨ parse_created created_str = None →
  let msg := if Py.truthy created_str then unparseable_msg created_str
             else unavailable_msg in
  check_account_age cfg now user_info = Returns (false, msg)
  ∧ age_step cfg now user_info = Returns ([], [msg])
  ∧ gather cfg now user_id user_info groups temp_ifd
    = Returns (username_reasons cfg user_info
                 ++ check_blacklists cfg user_id groups temp_ifd,
               msg :: (check_username cfg user_info).2).
Proof.
  intros created_str Hbad msg.
  assert (Hcheck : check_account_age cfg now user_info = Returns (false, msg)).
  { unfold check_account_age, msg. fold created_str.
    destruct (Py.truthy created_str); simpl; [| reflexivity].
    destruct Hbad as [? | ->]; [discriminate | reflexivity]. }
  assert (Hstep : age_step cfg now user_info = Returns ([], [msg])).
  { unfold age_step. rewrite Hcheck. unfold msg.
    destruct (Py.truthy created_str); [| reflexivity].
    unfold unparseable_msg.
    replace (Text.contains "Could not parse" _) with true; [reflexivity |].
    symmetry. apply (contains_self_app "Could not parse" (" creation date: " +:+ _)). }
  split; [exact Hcheck | split; [exact Hstep |]].
  unfold gather. rewrite Hstep. unfold username_step, username_reasons.
  pose proof (check_username_reason_nonempty cfg user_info) as Hne.
  destruct (check_username cfg user_info) as [[reason|] flags]; simpl in *;
    [| reflexivity].
  rewrite bool_decide_eq_false_2 by (apply Hne; reflexivity). reflexivity.
Qed.

End AccountAgeProps.

(** C2 at work. Created on 2024-01-01, seen on 2024-03-01, exactly 60 days
    later: no dismissal; seen a day earlier: dismissed. Created on
    2020-01-01Z, a date that ends in Z and has no time of day: the date is
    read without offset and the check raises. *)
Lemma account_age_strict_witness :
  parse_created (H := Reference.lib) (Py.get new_account "created")
    = Some {| wall_us := jan_1; utcoffset_us := Some 0 |}
  ∧ mar_1 - (jan_1 - 0) = MIN_ACCOUNT_AGE_DAYS default_config * us_per_day
  ∧ (∃ msg, check_account_age (H := Reference.lib) default_config mar_1 new_account
            = Returns (false, msg))
  ∧ (∃ msg, check_account_age (H := Reference.lib) default_config (mar_1 - us_per_day)
              new_account
            = Returns (true, msg))
  ∧ parse_created (H := Reference.lib) (Py.get date_only_account "created")
    = Some {| wall_us := 1577836800000000; utcoffset_us := None |}
  ∧ check_account_age (H := Reference.lib) default_config mar_1 date_only_account
    = Raises TypeError.
Proof.
  split; [reflexivity | split; [reflexivity | split; [| split; [| split; [reflexivity |]]]]].
  - apply (proj1 (account_age_strict (H := Reference.lib) default_config mar_1 new_account
                    {| wall_us := jan_1; utcoffset_us := Some 0 |} eq_refl eq_refl)
             0 eq_refl).
    reflexivity.
  - apply (proj1 (account_age_strict (H := Reference.lib) default_config
                    (mar_1 - us_per_day) new_account
                    {| wall_us := jan_1; utcoffset_us := Some 0 |} eq_refl eq_refl)
             0 eq_refl).
    reflexivity.
  - apply (proj2 (account_age_strict (H := Reference.lib) default_config mar_1
                    date_only_account
                    {| wall_us := 1577836800000000; utcoffset_us := None |}
                    eq_refl eq_refl)).
    reflexivity.
Defined.

(** At 60 days the account passes; one microsecond earlier it is 59 days old
    and dismissed; a timestamp without offset is read as UTC. *)
Example account_age_examples :
  check_account_age (H := Reference.lib) default_config mar_1 new_account
    = Returns (false, "Account is 60 days old.")
  ∧ check_account_age (H := Reference.lib) default_config (mar_1 - 1) new_account
    = Returns (true, "Account is 59 days old (under 60).")
  ∧ check_account_age (H := Reference.lib) default_config mar_1
      [("created", JStr "2024-01-01T00:00:00")]
    = Returns (false, "Account is 60 days old.").
Proof. vm_compute. repeat split; reflexivity. Qed.

(** C4 at work: a creation date that is no timestamp is flagged, not
    dismissed. *)
Lemma unverifiable_age_is_flagged_witness :
  parse_created (H := Reference.lib) (Py.get undated_account "created") = None
  ∧ age_step (H := Reference.lib) default_config jan_11 undated_account
    = Returns ([], ["Could not parse creation date: yesterday"]).
Proof.
  split; [reflexivity |].
  apply (unverifiable_age_is_flagged (H := Reference.lib) default_config jan_11 1
           undated_account [] ∅).
  right. reflexivity.
Defined.

(** A record without creation date gets the other message. *)
Example missing_date_example :
  age_step (H := Reference.lib) default_config jan_11 [("name", JStr "cooluser")]
    = Returns ([], ["Created date not available. Manual review required."])
  ∧ age_step (H := Reference.lib) default_config jan_11 [("created", JNull)]
    = Returns ([], ["Created date not available. Manual review required."]).
Proof. vm_compute. split; reflexivity. Qed.

(** ** Social-activity check *)

Section SocialProps.
Context `{PyLib} (cfg : config) (srv : server).

Lemma scan_badges_skip (badge : json) (rest : list json) :
  passed_over cfg badge →
  scan_badges cfg (badge :: rest) = scan_badges cfg rest.
Proof.
  intros [Hrec Hno]. destruct badge; try discriminate.
  unfold is_notable, badge_id, int_or_none, opt_in in Hno. simpl.
  destruct (Py.get d "id") eqn:Hid; try reflexivity;
    (destruct (py_int _) as [n|]; [| reflexivity]);
    rewrite Hno; reflexivity.
Qed.

Lemma scan_badges_hit (badge : json) (rest : list json) :
  is_record badge = true → is_notable cfg badge = true →
  scan_badges cfg (badge :: rest) = Returns (Some (badge_flag (badge_id badge))).
Proof.
  destruct badge; try discriminate. intros _. unfold is_notable, badge_id. simpl.
  unfold int_or_none, opt_in.
  destruct (Py.get d "id") eqn:Hid; try discriminate;
    (destruct (py_int _) as [n|]; [| discriminate]);
    intros Hyes; rewrite Hyes; reflexivity.
Qed.

(** The scan stops at the first notable badge: what follows it does not
    count. *)
Lemma scan_badges_first (before after : list json) (badge : json) :
  Forall (passed_over cfg) before →
  is_record badge = true → is_notable cfg badge = true →
  scan_badges cfg (before ++ badge :: after)
  = Returns (Some (badge_flag (badge_id badge))).
Proof.
  intros Hbefore Hrec Hhit. induction Hbefore as [| b bs Hb _ IH].
  - apply scan_badges_hit; assumption.
  - rewrite <- app_comm_cons, scan_badges_skip by assumption. exact IH.
Qed.

Lemma scan_badges_none (badges : list json) :
  Forall (passed_over cfg) badges → scan_badges cfg badges = Returns None.
Proof.
  induction 1 as [| b bs Hb _ IH]; [reflexivity |].
  rewrite scan_badges_skip by assumption. exact IH.
Qed.

(** [check_social_activity], once the loop over the groups has returned, is
    the badge scan on top of the earlier flags. *)
Lemma check_social_activity_scan user_id groups w non_ba :
  non_ba_loop cfg [] groups = Returns non_ba →
  let depth := Z.min (OLDEST_BADGES_TO_CHECK cfg) 100 in
  let '(prior, w1) := before_scan cfg srv user_id non_ba w in
  let '(oldest, w2) := get_oldest_badges cfg srv user_id depth w1 in
  check_social_activity cfg srv user_id groups w
  = (match scan_badges cfg oldest with
     | Raises e => Raises e
     | Returns None => Returns prior
     | Returns (Some flag) => Returns (prior ++ [flag])
     end, w2).
Proof.
  intros Hgroups depth. unfold check_social_activity, before_scan.
  destruct (get_friend_count srv user_id w) as [friend_count w0].
  rewrite Hgroups. simpl.
  destruct (get_total_badge_count _ _ _ _ _) as [badge_count w1].
  fold depth.
  destruct (get_oldest_badges _ _ _ _ _) as [oldest w2].
  destruct (scan_badges cfg oldest) as [[flag|]|]; reflexivity.
Qed.

(** C9, as the code has it. The social-activity check scans the oldest
    badges that [get_oldest_badges] returns for a depth of
    [min(OLDEST_BADGES_TO_CHECK, 100)]: at most that many. The first badge
    whose ID is in [BA_BADGE_IDS] adds exactly one red flag, naming its ID,
    after the flags of the earlier checks, and the badges after it are not
    looked at; without such a badge nothing is added. *)
Theorem oldest_badge_scan (user_id : Z) (groups : list json) (w : world)
    (non_ba : list json) :
  non_ba_loop cfg [] groups = Returns non_ba →
  let depth := Z.min (OLDEST_BADGES_TO_CHECK cfg) 100 in
  ∃ (prior : list string) (w1 : world) (oldest : list json) (w2 : world),
    before_scan cfg srv user_id non_ba w = (prior, w1)
    ∧ get_oldest_badges cfg srv user_id depth w1 = (oldest, w2)
    ∧ Z.of_nat (length oldest) ≤ Z.max 0 depth
    ∧ check_social_activity cfg srv user_id groups w
      = (match scan_badges cfg oldest with
         | Raises e => Raises e
         | Returns None => Returns prior
         | Returns (Some flag) => Returns (prior ++ [flag])
         end, w2)
    ∧ (∀ before badge after,
         oldest = before ++ badge :: after →
         Forall (passed_over cfg) before →
         is_record badge = true → is_notable cfg badge = true →
         check_social_activity cfg srv user_id groups w
         = (Returns (prior ++ [badge_flag (badge_id badge)]), w2))
    ∧ (Forall (passed_over cfg) oldest →
       check_social_activity cfg srv user_id groups w = (Returns prior, w2)).
Proof.
  intros Hgroups depth.
  pose proof (check_social_activity_scan user_id groups w non_ba Hgroups) as Hrun.
  simpl in Hrun. fold depth in Hrun.
  destruct (before_scan cfg srv user_id non_ba w) as [prior w1] eqn:Hprior.
  pose proof (get_oldest_badges_fits cfg srv user_id depth w1) as Hlen.
  destruct (get_oldest_badges cfg srv user_id depth w1) as [oldest w2] eqn:Holdest.
  exists prior, w1, oldest, w2. simpl in Hlen.
  split; [reflexivity | split; [exact Holdest | split; [lia | split; [exact Hrun |]]]].
  split.
  - intros before badge after -> Hbefore Hrec Hhit.
    rewrite Hrun, scan_badges_first by assumption. reflexivity.
  - intros Hnone. rewrite Hrun, scan_badges_none by assumption. reflexivity.
Qed.

(** The social-activity check starts with the friend-count request. *)
Lemma check_social_activity_requests user_id groups w :
  ∃ reqs, (check_social_activity cfg srv user_id groups w).2
          = reqs ++ GetFriendCount user_id :: w.
Proof.
  unfold check_social_activity, get_friend_count, http_get.
  set (w0 := GetFriendCount user_id :: w).
  destruct (non_ba_loop cfg [] groups) as [non_ba |]; [| exists []; reflexivity].
  simpl.
  destruct (get_total_badge_count_pages cfg srv user_id (MIN_BADGE_COUNT cfg) w0)
    as (reqs1 & Hw1 & _).
  destruct (get_total_badge_count _ _ _ _ _) as [badge_count w1]. simpl in Hw1.
  destruct (get_oldest_badges_pages cfg srv user_id
              (Z.min (OLDEST_BADGES_TO_CHECK cfg) 100) w1)
    as (reqs2 & Hw2 & _).
  destruct (get_oldest_badges _ _ _ _ _) as [oldest w2]. simpl in Hw2.
  exists (reqs2 ++ reqs1). rewrite <- app_assoc, <- Hw1, <- Hw2.
  destruct (scan_badges cfg oldest) as [[flag|]|]; reflexivity.
Qed.

End SocialProps.

(** C9 at work: with the notable badges 3 and 7, the scan flags badge 3,
    once, after the flags for the groups and the badge count. *)
Lemma oldest_badge_scan_witness :
  non_ba_loop (H := Reference.lib) early_config [] [] = Returns []
  ∧ (check_social_activity (H := Reference.lib) early_config deep_account 1 [] []).1
    = Returns ["Fewer than 13 non-BA groups (0).";
               "Fewer than 300 badges (101 total).";
               "BA-related badge found among oldest badges (ID: 3)."].
Proof.
  split; [reflexivity |].
  destruct (oldest_badge_scan (H := Reference.lib) early_config deep_account 1 [] [] []
              eq_refl)
    as (prior & w1 & oldest & w2 & Hprior & Holdest & _ & _ & Hfirst & _).
  vm_compute in Hprior. injection Hprior as <- <-.
  vm_compute in Holdest. injection Holdest as <- <-.
  rewrite (Hfirst [plain_badge 1; plain_badge 2] (plain_badge 3)
             (map (fun i => plain_badge (Z.of_nat i)) (seq 4 87))).
  - reflexivity.
  - vm_compute. reflexivity.
  - repeat constructor.
  - reflexivity.
  - vm_compute. reflexivity.
Defined.

(** C9 as stated fails for a configured depth above 100: with
    [OLDEST_BADGES_TO_CHECK = 101], the 101st oldest badge of the account is
    in [BA_BADGE_IDS], and the social-activity check, which returns, records
    no badge flag. *)
Lemma scan_depth_counterexample :
  OLDEST_BADGES_TO_CHECK deep_config = 101
  ∧ (get_oldest_badges deep_config deep_account 1 (OLDEST_BADGES_TO_CHECK deep_config) []).1
      !! 100%nat = Some (plain_badge 999)
  ∧ is_notable (H := Reference.lib) deep_config (plain_badge 999) = true
  ∧ (check_social_activity (H := Reference.lib) deep_config deep_account 1 [] []).1
    = Returns ["Fewer than 13 non-BA groups (0)."; "Fewer than 300 badges (101 total)."].
Proof. vm_compute. repeat split; reflexivity. Qed.

(** ** Verification flow *)

Section FlowProps.
Context `{PyLib} (cfg : config) (srv : server).

(** The account-age step records the dismissal of the check, or the red
    flag for an age that cannot be told, or nothing. *)
Lemma age_step_records (now : Z) (user_info : dict) (answer : bool * string) :
  check_account_age cfg now user_info = Returns answer →
  age_step cfg now user_info
  = Returns (age_reasons cfg now user_info, age_flags user_info).
Proof.
  unfold age_step, age_reasons, age_flags, check_account_age.
  destruct (negb (Py.truthy (Py.get user_info "created"))); [reflexivity |].
  destruct (parse_created (Py.get user_info "created")) as [created_date |].
  - destruct (utcoffset_us created_date) as [off |]; [| discriminate].
    simpl. destruct (_ <? _); [reflexivity |]. intros _.
    destruct (age_message_plain (days_between now created_date off)) as [-> ->].
    reflexivity.
  - intros _.
    replace (Text.contains "Could not parse" _) with true; [reflexivity |].
    symmetry. apply (contains_self_app "Could not parse" (" creation date: " +:+ _)).
Qed.

(** The first three checks gather the reasons of each of them, in order,
    and the red flags of the account-age and username checks. *)
Lemma gather_reasons (now user_id : Z) (user_info : dict) (groups : list json)
    (temp_ifd : gset Z) (answer : bool * string) :
  check_account_age cfg now user_info = Returns answer →
  gather cfg now user_id user_info groups temp_ifd
  = Returns (age_reasons cfg now user_info ++ username_reasons cfg user_info
               ++ check_blacklists cfg user_id groups temp_ifd,
             age_flags user_info ++ (check_username cfg user_info).2).
Proof.
  intros Hage. unfold gather. rewrite (age_step_records _ _ _ Hage).
  unfold username_reasons, username_step.
  pose proof (check_username_reason_nonempty cfg user_info) as Hne.
  destruct (check_username cfg user_info) as [[reason|] flags]; simpl in *.
  - rewrite bool_decide_eq_false_2 by (apply Hne; reflexivity). simpl.
    rewrite <- app_assoc. reflexivity.
  - reflexivity.
Qed.

(** C1. In a run whose account-age check returns, the instant dismissals are
    the reasons of the account-age, username and blacklist checks, all of
    them, in that order, and the red flags gathered with them are the flag
    for an age that cannot be told followed by the flags of the username
    check. When there is an instant dismissal, the run ends with the
    instant-dismissal verdict carrying all of them, and the only request it
    has issued is the avatar request: the social-activity checks are not
    run. When there is none, the social-activity checks run, starting with
    the friend-count request; when they return, the verdict is dismissed
    exactly when the red flags, those gathered before followed by those of
    the social-activity checks, number two or more, and verified otherwise.
    A run has no verdict when the account-age check raises, which ends the
    run before any other check and any request, whatever the blacklists
    say, and when the social-activity checks raise. *)
Theorem aggregation_policy (now user_id : Z) (user_info : dict) (groups : list json)
    (temp_ifd : gset Z) (w : world) :
  let instant := age_reasons cfg now user_info ++ username_reasons cfg user_info
                 ++ check_blacklists cfg user_id groups temp_ifd in
  let early_flags := age_flags user_info ++ (check_username cfg user_info).2 in
  let w0 := GetAvatar user_id :: w in
  let run := run_checks cfg srv now user_id user_info groups temp_ifd w in
  (∀ answer, check_account_age cfg now user_info = Returns answer →
     gather cfg now user_id user_info groups temp_ifd = Returns (instant, early_flags)
     ∧ (instant ≠ [] →
        run = (Returns (InstantDismissal instant early_flags), w0)
        ∧ is_social_request (GetAvatar user_id) = false)
     ∧ (instant = [] →
        ∃ activity w' reqs,
          check_social_activity cfg srv user_id groups w0 = (activity, w')
          ∧ w' = reqs ++ GetFriendCount user_id :: w0
          ∧ run = (match activity with
                   | Raises e => Raises e
                   | Returns activity_flags =>
                       let total := early_flags ++ activity_flags in
                       Returns (FinalReport
                                  (if bool_decide (2 ≤ Z.of_nat (length total))
                                   then Dismissed else Verified) total)
                   end, w')))
  ∧ (∀ e, check_account_age cfg now user_info = Raises e → run = (Raises e, w)).
Proof.
  intros instant early_flags w0 run. split.
  - intros answer Hage.
    pose proof (gather_reasons now user_id user_info groups temp_ifd answer Hage)
      as Hgather.
    fold instant early_flags in Hgather.
    split; [exact Hgather | split].
    + intros Hsome. split; [| reflexivity].
      unfold run, run_checks. rewrite Hgather.
      unfold get_user_avatar_url, http_get. fold w0.
      rewrite bool_decide_eq_false_2 by exact Hsome. reflexivity.
    + intros Hnone.
      destruct (check_social_activity_requests cfg srv user_id groups w0) as [reqs Hreqs].
      destruct (check_social_activity cfg srv user_id groups w0) as [activity w'] eqn:Hsocial.
      exists activity, w', reqs. split; [reflexivity | split; [exact Hreqs |]].
      unfold run, run_checks. rewrite Hgather.
      unfold get_user_avatar_url, http_get. fold w0.
      rewrite bool_decide_eq_true_2 by exact Hnone. simpl. rewrite Hsocial.
      destruct activity as [activity_flags | e]; [| reflexivity]. simpl.
      destruct (Z.leb_spec 2 (Z.of_nat (length (early_flags ++ activity_flags)))).
      * rewrite bool_decide_eq_true_2 by assumption. reflexivity.
      * rewrite bool_decide_eq_false_2 by lia. reflexivity.
  - intros e Hage. unfold run, run_checks, gather, age_step. rewrite Hage. reflexivity.
Qed.

End FlowProps.

(** C1 at work. An account 10 days old is dismissed at once, and the only
    request is the one for the avatar. An established account without
    groups, with an unreadable creation date and [alt] in its name, is
    dismissed with four red flags. An established account with a membership
    whose group is a text gets no verdict: the social-activity checks raise.
    An account on the blacklist whose creation date ends in Z and has no
    time of day gets no verdict either: the account-age check raises. *)
Lemma aggregation_policy_witness :
  run_checks (H := Reference.lib) default_config deep_account jan_11 1 new_account [] ∅ []
    = (Returns (InstantDismissal ["Account is 10 days old (under 60)."] []),
       [GetAvatar 1])
  ∧ (run_checks (H := Reference.lib) default_config deep_account mar_1 1 flagged_account
       [] ∅ []).1
    = Returns (FinalReport Dismissed
                 ["Could not parse creation date: yesterday"; "Username contains 'alt'.";
                  "Fewer than 13 non-BA groups (0)."; "Fewer than 300 badges (101 total)."])
  ∧ (run_checks (H := Reference.lib) default_config deep_account mar_1 1 new_account
       [odd_membership] ∅ []).1
    = Raises AttributeError
  ∧ run_checks (H := Reference.lib) default_config deep_account mar_1 7 date_only_account
      [] {[7]} []
    = (Raises TypeError, []).
Proof.
  split; [| split; [| split]].
  - destruct (proj1 (aggregation_policy (H := Reference.lib) default_config deep_account
                       jan_11 1 new_account [] ∅ []) _ eq_refl)
      as (_ & Hdismiss & _).
    rewrite (proj1 (Hdismiss ltac:(vm_compute; discriminate))).
    vm_compute. reflexivity.
  - destruct (proj1 (aggregation_policy (H := Reference.lib) default_config deep_account
                       mar_1 1 flagged_account [] ∅ []) _ eq_refl)
      as (_ & _ & Hsocial).
    destruct (Hsocial eq_refl) as (activity & w' & reqs & Hactivity & _ & Hrun).
    rewrite Hrun. vm_compute in Hactivity. injection Hactivity as <- <-.
    vm_compute. reflexivity.
  - destruct (proj1 (aggregation_policy (H := Reference.lib) default_config deep_account
                       mar_1 1 new_account [odd_membership] ∅ []) _ eq_refl)
      as (_ & _ & Hsocial).
    destruct (Hsocial eq_refl) as (activity & w' & reqs & Hactivity & _ & Hrun).
    rewrite Hrun. vm_compute in Hactivity. injection Hactivity as <- <-.
    reflexivity.
  - apply (proj2 (aggregation_policy (H := Reference.lib) default_config deep_account
                    mar_1 7 date_only_account [] {[7]} [])).
    reflexivity.
Defined.

(** An established account with no groups gets two red flags from the
    social-activity checks and is dismissed; with one red flag the verdict
    is verified. *)
Example final_verdict_examples :
  (run_checks (H := Reference.lib) default_config deep_account mar_1 1 new_account [] ∅ []).1
    = Returns (FinalReport Dismissed
                 ["Fewer than 13 non-BA groups (0)."; "Fewer than 300 badges (101 total)."])
  ∧ (run_checks (H := Reference.lib)
       (resolve (H := Reference.lib) [("MIN_NON_BA_GROUP_COUNT", JInt 0)])
       deep_account mar_1 1 new_account [] ∅ []).1
    = Returns (FinalReport Verified ["Fewer than 300 badges (101 total)."]).
Proof. vm_compute. split; reflexivity. Qed.

(** ** Live blacklist loader *)

Section LiveBlacklistProps.
Context `{PyLib} (srv : server).

(** What [fetch_live_blacklist] does with an accepted URL. *)
Lemma fetch_live_blacklist_accepted (url : string) (w : world) :
  accepted_url url →
  fetch_live_blacklist srv url w
  = (match srv (GetSheet url :: w) with
     | Failed => ∅
     | Replied _ text =>
         match csv_reader text with
         | None => ∅
         | Some rows => collect_ids rows
         end
     end, GetSheet url :: w).
Proof.
  intros (Hne & parsed & Hparse & Hscheme & Hhost).
  unfold fetch_live_blacklist, http_get.
  rewrite bool_decide_eq_false_2 by exact Hne.
  rewrite Hparse, Hscheme, Hhost. simpl.
  destruct (srv (GetSheet url :: w)) as [| body text]; [reflexivity |].
  destruct (csv_reader text); reflexivity.
Qed.

(** C6. [fetch_live_blacklist] returns the empty set and leaves the request
    history as it was, so issues no request, when the URL is empty, when
    [urlparse] raises, when the scheme is not [https] or when the host is
    not exactly [docs.google.com]. For an accepted URL it issues the one
    request for the sheet, and returns the empty set when that request
    fails or when reading the CSV raises; otherwise the IDs of the cells.
    The function is total: no exception escapes it. *)
Theorem fetch_live_blacklist_guarded (url : string) (w : world) :
  (∀ parsed, urlparse url = Some parsed →
     scheme parsed ≠ "https" ∨ hostname parsed ≠ Some "docs.google.com" →
     fetch_live_blacklist srv url w = (∅, w))
  ∧ (url = EmptyString ∨ urlparse url = None → fetch_live_blacklist srv url w = (∅, w))
  ∧ (accepted_url url →
     let w' := GetSheet url :: w in
     (srv w' = Failed → fetch_live_blacklist srv url w = (∅, w'))
     ∧ (∀ body text, srv w' = Replied body text → csv_reader text = None →
          fetch_live_blacklist srv url w = (∅, w'))
     ∧ (∀ body text rows, srv w' = Replied body text → csv_reader text = Some rows →
          fetch_live_blacklist srv url w = (collect_ids rows, w'))).
Proof.
  split; [| split].
  - intros parsed Hparse Hreject. unfold fetch_live_blacklist.
    destruct (bool_decide (url = EmptyString)); [reflexivity |].
    rewrite Hparse.
    destruct (bool_decide (scheme parsed = "https")) eqn:Hscheme; simpl; [| reflexivity].
    apply bool_decide_eq_true_1 in Hscheme.
    destruct Hreject as [Hs | Hh]; [contradiction |].
    rewrite bool_decide_eq_false_2; [reflexivity |].
    intros Hhost. apply Hh. destruct (hostname parsed) as [h|]; simpl in Hhost.
    + rewrite Hhost. reflexivity.
    + discriminate.
  - intros [-> | Hnone]; [reflexivity |]. unfold fetch_live_blacklist.
    destruct (bool_decide (url = EmptyString)); [reflexivity |].
    rewrite Hnone. reflexivity.
  - intros Hok w'. pose proof (fetch_live_blacklist_accepted url w Hok) as Hrun.
    fold w' in Hrun. split; [| split].
    + intros Hfail. rewrite Hrun, Hfail. reflexivity.
    + intros body text Hreply Hcsv. rewrite Hrun, Hreply, Hcsv. reflexivity.
    + intros body text rows Hreply Hcsv. rewrite Hrun, Hreply, Hcsv. reflexivity.
Qed.

End LiveBlacklistProps.

(** C6 at work: a sheet on evil.example.com is not fetched, whatever it
    holds. *)
Lemma fetch_live_blacklist_guarded_witness :
  @urlparse Reference.lib evil_url
    = Some {| scheme := "https"; hostname := Some "evil.example.com"; path := "/export" |}
  ∧ fetch_live_blacklist (H := Reference.lib) sheet_host evil_url [] = (∅, []).
Proof.
  split; [reflexivity |].
  eapply (proj1 (fetch_live_blacklist_guarded (H := Reference.lib) sheet_host evil_url [])).
  - reflexivity.
  - right. discriminate.
Defined.

(** The same sheet on docs.google.com is fetched with one request and gives
    its three IDs; over plain http it is not fetched; a failing host gives
    the empty set. *)
Example fetch_live_blacklist_examples :
  fetch_live_blacklist (H := Reference.lib) sheet_host sheet_url []
    = ({[101; 202; 303]}, [GetSheet sheet_url])
  ∧ fetch_live_blacklist (H := Reference.lib) sheet_host
      "http://docs.google.com/spreadsheets/d/abc/export?format=csv" [] = (∅, [])
  ∧ fetch_live_blacklist (H := Reference.lib) unreachable sheet_url []
    = (∅, [GetSheet sheet_url]).
Proof. vm_compute. repeat split; reflexivity. Qed.

(** * Further properties *)

Section CursorProps.
Context (cfg : config) (srv : server).

Lemma existsb_subset (f : json → bool) (small big : list json) :
  (∀ x, x ∈ small → x ∈ big) → existsb f big = false → existsb f small = false.
Proof.
  intros Hsub Hbig. apply not_true_is_false. intros Hsmall.
  apply existsb_exists in Hsmall as (x & Hx & Hfx).
  assert (existsb f big = true); [| congruence].
  apply existsb_exists. exists x. split; [| exact Hfx].
  apply list_elem_of_In, Hsub, list_elem_of_In, Hx.
Qed.

(** A page that lets the loop go on hands over a cursor that is true, new,
    and recorded. *)
Lemma oldest_page_next r badges seen b c s :
  oldest_page r badges seen = Next b c s →
  s = c :: seen ∧ Py.truthy c = true ∧ existsb (Py.eqb c) seen = false.
Proof.
  unfold oldest_page, Py.set_contains.
  destruct (json_of r) as [[]|]; try discriminate.
  destruct (negb _); [discriminate |].
  destruct (Py.iter _); [| discriminate].
  destruct (Py.hashable _); [| discriminate].
  destruct (existsb _ seen) eqn:Hseen; [discriminate |].
  destruct (negb _) eqn:Htruthy; [discriminate |].
  intros [= <- <- <-]. apply negb_false_iff in Htruthy. auto.
Qed.

Lemma count_page_next p r total seen t c s :
  count_page p r total seen = Next t c s →
  s = c :: seen ∧ Py.truthy c = true ∧ existsb (Py.eqb c) seen = false.
Proof.
  unfold count_page, Py.set_contains.
  destruct (json_of r) as [[]|]; try discriminate.
  destruct (negb _); [discriminate |].
  destruct (Py.len _); [| discriminate].
  destruct (_ <=? _); [discriminate |].
  destruct (negb _) eqn:Htruthy; [discriminate |].
  destruct (Py.hashable _); [| discriminate].
  destruct (existsb _ seen) eqn:Hseen; [discriminate |].
  intros [= <- <- <-]. apply negb_false_iff in Htruthy. auto.
Qed.

Lemma guarded_next cursor seen sent c :
  guarded cursor seen sent →
  Py.truthy c = true → existsb (Py.eqb c) seen = false →
  guarded c (c :: seen) (option_list (cursor_param cursor) ++ sent).
Proof.
  intros [Hnr Hin] Hc Hnew. unfold guarded, cursor_param at 1 3. rewrite Hc. simpl.
  split; [split; [| exact Hnr] |].
  - eapply existsb_subset; [exact Hin | exact Hnew].
  - intros x [-> | Hx]%elem_of_cons; [left | right; apply Hin, Hx].
Qed.

Lemma oldest_loop_guarded user_id total_limit badges cursor seen pages w sent :
  guarded cursor seen sent →
  ∃ reqs,
    (oldest_loop cfg srv user_id total_limit badges cursor seen pages w).2 = reqs ++ w
    ∧ never_repeats (cursors_sent reqs ++ sent)
    ∧ (∀ req, last reqs = Some req → req = GetBadges user_id Asc (cursor_param cursor)).
Proof.
  revert sent.
  funelim (oldest_loop cfg srv user_id total_limit badges cursor seen pages w);
    intros sent Hg.
  - destruct (oldest_page _ _ _) as [b | b c s] eqn:Hpage; simpl.
    + exists [GetBadges user_id Asc (cursor_param cursor)].
      split; [reflexivity | split; [| intros req [= <-]; reflexivity]].
      destruct Hg as [Hnr _]. unfold cursors_sent. simpl.
      destruct (cursor_param cursor); exact Hnr.
    + apply oldest_page_next in Hpage as (-> & Hc & Hnew).
      destruct (H b c (c :: seen_cursors) _ (guarded_next _ _ _ _ Hg Hc Hnew))
        as (reqs & Hw & Hnr & _).
      exists (reqs ++ [GetBadges user_id Asc (cursor_param cursor)]).
      split; [rewrite <- app_assoc; exact Hw | split].
      * unfold cursors_sent in *. rewrite omap_app, <- app_assoc. simpl.
        destruct (cursor_param cursor); exact Hnr.
      * intros req. rewrite last_snoc. intros [= <-]. reflexivity.
  - exists []. split; [reflexivity | split; [| discriminate]]. destruct Hg as [Hnr _].
    simpl. destruct (cursor_param cursor); [apply Hnr | exact Hnr].
Qed.

Lemma count_loop_guarded user_id pass_threshold total cursor seen pages w sent :
  guarded cursor seen sent →
  ∃ reqs,
    (count_loop cfg srv user_id pass_threshold total cursor seen pages w).2 = reqs ++ w
    ∧ never_repeats (cursors_sent reqs ++ sent)
    ∧ (∀ req, last reqs = Some req → req = GetBadges user_id Desc (cursor_param cursor)).
Proof.
  revert sent.
  funelim (count_loop cfg srv user_id pass_threshold total cursor seen pages w);
    intros sent Hg.
  - destruct (count_page _ _ _ _) as [b | b c s] eqn:Hpage; simpl.
    + exists [GetBadges user_id Desc (cursor_param cursor)].
      split; [reflexivity | split; [| intros req [= <-]; reflexivity]].
      destruct Hg as [Hnr _]. unfold cursors_sent. simpl.
      destruct (cursor_param cursor); exact Hnr.
    + apply count_page_next in Hpage as (-> & Hc & Hnew).
      destruct (H b c (c :: seen_cursors) _ (guarded_next _ _ _ _ Hg Hc Hnew))
        as (reqs & Hw & Hnr & _).
      exists (reqs ++ [GetBadges user_id Desc (cursor_param cursor)]).
      split; [rewrite <- app_assoc; exact Hw | split].
      * unfold cursors_sent in *. rewrite omap_app, <- app_assoc. simpl.
        destruct (cursor_param cursor); exact Hnr.
      * intros req. rewrite last_snoc. intros [= <-]. reflexivity.
  - exists []. split; [reflexivity | split; [| discriminate]]. destruct Hg as [Hnr _].
    simpl. destruct (cursor_param cursor); [apply Hnr | exact Hnr].
Qed.

Lemma guarded_start : guarded (JStr "") [] [].
Proof. split; [exact I | intros x Hx; inversion Hx]. Qed.

(** X1. Cycle guard: neither fetch sends a cursor equal to one it has sent
    before; the first request carries no cursor. *)
Theorem fetches_never_repeat_a_cursor (user_id limit : Z) (w : world) :
  (∃ reqs, (get_oldest_badges cfg srv user_id limit w).2 = reqs ++ w
           ∧ never_repeats (cursors_sent reqs)
           ∧ (∀ req, last reqs = Some req → cursor_of req = None))
  ∧ (∃ reqs, (get_total_badge_count cfg srv user_id limit w).2 = reqs ++ w
             ∧ never_repeats (cursors_sent reqs)
             ∧ (∀ req, last reqs = Some req → cursor_of req = None)).
Proof.
  split.
  - unfold get_oldest_badges.
    destruct (oldest_loop_guarded user_id limit [] (JStr "") [] 0 w [] guarded_start)
      as (reqs & Hw & Hnr & Hfirst).
    destruct (oldest_loop _ _ _ _ _ _ _ _ _) as [badges w']. simpl in *.
    exists reqs. rewrite app_nil_r in Hnr.
    split; [exact Hw | split; [exact Hnr |]].
    intros req Hreq. rewrite (Hfirst req Hreq). reflexivity.
  - unfold get_total_badge_count.
    destruct (count_loop_guarded user_id limit 0 (JStr "") [] 0 w [] guarded_start)
      as (reqs & Hw & Hnr & Hfirst).
    exists reqs. rewrite app_nil_r in Hnr.
    split; [exact Hw | split; [exact Hnr |]].
    intros req Hreq. rewrite (Hfirst req Hreq). reflexivity.
Qed.

(** One page adds at most [k] to the count, and the loop goes on only below
    the threshold. *)
Lemma count_page_bound k p r total seen :
  pages_at_most k (fun _ => r) → 0 ≤ k →
  match count_page p r total seen with
  | Break t => t ≤ total + k
  | Next t _ _ => t ≤ total + k ∧ t < p
  end.
Proof.
  intros Hk Hpos. unfold count_page.
  destruct (json_of r) as [[]|] eqn:Hr; try lia.
  destruct (negb _); [lia |].
  destruct (Py.len _) as [n|] eqn:Hlen; [| lia].
  pose proof (Hk [] _ _ Hr Hlen) as Hn.
  destruct (Z.leb_spec p (total + n)); [lia |].
  destruct (negb _); [lia |].
  destruct (Py.set_contains _ _) as [[]|]; lia.
Qed.

Lemma count_loop_bound k user_id pass_threshold total cursor seen pages w :
  pages_at_most k srv → 0 ≤ k →
  let result := (count_loop cfg srv user_id pass_threshold total cursor seen pages w).1 in
  result ≤ total + k * Z.max 0 (MAX_BADGE_PAGES cfg - pages)
  ∧ result ≤ Z.max total (pass_threshold - 1) + k.
Proof.
  intros Hk Hpos.
  funelim (count_loop cfg srv user_id pass_threshold total cursor seen pages w);
    [| simpl; nia].
  pose proof running as Hp. apply Z.ltb_lt in Hp.
  assert (Hone : pages_at_most k (fun _ =>
            (http_get srv (GetBadges user_id Desc (cursor_param cursor)) w).1)).
  { intros _ data n. apply Hk. }
  pose proof (count_page_bound k pass_threshold _ total_badges seen_cursors Hone Hpos)
    as Hstep.
  destruct (count_page _ _ _ _) as [t | t c s]; simpl in *.
  - nia.
  - destruct Hstep as [Hle Hlt]. specialize (H t c s k Hk Hpos). simpl in H. nia.
Qed.

(** X2. When no page holds more than [k] items, the count that
    [get_total_badge_count] returns is at least 0, at most [k] for each page
    it may fetch, and exceeds the pass threshold by less than one page: the
    loop stops at the page that reaches the threshold. *)
Theorem badge_count_bounds (k user_id pass_threshold : Z) (w : world) :
  pages_at_most k srv → 0 ≤ k →
  let count := (get_total_badge_count cfg srv user_id pass_threshold w).1 in
  0 ≤ count
  ∧ count ≤ k * Z.max 0 (MAX_BADGE_PAGES cfg)
  ∧ count ≤ Z.max 0 (pass_threshold - 1) + k.
Proof.
  intros Hk Hpos count. unfold count, get_total_badge_count.
  pose proof (count_loop_bound k user_id pass_threshold 0 (JStr "") [] 0 w Hk Hpos) as Hb.
  pose proof (count_loop_mono cfg srv user_id pass_threshold 0 (JStr "") [] 0 w) as Hm.
  simpl in Hb. rewrite Z.sub_0_r in Hb. lia.
Qed.

(** X3. When the first page holds at least [total_limit] badges,
    [get_oldest_badges] makes that one request, without cursor, and returns
    the first [total_limit] badges of the page. *)
Theorem first_page_suffices (user_id total_limit : Z) (w : world)
    (data : dict) (text : string) (items : list json) :
  0 < total_limit → 0 < MAX_BADGE_PAGES cfg →
  srv (GetBadges user_id Asc None :: w) = Replied (Some (JDict data)) text →
  Py.get_or data "data" (JList []) = JList items →
  total_limit ≤ Z.of_nat (length items) →
  get_oldest_badges cfg srv user_id total_limit w
  = (take (Z.to_nat total_limit) items, GetBadges user_id Asc None :: w).
Proof.
  intros Hlimit Hmax Hreply Hdata Hlen.
  assert (Hne : Py.truthy (JList items) = true).
  { destruct items; [simpl in Hlen; lia | reflexivity]. }
  assert (Hslice : Py.slice_to items total_limit = take (Z.to_nat total_limit) items).
  { unfold Py.slice_to. replace (0 <=? total_limit) with true
      by (symmetry; apply Z.leb_le; lia). reflexivity. }
  assert (Hstop : ∀ cursor seen pages w',
            oldest_loop cfg srv user_id total_limit items cursor seen pages w'
            = (items, w')).
  { intros. rewrite oldest_loop_turn.
    replace (Z.of_nat (length items) <? total_limit) with false
      by (symmetry; apply Z.ltb_ge; lia).
    reflexivity. }
  unfold get_oldest_badges. rewrite oldest_loop_turn.
  replace (Z.of_nat (length []) <? total_limit) with true
    by (symmetry; apply Z.ltb_lt; simpl; lia).
  replace (0 <? MAX_BADGE_PAGES cfg) with true by (symmetry; apply Z.ltb_lt; lia).
  unfold cursor_param, http_get. simpl. rewrite Hreply. unfold oldest_page. simpl.
  rewrite Hdata, Hne. simpl.
  destruct (Py.set_contains _ _) as [[]|]; try destruct (negb _);
    rewrite ?Hstop, Hslice; reflexivity.
Qed.

End CursorProps.

(** The pages of [repeating] hold one badge. *)
Lemma repeating_pages : pages_at_most 1 repeating.
Proof. intros history data n [= <-] [= <-]. lia. Qed.

(** One badge a page and ten pages: a count of at most 10. *)
Lemma badge_count_bounds_witness :
  (get_total_badge_count default_config repeating 1 300 []).1 ≤ 1 * 10.
Proof.
  apply (badge_count_bounds default_config repeating 1 1 300 [] repeating_pages).
  lia.
Defined.

(** Thirty badges are asked of an account whose first page holds 100. *)
Lemma first_page_suffices_witness :
  get_oldest_badges default_config deep_account 1 30 []
  = (take 30 (map (fun i => plain_badge (Z.of_nat i)) (seq 1 100)), [GetBadges 1 Asc None]).
Proof.
  eapply (first_page_suffices default_config deep_account 1 30 []).
  - reflexivity.
  - reflexivity.
  - reflexivity.
  - reflexivity.
  - vm_compute. discriminate.
Defined.

Section ForwardProps.
Context (cfg : config) (srv : server).

Lemma forwards_snoc (reqs : list request) (req : request) (w : world) :
  forwards srv reqs (req :: w) →
  (∀ c, cursor_of req = Some c →
     ∃ data, json_of (srv w) = Some (JDict data) ∧ Py.get data "nextPageCursor" = c) →
  forwards srv (reqs ++ [req]) w.
Proof.
  intros Hreqs Hreq. induction reqs as [| r rs IH]; simpl.
  - split; [exact Hreq | exact I].
  - destruct Hreqs as [Hr Hrs]. split; [| apply IH, Hrs].
    rewrite <- app_assoc. exact Hr.
Qed.

Lemma oldest_page_cursor r badges seen b c s :
  oldest_page r badges seen = Next b c s →
  ∃ data, json_of r = Some (JDict data) ∧ Py.get data "nextPageCursor" = c.
Proof.
  unfold oldest_page.
  destruct (json_of r) as [[| | | | | | data]|]; try discriminate.
  destruct (negb _); [discriminate |].
  destruct (Py.iter _); [| discriminate].
  destruct (Py.truthy (Py.get data "nextPageCursor")) eqn:Hc.
  - destruct (Py.set_contains _ _) as [[]|]; try discriminate.
    destruct (negb _); [discriminate |]. intros [= _ <- _]. eauto.
  - destruct (Py.set_contains _ _) as [[]|]; discriminate.
Qed.

Lemma count_page_cursor p r total seen t c s :
  count_page p r total seen = Next t c s →
  ∃ data, json_of r = Some (JDict data) ∧ Py.get data "nextPageCursor" = c.
Proof.
  unfold count_page.
  destruct (json_of r) as [[| | | | | | data]|]; try discriminate.
  destruct (negb _); [discriminate |].
  destruct (Py.len _); [| discriminate].
  destruct (_ <=? _); [discriminate |].
  destruct (Py.truthy (Py.get data "nextPageCursor")) eqn:Hc.
  - destruct (negb _); [discriminate |].
    destruct (Py.set_contains _ _) as [[]|]; try discriminate.
    intros [= _ <- _]. eauto.
  - discriminate.
Qed.

Lemma handed_over_next r c w :
  (∃ data, json_of r = Some (JDict data) ∧ Py.get data "nextPageCursor" = c) →
  r = srv w → handed_over srv c w.
Proof.
  intros (data & Hr & Hc) -> c'. unfold cursor_param.
  destruct (Py.truthy c); [| discriminate]. intros [= <-]. eauto.
Qed.

Lemma oldest_loop_forwards user_id total_limit badges cursor seen pages w :
  handed_over srv cursor w →
  ∃ reqs,
    (oldest_loop cfg srv user_id total_limit badges cursor seen pages w).2 = reqs ++ w
    ∧ forwards srv reqs w ∧ pages_of user_id Asc reqs.
Proof.
  funelim (oldest_loop cfg srv user_id total_limit badges cursor seen pages w);
    intros Hcur; [| exists []; repeat split; constructor].
  set (req := GetBadges user_id Asc (cursor_param cursor)).
  destruct (oldest_page _ _ _) as [b | b c s] eqn:Hpage; simpl.
  - exists [req]. split; [reflexivity | split; [| repeat constructor; eexists; reflexivity]].
    simpl. split; [exact Hcur | exact I].
  - apply oldest_page_cursor in Hpage.
    destruct (H b c s (handed_over_next _ c (req :: w) Hpage eq_refl))
      as (reqs & Hw & Hfw & Hpg).
    exists (reqs ++ [req]). split; [rewrite <- app_assoc; exact Hw | split].
    + apply forwards_snoc; [exact Hfw | exact Hcur].
    + apply Forall_app. split; [exact Hpg | repeat constructor; eexists; reflexivity].
Qed.

Lemma count_loop_forwards user_id pass_threshold total cursor seen pages w :
  handed_over srv cursor w →
  ∃ reqs,
    (count_loop cfg srv user_id pass_threshold total cursor seen pages w).2 = reqs ++ w
    ∧ forwards srv reqs w ∧ pages_of user_id Desc reqs.
Proof.
  funelim (count_loop cfg srv user_id pass_threshold total cursor seen pages w);
    intros Hcur; [| exists []; repeat split; constructor].
  set (req := GetBadges user_id Desc (cursor_param cursor)).
  destruct (count_page _ _ _ _) as [b | b c s] eqn:Hpage; simpl.
  - exists [req]. split; [reflexivity | split; [| repeat constructor; eexists; reflexivity]].
    simpl. split; [exact Hcur | exact I].
  - apply count_page_cursor in Hpage.
    destruct (H b c s (handed_over_next _ c (req :: w) Hpage eq_refl))
      as (reqs & Hw & Hfw & Hpg).
    exists (reqs ++ [req]). split; [rewrite <- app_assoc; exact Hw | split].
    + apply forwards_snoc; [exact Hfw | exact Hcur].
    + apply Forall_app. split; [exact Hpg | repeat constructor; eexists; reflexivity].
Qed.

(** X4. Pagination follows the server: every cursor a fetch sends is the
    [nextPageCursor] of the response to its previous request, and all its
    requests are for the badges of the one user, oldest first for
    [get_oldest_badges] and newest first for [get_total_badge_count]. *)
Theorem fetches_follow_the_cursor (user_id limit : Z) (w : world) :
  (∃ reqs, (get_oldest_badges cfg srv user_id limit w).2 = reqs ++ w
           ∧ forwards srv reqs w ∧ pages_of user_id Asc reqs)
  ∧ (∃ reqs, (get_total_badge_count cfg srv user_id limit w).2 = reqs ++ w
             ∧ forwards srv reqs w ∧ pages_of user_id Desc reqs).
Proof.
  assert (Hstart : handed_over srv (JStr "") w) by (intros c; discriminate).
  split.
  - unfold get_oldest_badges.
    destruct (oldest_loop_forwards user_id limit [] (JStr "") [] 0 w Hstart)
      as (reqs & Hw & Hrest).
    destruct (oldest_loop _ _ _ _ _ _ _ _ _) as [badges w']. simpl in *. eauto.
  - unfold get_total_badge_count.
    apply (count_loop_forwards user_id limit 0 (JStr "") [] 0 w Hstart).
Qed.

End ForwardProps.

Section FriendProps.
Context `{PyLib} (cfg : config) (srv : server).

(** X5. When [check_social_activity] returns, its first flag is the one
    for an unverifiable friend count exactly when [get_friend_count] gives
    no count: an account whose friend count cannot be read never passes
    that check unflagged, and no other flag has that text. *)
Theorem unknown_friend_count_flagged (user_id : Z) (groups : list json) (w : world)
    (flags : list string) :
  (check_social_activity cfg srv user_id groups w).1 = Returns flags →
  ((get_friend_count srv user_id w).1 = None ↔ head flags = Some friend_unknown_flag)
  ∧ (friend_unknown_flag ∈ flags ↔ head flags = Some friend_unknown_flag).
Proof.
  unfold check_social_activity.
  destruct (get_friend_count srv user_id w) as [friend_count w0]. simpl.
  destruct (non_ba_loop cfg [] groups) as [non_ba |]; [| discriminate].
  destruct (get_total_badge_count _ _ _ _ _) as [badge_count w1].
  destruct (get_oldest_badges _ _ _ _ _) as [oldest w2].
  fold friend_unknown_flag.
  destruct (scan_badges cfg oldest) as [[flag|]|] eqn:Hscan; [| | discriminate].
  - assert (Hflag : ∃ bid, flag = badge_flag bid).
    { clear -Hscan. induction oldest as [| b bs IH]; [discriminate |].
      simpl in Hscan. destruct (Py.attr_get b "id") as [bid|]; [| discriminate].
      destruct bid; try (exact (IH Hscan));
        (destruct (py_int _); [| exact (IH Hscan)]);
        (destruct (bool_decide _); [| exact (IH Hscan)]);
        injection Hscan as <-; eauto. }
    destruct Hflag as [bid ->].
    destruct friend_count as [n|];
      [destruct (n <? MIN_FRIEND_COUNT cfg) |];
      destruct (_ <? MIN_NON_BA_GROUP_COUNT cfg);
      destruct (badge_count <? MIN_BADGE_COUNT cfg);
      simpl; intros [= <-]; simpl;
      (split; split; intros Hin; try reflexivity; try discriminate;
       try (left; fail);
       repeat (apply elem_of_cons in Hin as [Hin | Hin]; [discriminate |]);
       inversion Hin).
  - destruct friend_count as [n|];
      [destruct (n <? MIN_FRIEND_COUNT cfg) |];
      destruct (_ <? MIN_NON_BA_GROUP_COUNT cfg);
      destruct (badge_count <? MIN_BADGE_COUNT cfg);
      simpl; intros [= <-]; simpl;
      (split; split; intros Hin; try reflexivity; try discriminate;
       try (left; fail);
       repeat (apply elem_of_cons in Hin as [Hin | Hin]; [discriminate |]);
       inversion Hin).
Qed.

End FriendProps.

(** With no server within reach the friend count is unknown and flagged
    first. *)
Lemma unknown_friend_count_flagged_witness :
  (check_social_activity (H := Reference.lib) default_config unreachable 1 [] []).1
    = Returns ["Could not verify friend count."; "Fewer than 13 non-BA groups (0).";
               "Fewer than 300 badges (0 total)."]
  ∧ (get_friend_count (H := Reference.lib) unreachable 1 []).1 = None.
Proof.
  assert (Hrun : (check_social_activity (H := Reference.lib) default_config unreachable 1 [] []).1
                 = Returns ["Could not verify friend count."; "Fewer than 13 non-BA groups (0).";
                            "Fewer than 300 badges (0 total)."]) by reflexivity.
  split; [exact Hrun |].
  apply (unknown_friend_count_flagged (H := Reference.lib) default_config unreachable 1 [] []
           _ Hrun).
  reflexivity.
Defined.

Lemma chars_rev_app (s t : string) :
  Text.chars (String.rev_app s t) = rev (Text.chars s) ++ Text.chars t.
Proof.
  revert t. induction s as [| c s IH]; intros t; simpl; [reflexivity |].
  rewrite IH. simpl. rewrite <- app_assoc. reflexivity.
Qed.

Lemma chars_rev (s : string) : Text.chars (String.rev s) = rev (Text.chars s).
Proof. unfold String.rev. rewrite chars_rev_app. simpl. apply app_nil_r. Qed.

Lemma chars_inj (s t : string) : Text.chars s = Text.chars t → s = t.
Proof.
  intros Heq. rewrite <- (String.string_of_list_ascii_of_string s),
    <- (String.string_of_list_ascii_of_string t).
  unfold Text.chars in Heq. rewrite Heq. reflexivity.
Qed.

Lemma string_rev_involutive (s : string) : String.rev (String.rev s) = s.
Proof. apply chars_inj. rewrite !chars_rev. apply rev_involutive. Qed.

Lemma digit_not_space (c : ascii) :
  Text.isdigit_char c = true → Text.isspace_int c = false.
Proof.
  unfold Text.isdigit_char, Text.isspace_int.
  intros [H1 H2]%andb_prop. apply N.leb_le in H1, H2.
  apply orb_false_intro; [apply andb_false_intro2; apply N.leb_gt; lia |].
  apply N.eqb_neq. lia.
Qed.

(** Text that starts with no white space is left alone by [lstrip]. *)
Lemma lstrip_head (space : ascii → bool) (s : string) :
  match s with String c _ => space c = false | EmptyString => True end →
  Text.lstrip space s = s.
Proof. destruct s as [| c s]; simpl; [reflexivity |]. intros ->. reflexivity. Qed.

Lemma isdigit_chars (s : string) :
  Text.isdigit s = true → s ≠ EmptyString ∧ forallb Text.isdigit_char (Text.chars s) = true.
Proof. destruct s; [discriminate |]. intros Hd. split; [discriminate | exact Hd]. Qed.

Lemma strip_int_digits (s : string) :
  Text.isdigit s = true → Text.strip_with Text.isspace_int s = s.
Proof.
  intros [Hne Hall]%isdigit_chars. unfold Text.strip_with.
  rewrite forallb_forall in Hall.
  assert (Hhead : ∀ t, (∀ c, In c (Text.chars t) → Text.isdigit_char c = true) →
                       Text.lstrip Text.isspace_int t = t).
  { intros t Ht. apply lstrip_head. destruct t as [| c t]; [exact I |].
    apply digit_not_space, Ht. left. reflexivity. }
  rewrite (Hhead s Hall). rewrite Hhead; [apply string_rev_involutive |].
  intros c Hc. rewrite chars_rev in Hc. apply Hall, in_rev. exact Hc.
Qed.

Lemma literal_digits_all (prev : bool) (ds : list ascii) :
  forallb Text.isdigit_char ds = true → prev = true ∨ ds ≠ [] →
  Text.literal_digits prev ds = Some ds.
Proof.
  revert prev. induction ds as [| c ds IH]; intros prev Hall Hne; simpl.
  - destruct Hne as [-> | ?]; [reflexivity | contradiction].
  - simpl in Hall. apply andb_prop in Hall as [Hc Hall]. rewrite Hc.
    rewrite IH by auto. reflexivity.
Qed.

Lemma decimal_value_nonneg (ds : list ascii) :
  forallb Text.isdigit_char ds = true → 0 ≤ Text.decimal_value ds.
Proof.
  unfold Text.decimal_value.
  assert (Hgen : ∀ acc, 0 ≤ acc → forallb Text.isdigit_char ds = true →
            0 ≤ fold_left (fun acc c => 10 * acc + Text.digit_value c) ds acc).
  { induction ds as [| c ds IH]; intros acc Hacc Hall; simpl; [exact Hacc |].
    simpl in Hall. apply andb_prop in Hall as [Hc Hall]. apply IH; [| exact Hall].
    unfold Text.isdigit_char in Hc. apply andb_prop in Hc as [H1 H2].
    apply N.leb_le in H1, H2. unfold Text.digit_value. lia. }
  apply Hgen. lia.
Qed.

Lemma isdigit_isascii (s : string) : Text.isdigit s = true → Text.isascii s = true.
Proof.
  intros [_ Hall]%isdigit_chars. unfold Text.isascii.
  rewrite forallb_forall in *. intros c Hc. specialize (Hall c Hc).
  unfold Text.isdigit_char in Hall. apply andb_prop in Hall as [_ Hle].
  apply N.leb_le in Hle. apply N.ltb_lt. lia.
Qed.

(** [lstrip] removes a run of white space from the front. *)
Lemma lstrip_split (space : ascii → bool) (s : string) :
  ∃ ws, Text.chars s = ws ++ Text.chars (Text.lstrip space s) ∧ forallb space ws = true.
Proof.
  induction s as [| c s (ws & Hs & Hws)]; simpl; [exists []; auto |].
  destruct (space c) eqn:Hc.
  - exists (c :: ws). simpl. rewrite Hc, Hws. split; [f_equal; exact Hs | reflexivity].
  - exists []. auto.
Qed.

(** Trimming removes a run of white space from each end. *)
Lemma strip_split (space : ascii → bool) (s : string) :
  ∃ pre post,
    Text.chars s = pre ++ Text.chars (Text.strip_with space s) ++ post
    ∧ forallb space pre = true ∧ forallb space post = true.
Proof.
  unfold Text.strip_with.
  destruct (lstrip_split space s) as (pre & Hs & Hpre).
  destruct (lstrip_split space (String.rev (Text.lstrip space s))) as (ws & Hr & Hws).
  exists pre, (rev ws). rewrite Hs. split; [| split; [exact Hpre |]].
  - f_equal. rewrite chars_rev in Hr. rewrite chars_rev.
    rewrite <- (rev_involutive (Text.chars (Text.lstrip space s))), Hr, rev_app_distr.
    reflexivity.
  - rewrite forallb_forall in *. intros c Hc. apply Hws, in_rev. exact Hc.
Qed.

Lemma space_is_ascii (c : ascii) :
  Text.isspace_char c = true → (Text.code c <? 128)%N = true.
Proof.
  unfold Text.isspace_char. intros Hc. apply N.ltb_lt.
  apply orb_prop in Hc as [Hc | Hc]; apply andb_prop in Hc as [_ Hle];
    apply N.leb_le in Hle; lia.
Qed.

Lemma isascii_strip (s : string) :
  Text.isascii s = true → Text.isascii (Text.strip s) = true.
Proof.
  unfold Text.isascii, Text.strip.
  destruct (strip_split Text.isspace_char s) as (pre & post & -> & _ & _).
  rewrite !forallb_app. intros [_ [Hmid _]%andb_prop]%andb_prop. exact Hmid.
Qed.

(** A cell that is digits between white space has no character outside
    ASCII. *)
Lemma stripped_digits_ascii (col : string) :
  Text.isdigit (Text.strip col) = true → Text.isascii col = true.
Proof.
  intros Hd%isdigit_isascii. unfold Text.isascii, Text.strip in *.
  destruct (strip_split Text.isspace_char col) as (pre & post & -> & Hpre & Hpost).
  rewrite !forallb_app, Hd.
  assert (Hws : ∀ ws, forallb Text.isspace_char ws = true
                      → forallb (fun c => (Text.code c <? 128)%N) ws = true).
  { intros ws Hws. rewrite forallb_forall in *. intros c Hc. apply space_is_ascii, Hws, Hc. }
  rewrite (Hws pre Hpre), (Hws post Hpost). reflexivity.
Qed.

Section SheetProps.
Context `{PyLib}.

(** [int] on a text of digits: the value of the digits, unless the digit
    limit forbids it. *)
Lemma int_of_digits (s : string) :
  Text.isdigit s = true →
  py_int (JStr s)
  = if match int_max_str_digits with
       | Some n => bool_decide (n < length (Text.chars s))%nat
       | None => false
       end
    then None else Some (Text.decimal_value (Text.chars s)).
Proof.
  intros Hd. unfold py_int. rewrite (isdigit_isascii s Hd).
  unfold Py.int, Py.int_of_string.
  rewrite strip_int_digits by exact Hd.
  destruct (isdigit_chars s Hd) as [Hne Hall].
  destruct (Text.chars s) as [| c ds] eqn:Hchars.
  { destruct s; [contradiction | discriminate]. }
  assert (Hc : Text.isdigit_char c = true) by (simpl in Hall; apply andb_prop in Hall; tauto).
  assert (Hsign : c ≠ "-"%char ∧ c ≠ "+"%char).
  { split; intros ->; discriminate. }
  destruct Hsign as [Hminus Hplus].
  assert (Hbody : (let '(neg, body) := match c :: ds with
                    | "-"%char :: r => (true, r)
                    | "+"%char :: r => (false, r)
                    | _ => (false, c :: ds)
                    end in (neg, body)) = (false, c :: ds)).
  { destruct c as [[] [] [] [] [] [] [] []]; try reflexivity; contradiction. }
  destruct (match c :: ds with
            | "-"%char :: r => (true, r)
            | "+"%char :: r => (false, r)
            | _ => (false, c :: ds)
            end) as [neg body].
  injection Hbody as -> ->.
  rewrite literal_digits_all by (auto; right; discriminate). simpl.
  destruct (match int_max_str_digits with Some _ => _ | None => _ end); reflexivity.
Qed.

(** On a cell of ASCII text the loop reads the value of the digits. *)
Lemma cell_value_ascii (col : string) :
  Text.isascii col = true → cell_value col = cell_id col.
Proof.
  intros Hascii. unfold cell_value, cell_id, py_strip, py_isdigit.
  rewrite Hascii, (isascii_strip col Hascii).
  destruct (Text.isdigit (Text.strip col)) eqn:Hd; [| reflexivity].
  apply int_of_digits, Hd.
Qed.

Lemma cell_id_ascii (col : string) (z : Z) :
  cell_id col = Some z → Text.isascii col = true.
Proof.
  unfold cell_id. destruct (Text.isdigit (Text.strip col)) eqn:Hd; [| discriminate].
  intros _. apply stripped_digits_ascii, Hd.
Qed.

Lemma cell_id_value (col : string) (z : Z) :
  cell_id col = Some z → cell_value col = Some z.
Proof. intros Hz. rewrite cell_value_ascii; [exact Hz | eapply cell_id_ascii, Hz]. Qed.

Lemma cell_step_elem (ids : gset Z) (col : string) (z : Z) :
  z ∈ cell_step ids col ↔ z ∈ ids ∨ cell_value col = Some z.
Proof.
  unfold cell_step, cell_value.
  destruct (py_isdigit (py_strip col));
    [| split; [auto | intros [? | ?]; [auto | discriminate]]].
  destruct (py_int (JStr (py_strip col))) as [v |].
  - rewrite elem_of_union, elem_of_singleton.
    split; (intros [? | ?]; [left; assumption | right; congruence]).
  - split; [auto | intros [? | ?]; [auto | discriminate]].
Qed.

Lemma row_elem (row : list string) (ids : gset Z) (z : Z) :
  z ∈ foldl cell_step ids row ↔ z ∈ ids ∨ ∃ col, col ∈ row ∧ cell_value col = Some z.
Proof.
  revert ids. induction row as [| col row IH]; intros ids; simpl.
  - split; [auto | intros [? | (col & Hin & _)]; [auto | inversion Hin]].
  - rewrite IH, cell_step_elem. split.
    + intros [[? | ?] | (c & Hc & Hz)]; [auto | right; exists col; split; [left | auto] |].
      right. exists c. split; [right; exact Hc | exact Hz].
    + intros [? | (c & Hc & Hz)]; [auto |].
      apply elem_of_cons in Hc as [-> | Hc]; [auto | right; eauto].
Qed.

Lemma collect_ids_elem (rows : list (list string)) (z : Z) :
  z ∈ collect_ids rows ↔ ∃ row col, row ∈ rows ∧ col ∈ row ∧ cell_value col = Some z.
Proof.
  unfold collect_ids.
  assert (Hgen : ∀ ids : gset Z,
    z ∈ foldl (fun ids row => foldl cell_step ids row) ids rows
    ↔ z ∈ ids ∨ ∃ row col, row ∈ rows ∧ col ∈ row ∧ cell_value col = Some z).
  { induction rows as [| row rows IH]; intros ids; simpl.
    - split; [auto | intros [? | (r & c & Hin & _)]; [auto | inversion Hin]].
    - rewrite IH, row_elem. split.
      + intros [[? | (c & Hc & Hz)] | (r & c & Hr & Hc & Hz)]; [auto | |].
        * right. exists row, c. split; [left | auto].
        * right. exists r, c. split; [right; exact Hr | auto].
      + intros [? | (r & c & Hr & Hc & Hz)]; [auto |].
        apply elem_of_cons in Hr as [-> | Hr]; [left; right; eauto | right; eauto 6]. }
  rewrite Hgen. split; [intros [Hin | ?]; [set_solver | assumption] | auto].
Qed.

(** The value of a digit cell is collected. *)
Lemma digit_cell_collected (rows : list (list string)) (row : list string)
    (col : string) (z : Z) :
  row ∈ rows → col ∈ row → cell_id col = Some z → z ∈ collect_ids rows.
Proof.
  intros Hrow Hcol Hz. apply collect_ids_elem. exists row, col.
  auto using cell_id_value.
Qed.

Lemma cell_id_nonneg (col : string) (z : Z) : cell_id col = Some z → 0 ≤ z.
Proof.
  unfold cell_id. destruct (Text.isdigit _) eqn:Hd; [| discriminate].
  destruct (match int_max_str_digits with Some _ => _ | None => _ end); [discriminate |].
  intros [= <-]. apply decimal_value_nonneg. apply isdigit_chars. exact Hd.
Qed.

(** X6. Every cell of ASCII text that, trimmed, is made of digits only (and
    passes the digit limit) contributes the value of its digits to the IDs
    collected from a sheet. Every collected ID is the value of such a cell,
    or comes from a cell with characters outside ASCII, where Unicode white
    space and digits count. So from a sheet of ASCII text the IDs collected
    are exactly the values of the digit cells, none of them negative. *)
Theorem collect_ids_numeric_cells (rows : list (list string)) :
  (∀ row col z, row ∈ rows → col ∈ row → cell_id col = Some z → z ∈ collect_ids rows)
  ∧ (∀ z, z ∈ collect_ids rows →
       ∃ row col, row ∈ rows ∧ col ∈ row
                  ∧ (cell_id col = Some z ∨ Text.isascii col = false))
  ∧ (ascii_sheet rows →
     ∀ z, z ∈ collect_ids rows
          ↔ ∃ row col, row ∈ rows ∧ col ∈ row ∧ cell_id col = Some z)
  ∧ (∀ col z, cell_id col = Some z → 0 ≤ z ∧ Text.isascii col = true).
Proof.
  split; [apply digit_cell_collected | split; [| split]].
  - intros z (row & col & Hrow & Hcol & Hz)%collect_ids_elem.
    exists row, col. split; [exact Hrow | split; [exact Hcol |]].
    destruct (Text.isascii col) eqn:Hascii; [left | right; reflexivity].
    rewrite <- cell_value_ascii by exact Hascii. exact Hz.
  - intros Hsheet z. rewrite collect_ids_elem. split.
    + intros (row & col & Hrow & Hcol & Hz). exists row, col.
      rewrite <- cell_value_ascii by (eapply Hsheet; eauto). auto.
    + intros (row & col & Hrow & Hcol & Hz). exists row, col. auto using cell_id_value.
  - intros col z Hz. split; [eapply cell_id_nonneg, Hz | eapply cell_id_ascii, Hz].
Qed.

End SheetProps.

(** X6 at work: of the cells of two rows, the two that are digits between
    white space are collected, and no other. *)
Lemma collect_ids_numeric_cells_witness :
  101 ∈ collect_ids (H := Reference.lib) [["101"; "x7"]; [" 202 "; "7a"; "-3"]]
  ∧ 202 ∈ collect_ids (H := Reference.lib) [["101"; "x7"]; [" 202 "; "7a"; "-3"]]
  ∧ (∀ z, z ∈ collect_ids (H := Reference.lib) [["101"; "x7"]; [" 202 "; "7a"; "-3"]]
          → z = 101 ∨ z = 202).
Proof.
  pose proof (collect_ids_numeric_cells (H := Reference.lib)
                [["101"; "x7"]; [" 202 "; "7a"; "-3"]]) as (Hin & _ & Hexact & _).
  split; [| split].
  - apply (Hin ["101"; "x7"] "101"); [left | left | reflexivity].
  - apply (Hin [" 202 "; "7a"; "-3"] " 202 "); [right; left | left | reflexivity].
  - intros z Hz. apply Hexact in Hz.
    + destruct Hz as (row & col & Hrow & Hcol & Hz).
      repeat (apply elem_of_cons in Hrow as [-> | Hrow]);
        [| | inversion Hrow];
        repeat (apply elem_of_cons in Hcol as [-> | Hcol]);
        try (inversion Hcol; fail); vm_compute in Hz;
        first [discriminate | injection Hz as <-; auto].
    + intros row col Hrow Hcol.
      repeat (apply elem_of_cons in Hrow as [-> | Hrow]);
        [| | inversion Hrow];
        repeat (apply elem_of_cons in Hcol as [-> | Hcol]);
        try (inversion Hcol; fail); reflexivity.
Defined.

Section BlacklistExtras.
Context `{PyLib} (cfg : config) (srv : server).

Lemma run_blacklist_eq (sheet_url : string) (w : world) :
  run_blacklist cfg srv sheet_url w
  = (IFD_BLACKLIST_IDS cfg ∪ (fetch_live_blacklist srv sheet_url w).1,
     (fetch_live_blacklist srv sheet_url w).2).
Proof.
  unfold run_blacklist.
  destruct (bool_decide (sheet_url = EmptyString)) eqn:Hurl; simpl.
  - apply bool_decide_eq_true_1 in Hurl. subst. simpl.
    rewrite union_empty_r_L. reflexivity.
  - destruct (fetch_live_blacklist srv sheet_url w) as [live w']. simpl.
    destruct (bool_decide (live = ∅)) eqn:Hlive; simpl; [| reflexivity].
    apply bool_decide_eq_true_1 in Hlive. subst. rewrite union_empty_r_L. reflexivity.
Qed.

(** X7. The blacklist of a run is the stored IFD blacklist together with the
    IDs of the live sheet: a live fetch that fails or finds nothing leaves
    the stored IDs in force, and at most the one request for the sheet is
    made. *)
Theorem run_blacklist_union (sheet_url : string) (w : world) :
  (∀ z, z ∈ (run_blacklist cfg srv sheet_url w).1
        ↔ z ∈ IFD_BLACKLIST_IDS cfg ∨ z ∈ (fetch_live_blacklist srv sheet_url w).1)
  ∧ IFD_BLACKLIST_IDS cfg ⊆ (run_blacklist cfg srv sheet_url w).1
  ∧ ((run_blacklist cfg srv sheet_url w).2 = w
     ∨ (run_blacklist cfg srv sheet_url w).2 = GetSheet sheet_url :: w).
Proof.
  rewrite run_blacklist_eq. simpl. split; [| split].
  - intros z. apply elem_of_union.
  - set_solver.
  - unfold fetch_live_blacklist, http_get.
    destruct (bool_decide _); [left; reflexivity |].
    destruct (urlparse sheet_url) as [parsed|]; [| left; reflexivity].
    destruct (negb _); [left; reflexivity |].
    destruct (negb _); [left; reflexivity |].
    right. destruct (srv _) as [| body text]; [reflexivity |].
    destruct (csv_reader text); reflexivity.
Qed.

(** Every reason the loop over the memberships records is about a group. *)
Lemma group_reasons_shape (groups : list json) (reason : string) :
  reason ∈ foldl (blacklist_step cfg) [] groups →
  ∃ grp, reason = blacklisted_group_reason grp ∨ reason = lookalike_reason grp.
Proof.
  induction groups as [| g gs IH] using rev_ind; simpl; [intros Hin; inversion Hin |].
  rewrite foldl_snoc, blacklist_step_app. intros [Hin | Hin]%elem_of_app; [auto |].
  unfold blacklist_step in Hin. destruct (group_of g) as [| | | | | | grp];
    try (inversion Hin; fail).
  destruct (blacklisted_group cfg grp), (lookalike_group cfg grp); simpl in Hin;
    repeat (apply elem_of_cons in Hin as [-> | Hin]); eauto; inversion Hin.
Qed.

Lemma user_reasons_ne_group (grp : dict) :
  ifd_reason ≠ blacklisted_group_reason grp ∧ ifd_reason ≠ lookalike_reason grp
  ∧ ba_reason ≠ blacklisted_group_reason grp ∧ ba_reason ≠ lookalike_reason grp.
Proof.
  unfold ifd_reason, ba_reason, blacklisted_group_reason, lookalike_reason. simpl.
  repeat split; discriminate.
Qed.

Lemma check_blacklists_shape (user_id : Z) (groups : list json) (ifd : gset Z) :
  check_blacklists cfg user_id groups ifd
  = (if bool_decide (user_id ∈ ifd) then [ifd_reason] else [])
    ++ (if bool_decide (user_id ∈ BA_BLACKLIST_IDS cfg) then [ba_reason] else [])
    ++ foldl (blacklist_step cfg) [] groups.
Proof.
  unfold check_blacklists. rewrite blacklist_fold_app.
  destruct (bool_decide (user_id ∈ ifd)), (bool_decide (user_id ∈ BA_BLACKLIST_IDS cfg));
    reflexivity.
Qed.

Lemma user_reason_not_of_group (groups : list json) (r : string) :
  r = ifd_reason ∨ r = ba_reason → r ∉ foldl (blacklist_step cfg) [] groups.
Proof.
  intros Hr Hin. apply group_reasons_shape in Hin as [grp Hgrp].
  destruct (user_reasons_ne_group grp) as (? & ? & ? & ?).
  destruct Hr as [-> | ->], Hgrp; contradiction.
Qed.

Lemma ifd_reason_recorded (user_id : Z) (groups : list json) (ifd : gset Z) :
  ifd_reason ∈ check_blacklists cfg user_id groups ifd ↔ user_id ∈ ifd.
Proof.
  rewrite check_blacklists_shape, !elem_of_app. split.
  - intros [Hin | [Hin | Hin]].
    + destruct (bool_decide (user_id ∈ ifd)) eqn:Hd; [| inversion Hin].
      apply bool_decide_eq_true_1 in Hd. exact Hd.
    + destruct (bool_decide (user_id ∈ BA_BLACKLIST_IDS cfg)); [| inversion Hin].
      apply list_elem_of_singleton in Hin. discriminate.
    + destruct (user_reason_not_of_group groups ifd_reason); auto.
  - intros Hin. left. rewrite bool_decide_eq_true_2 by exact Hin. left.
Qed.

(** X8. [check_blacklists] records the IFD reason exactly when the user is
    on the blacklist of the run, and the BA reason exactly when the user is
    in [BA_BLACKLIST_IDS], whatever the memberships; the user's reasons come
    first, the IFD reason before the BA reason, and the reasons of the
    memberships follow. *)
Theorem user_blacklist_reasons (user_id : Z) (groups : list json) (ifd : gset Z) :
  (ifd_reason ∈ check_blacklists cfg user_id groups ifd ↔ user_id ∈ ifd)
  ∧ (ba_reason ∈ check_blacklists cfg user_id groups ifd ↔ user_id ∈ BA_BLACKLIST_IDS cfg)
  ∧ check_blacklists cfg user_id groups ifd
    = (if bool_decide (user_id ∈ ifd) then [ifd_reason] else [])
      ++ (if bool_decide (user_id ∈ BA_BLACKLIST_IDS cfg) then [ba_reason] else [])
      ++ foldl (blacklist_step cfg) [] groups.
Proof.
  split; [apply ifd_reason_recorded | split; [| apply check_blacklists_shape]].
  rewrite check_blacklists_shape, !elem_of_app. split.
  - intros [Hin | [Hin | Hin]].
    + destruct (bool_decide (user_id ∈ ifd)); [| inversion Hin].
      apply list_elem_of_singleton in Hin. discriminate.
    + destruct (bool_decide (user_id ∈ BA_BLACKLIST_IDS cfg)) eqn:Hd; [| inversion Hin].
      apply bool_decide_eq_true_1 in Hd. exact Hd.
    + destruct (user_reason_not_of_group groups ba_reason); auto.
  - intros Hin. right. left. rewrite bool_decide_eq_true_2 by exact Hin. left.
Qed.

(** X9. An ID that stands in a cell of an accepted live sheet dismisses its user:
    the run's blacklist holds it and [check_blacklists] records the IFD
    reason. *)
Theorem live_id_dismisses (sheet_url : string) (w : world) (body : option json)
    (text : string) (rows : list (list string)) (row : list string) (col : string)
    (user_id : Z) (groups : list json) :
  accepted_url sheet_url →
  srv (GetSheet sheet_url :: w) = Replied body text →
  csv_reader text = Some rows →
  row ∈ rows → col ∈ row → cell_id col = Some user_id →
  ifd_reason ∈ check_blacklists cfg user_id groups (run_blacklist cfg srv sheet_url w).1.
Proof.
  intros Hok Hreply Hcsv Hrow Hcol Hcell.
  assert (Hin : user_id ∈ collect_ids rows) by eauto using digit_cell_collected.
  apply ifd_reason_recorded. rewrite run_blacklist_eq. simpl.
  rewrite (fetch_live_blacklist_accepted srv sheet_url w Hok), Hreply, Hcsv. simpl.
  apply elem_of_union. right. exact Hin.
Qed.

(** X10. A membership of a group whose ID is in [BLACKLISTED_GROUP_IDS] is
    recorded with the group's name whatever the group's name and owner: no
    allowlist exempts it. A membership whose group is not an object records
    nothing; no membership records more than two reasons. *)
Theorem blacklisted_group_dismissal (item : json) :
  (∀ grp, group_of item = JDict grp →
     (blacklisted_group_reason grp ∈ membership_reasons cfg item
      ↔ opt_in (int_or_none (Py.get grp "id")) (BLACKLISTED_GROUP_IDS cfg) = true)
     ∧ Text.contains (py_str (Py.get grp "name")) (blacklisted_group_reason grp) = true)
  ∧ (Py.as_dict (group_of item) = None → membership_reasons cfg item = [])
  ∧ (length (membership_reasons cfg item) ≤ 2)%nat.
Proof.
  split; [| split].
  - intros grp Hgrp. split; [| apply contains_infix].
    unfold membership_reasons, blacklist_step. rewrite Hgrp.
    fold (blacklisted_group cfg grp). unfold blacklisted_group at 2.
    destruct (blacklisted_group cfg grp) eqn:Hb; unfold blacklisted_group in Hb; rewrite Hb.
    + split; [reflexivity |]. intros _.
      destruct (lookalike_group cfg grp); simpl; left.
    + split; [| discriminate]. intros Hin.
      destruct (lookalike_group cfg grp); simpl in Hin; [| inversion Hin].
      apply list_elem_of_singleton in Hin.
      destruct (lookalike_ne_blacklisted grp grp). symmetry. exact Hin.
  - unfold membership_reasons, blacklist_step.
    destruct (group_of item); try reflexivity. discriminate.
  - unfold membership_reasons, blacklist_step.
    destruct (group_of item); simpl; try lia.
    destruct (blacklisted_group cfg d), (lookalike_group cfg d); simpl; lia.
Qed.

End BlacklistExtras.

(** The second cell of the sheet served by [sheet_host] dismisses user
    202. *)
Lemma live_id_dismisses_witness :
  accepted_url (H := Reference.lib) sheet_url
  ∧ cell_id (H := Reference.lib) "202" = Some 202
  ∧ ifd_reason ∈ check_blacklists (H := Reference.lib) default_config 202 []
                   (run_blacklist (H := Reference.lib) default_config sheet_host sheet_url []).1.
Proof.
  assert (Hok : accepted_url (H := Reference.lib) sheet_url).
  { split; [discriminate |]. eexists. split; [reflexivity | split; reflexivity]. }
  split; [exact Hok | split; [reflexivity |]].
  eapply (live_id_dismisses (H := Reference.lib) default_config sheet_host sheet_url []
            None _ _ ["101"; "202"] "202" 202 [] Hok).
  - reflexivity.
  - reflexivity.
  - left.
  - right. left.
  - reflexivity.
Defined.

Lemma replace_unsafe_safe (l : list ascii) :
  Forall (fun c => safe_char c = true) l →
  map (fun c => if safe_char c then c else "_"%char) l = l.
Proof.
  induction 1 as [| c l Hc _ IH]; simpl; [reflexivity |]. rewrite Hc, IH. reflexivity.
Qed.

Lemma replaced_is_safe (l : list ascii) :
  Forall (fun c => safe_char c = true)
    (map (fun c => if safe_char c then c else "_"%char) l).
Proof.
  induction l as [| c l IH]; simpl; constructor; [| exact IH].
  destruct (safe_char c) eqn:Hc; [exact Hc | reflexivity].
Qed.

Lemma chars_safe_filename (s : string) :
  Text.chars (safe_filename s)
  = take 200 (map (fun c => if safe_char c then c else "_"%char) (Text.chars s)).
Proof. unfold safe_filename, replace_unsafe. rewrite !chars_of_list. reflexivity. Qed.

Lemma safe_filename_fixed (s : string) :
  Forall (fun c => safe_char c = true) (Text.chars s) →
  (length (Text.chars s) ≤ 200)%nat →
  safe_filename s = s.
Proof.
  intros Hsafe Hlen. apply chars_inj. rewrite chars_safe_filename.
  rewrite replace_unsafe_safe by exact Hsafe. apply take_ge. exact Hlen.
Qed.

(** X11. [safe_filename] keeps the characters of the class [A-Za-z0-9_.-],
    puts an underscore for every other one, and keeps the first 200: the
    result has the length of the input or 200, whichever is less, holds
    only characters of the class, and is left as it is by a second pass; a
    name of at most 200 such characters is unchanged. *)
Theorem safe_filename_safe (s : string) :
  length (Text.chars (safe_filename s)) = (length (Text.chars s) `min` 200)%nat
  ∧ Forall (fun c => safe_char c = true) (Text.chars (safe_filename s))
  ∧ safe_filename (safe_filename s) = safe_filename s
  ∧ (Forall (fun c => safe_char c = true) (Text.chars s) →
     (length (Text.chars s) ≤ 200)%nat → safe_filename s = s).
Proof.
  assert (Hsafe : Forall (fun c => safe_char c = true) (Text.chars (safe_filename s))).
  { rewrite chars_safe_filename. apply Forall_take, replaced_is_safe. }
  assert (Hlen : length (Text.chars (safe_filename s))
                 = (length (Text.chars s) `min` 200)%nat).
  { rewrite chars_safe_filename, length_take, length_map. lia. }
  split; [exact Hlen | split; [exact Hsafe | split]].
  - apply safe_filename_fixed; [exact Hsafe | lia].
  - apply safe_filename_fixed.
Qed.

Lemma pretty_N_char_safe (x : N) : safe_char (pretty_N_char x) = true.
Proof.
  destruct x as [| p]; [reflexivity |].
  do 4 (destruct p as [p | p |]; try reflexivity).
Qed.

Lemma pretty_N_go_safe (x : N) (s : string) :
  Forall (fun c => safe_char c = true) (Text.chars s) →
  Forall (fun c => safe_char c = true) (Text.chars (pretty_N_go x s)).
Proof.
  revert s. induction (N.lt_wf_0 x) as [x _ IH]. intros s Hs.
  destruct (decide (0 < x)%N) as [Hpos | Hzero].
  - rewrite pretty_N_go_step by exact Hpos.
    apply IH; [apply N.div_lt; lia |].
    simpl. constructor; [apply pretty_N_char_safe | exact Hs].
  - replace x with 0%N by lia. rewrite pretty_N_go_0. exact Hs.
Qed.

Lemma pretty_Z_safe (z : Z) : Forall (fun c => safe_char c = true) (Text.chars (pretty z)).
Proof.
  assert (Hpos : ∀ p : positive,
            Forall (fun c => safe_char c = true) (Text.chars (pretty p))).
  { intros p. unfold pretty, pretty_positive, pretty, pretty_N.
    destruct (decide _); [repeat constructor |].
    apply pretty_N_go_safe. constructor. }
  destruct z as [| p | p]; unfold pretty, pretty_Z.
  - repeat constructor.
  - apply Hpos.
  - simpl. constructor; [reflexivity | apply Hpos].
Qed.

(** X12. The name of the downloadable report is [report_<id>.json] as it
    stands, for every user ID, negative ones included, as long as it has at
    most 200 characters. *)
Theorem report_filename_unchanged (user_id : Z) :
  (length (Text.chars ("report_" +:+ pretty user_id +:+ ".json")) ≤ 200)%nat →
  report_filename user_id = "report_" +:+ pretty user_id +:+ ".json".
Proof.
  intros Hlen. unfold report_filename. apply safe_filename_fixed; [| exact Hlen].
  rewrite !chars_app. apply Forall_app. split; [repeat constructor |].
  apply Forall_app. split; [apply pretty_Z_safe | repeat constructor].
Qed.

(** The report of user -42. *)
Lemma report_filename_unchanged_witness :
  (length (Text.chars ("report_" +:+ pretty (-42)%Z +:+ ".json")) ≤ 200)%nat
  ∧ report_filename (-42) = "report_-42.json".
Proof.
  split; [vm_compute; lia |].
  apply (report_filename_unchanged (-42)). vm_compute. lia.
Defined.

(** A report name passes unchanged. *)
Lemma safe_filename_safe_witness :
  safe_filename "report_1.json" = "report_1.json".
Proof.
  apply (safe_filename_safe "report_1.json").
  - repeat constructor.
  - vm_compute. lia.
Defined.

(** Blanks, brackets and slashes become underscores. *)
Example safe_filename_examples :
  safe_filename "my report (v2)/final.json" = "my_report__v2__final.json"
  ∧ safe_filename EmptyString = EmptyString.
Proof. vm_compute. split; reflexivity. Qed.

Lemma lower_char_idem (c : ascii) : Text.lower_char (Text.lower_char c) = Text.lower_char c.
Proof. destruct c as [[] [] [] [] [] [] [] []]; reflexivity. Qed.

Lemma lower_idem (s : string) : Text.lower (Text.lower s) = Text.lower s.
Proof.
  induction s as [| c s IH]; simpl; [reflexivity |]. rewrite lower_char_idem, IH. reflexivity.
Qed.

Section StrSetProps.
Context `{PyLib}.

Lemma to_str_set_list_elem (l : list json) (s : string) :
  s ∈ _to_str_set (JList l) ↔ ∃ v, v ∈ l ∧ s = Text.lower (py_str v).
Proof.
  unfold _to_str_set.
  assert (Hgen : ∀ acc : gset string,
    s ∈ foldl (fun out v => out ∪ {[Text.lower (py_str v)]}) acc l
    ↔ s ∈ acc ∨ ∃ v, v ∈ l ∧ s = Text.lower (py_str v)).
  { induction l as [| a l IH]; intros acc; simpl.
    - split; [auto | intros [? | (v & Hv & _)]; [auto | inversion Hv]].
    - rewrite IH, elem_of_union, elem_of_singleton. split.
      + intros [[? | ->] | (v & Hv & Hs)]; [auto | |].
        * right. exists a. split; [left | reflexivity].
        * right. exists v. split; [right; exact Hv | exact Hs].
      + intros [? | (v & Hv & Hs)]; [auto |].
        apply elem_of_cons in Hv as [-> | Hv]; [auto | right; eauto]. }
  rewrite Hgen. split; [intros [Hin | ?]; [set_solver | assumption] | auto].
Qed.

(** X13. [_to_str_set] holds the lower-cased text of each entry of a list
    (of the value itself when it is no list, nothing for [null]), so the
    word and name sets of the configuration hold lower-case text only. *)
Theorem to_str_set_lower (value : json) :
  (∀ s, s ∈ _to_str_set value → Text.lower s = s)
  ∧ (∀ l, value = JList l →
       ∀ s, s ∈ _to_str_set value ↔ ∃ v, v ∈ l ∧ s = Text.lower (py_str v))
  ∧ (∀ raw s, s ∈ NSFW_WORDS (resolve raw) ∨ s ∈ BA_MEMBER_IMPERSONATION_LIST (resolve raw) →
       Text.lower s = s).
Proof.
  assert (Hlow : ∀ v s, s ∈ _to_str_set v → Text.lower s = s).
  { intros v s. destruct v;
      try (unfold _to_str_set; rewrite elem_of_singleton; intros ->; apply lower_idem).
    - unfold _to_str_set. rewrite elem_of_empty. contradiction.
    - rewrite to_str_set_list_elem. intros (v & _ & ->). apply lower_idem. }
  split; [apply Hlow | split].
  - intros l -> s. apply to_str_set_list_elem.
  - intros raw s [Hin | Hin]; eapply Hlow; exact Hin.
Qed.

End StrSetProps.

Section UsernameExtras.
Context `{PyLib} (cfg : config).

Lemma nsfw_fold_some username words d :
  foldl (nsfw_step username) (Some d) words = Some d.
Proof.
  induction words as [| w ws IH]; simpl; [reflexivity |].
  unfold nsfw_step at 2. destruct (_ && _); exact IH.
Qed.

(** The loop over the offensive words, started without a dismissal, ends
    with none or with the reason for a word that occurs in the name. *)
Lemma nsfw_fold_sound username words r :
  foldl (nsfw_step username) None words = Some r →
  ∃ word, word ∈ words ∧ word ≠ EmptyString
          ∧ Text.contains word username = true ∧ r = offensive_reason word.
Proof.
  induction words as [| w ws IH]; simpl; [discriminate |].
  unfold nsfw_step at 2.
  destruct (bool_decide (w = EmptyString)) eqn:Hw; simpl.
  - intros (word & Hin & Hrest)%IH. exists word. split; [right; exact Hin | exact Hrest].
  - destruct (Text.contains w username) eqn:Hc.
    + rewrite nsfw_fold_some. intros [= <-]. exists w.
      apply bool_decide_eq_false_1 in Hw. repeat split; [left | assumption ..].
    + intros (word & Hin & Hrest)%IH. exists word. split; [right; exact Hin | exact Hrest].
Qed.

Lemma offensive_ne_impersonation (word : string) :
  offensive_reason word ≠ impersonation_reason.
Proof. unfold offensive_reason, impersonation_reason. simpl. discriminate. Qed.

Lemma impersonation_iff (user_info : dict) :
  (check_username cfg user_info).1 = Some impersonation_reason
  ↔ username_of user_info ∈ BA_MEMBER_IMPERSONATION_LIST cfg.
Proof.
  unfold check_username. fold (username_of user_info). simpl.
  destruct (bool_decide (username_of user_info ∈ BA_MEMBER_IMPERSONATION_LIST cfg)) eqn:Hd.
  - apply bool_decide_eq_true_1 in Hd. rewrite nsfw_fold_some. tauto.
  - apply bool_decide_eq_false_1 in Hd. split; [| contradiction].
    intros (word & _ & _ & _ & Heq)%nsfw_fold_sound.
    destruct (offensive_ne_impersonation word). symmetry. exact Heq.
Qed.

(** X14. The dismissal of [check_username] is the impersonation reason
    exactly when the lower-cased name is in the impersonation list, which
    takes precedence over the offensive words; any other dismissal quotes a
    non-empty word of [NSFW_WORDS] that does occur in the lower-cased
    name. *)
Theorem username_dismissal_reasons (user_info : dict) :
  ((check_username cfg user_info).1 = Some impersonation_reason
   ↔ username_of user_info ∈ BA_MEMBER_IMPERSONATION_LIST cfg)
  ∧ (∀ reason, (check_username cfg user_info).1 = Some reason →
       reason = impersonation_reason
       ∨ ∃ word, word ∈ NSFW_WORDS cfg ∧ word ≠ EmptyString
                 ∧ Text.contains word (username_of user_info) = true
                 ∧ reason = offensive_reason word).
Proof.
  split; [apply impersonation_iff |].
  intros reason. unfold check_username. fold (username_of user_info). simpl.
  destruct (bool_decide _).
  - rewrite nsfw_fold_some. intros [= <-]. left. reflexivity.
  - intros (word & Hin & Hrest)%nsfw_fold_sound. right. exists word.
    split; [apply elem_of_elements; exact Hin | exact Hrest].
Qed.

End UsernameExtras.

Section ConfiguredNames.
Context `{PyLib}.

(** X15. Names and words are matched whatever their case in the
    configuration and in the user record: a user whose name, lower-cased,
    is the lower-cased text of an entry of the configured impersonation list
    is dismissed for impersonation, and a user whose lower-cased name
    contains the lower-cased text of a configured word is dismissed. *)
Theorem configured_names_match (raw user_info : dict) (l : list json) (entry : json) :
  entry ∈ l →
  (Py.lookup raw "BA_MEMBER_IMPERSONATION_LIST" = Some (JList l) →
   Text.lower (py_str entry) = username_of user_info →
   (check_username (resolve raw) user_info).1 = Some impersonation_reason)
  ∧ (Py.lookup raw "NSFW_WORDS" = Some (JList l) →
     Text.lower (py_str entry) ≠ EmptyString →
     Text.contains (Text.lower (py_str entry)) (username_of user_info) = true →
     (check_username (resolve raw) user_info).1 ≠ None).
Proof.
  intros Hentry. split.
  - intros Hraw Hname. apply impersonation_iff. simpl. unfold Py.get_or. rewrite Hraw. simpl.
    apply to_str_set_list_elem. exists entry. split; [exact Hentry | symmetry; exact Hname].
  - intros Hraw Hne Hin Hnone.
    unfold check_username in Hnone. fold (username_of user_info) in Hnone. simpl in Hnone.
    apply nsfw_fold_none in Hnone as [_ Hall].
    destruct (Hall (Text.lower (py_str entry))) as [? | ?]; [| contradiction | congruence].
    apply elem_of_elements. unfold Py.get_or. rewrite Hraw. simpl.
    apply to_str_set_list_elem. exists entry. split; [exact Hentry | reflexivity].
Qed.

End ConfiguredNames.

(** A configured name in mixed case dismisses a user who writes it in
    another case. *)
Lemma configured_names_match_witness :
  (check_username (H := Reference.lib)
     (resolve (H := Reference.lib)
        [("BA_MEMBER_IMPERSONATION_LIST", JList [JStr "General_Smith"])])
     [("name", JStr "GENERAL_smith")]).1
  = Some "Username impersonates a BA member.".
Proof.
  apply (configured_names_match (H := Reference.lib)
           [("BA_MEMBER_IMPERSONATION_LIST", JList [JStr "General_Smith"])]
           [("name", JStr "GENERAL_smith")] [JStr "General_Smith"] (JStr "General_Smith")).
  - left.
  - reflexivity.
  - reflexivity.
Defined.

Section SocialExtras.
Context `{PyLib} (cfg : config) (srv : server).

Lemma non_ba_step_ok (acc : list json) (g : json) :
  malformed_group g = false →
  non_ba_step cfg acc g
  = Returns (if counts_as_non_ba cfg g then acc ++ [g] else acc).
Proof.
  unfold malformed_group, non_ba_step, counts_as_non_ba.
  destruct (group_of g) as [| b | z | f | s | l | grp];
    try (intros ->; reflexivity).
  intros _. destruct (Py.truthy (JDict grp)) eqn:Hgrp; simpl.
  - unfold int_or_none. destruct (Py.get grp "id"); try reflexivity;
      (destruct (py_int _) as [gid|]; [| reflexivity]);
      destruct (bool_decide (gid ∈ BA_UK_GROUP_IDS cfg)); reflexivity.
  - destruct grp; [reflexivity | discriminate].
Qed.

Lemma non_ba_step_bad (acc : list json) (g : json) :
  malformed_group g = true → non_ba_step cfg acc g = Raises AttributeError.
Proof.
  unfold malformed_group, non_ba_step.
  destruct (group_of g); try discriminate; intros ->; reflexivity.
Qed.

Lemma non_ba_loop_ok (groups acc : list json) :
  Forall (fun g => malformed_group g = false) groups →
  non_ba_loop cfg acc groups = Returns (acc ++ filter (fun g => counts_as_non_ba cfg g = true) groups).
Proof.
  intros Hall. revert acc. induction Hall as [| g gs Hg _ IH]; intros acc; simpl.
  - rewrite app_nil_r. reflexivity.
  - rewrite non_ba_step_ok by exact Hg. rewrite IH.
    destruct (counts_as_non_ba cfg g) eqn:Hc.
    + rewrite filter_cons_True by exact Hc. rewrite <- app_assoc. reflexivity.
    + rewrite filter_cons_False by congruence. reflexivity.
Qed.

Lemma non_ba_loop_bad (groups acc : list json) :
  Exists (fun g => malformed_group g = true) groups →
  non_ba_loop cfg acc groups = Raises AttributeError.
Proof.
  intros Hex. revert acc. induction groups as [| g gs IH]; intros acc; [inversion Hex |].
  simpl. destruct (malformed_group g) eqn:Hg.
  - rewrite non_ba_step_bad by exact Hg. reflexivity.
  - rewrite non_ba_step_ok by exact Hg. apply IH.
    inversion Hex; subst; [congruence | assumption].
Qed.

(** X16. The loop of [check_social_activity] over the memberships raises
    [AttributeError] exactly when some membership has a group that is a true
    value but no object; otherwise the non-BA groups are the memberships, in
    order, whose group ID coerces to an integer outside [BA_UK_GROUP_IDS],
    so never more than the memberships. [check_blacklists] skips such
    a malformed membership without raising. *)
Theorem non_ba_groups_counted (groups : list json) :
  (Forall (fun g => malformed_group g = false) groups →
   non_ba_loop cfg [] groups
   = Returns (filter (fun g => counts_as_non_ba cfg g = true) groups))
  ∧ (Exists (fun g => malformed_group g = true) groups
     ↔ non_ba_loop cfg [] groups = Raises AttributeError)
  ∧ (∀ non_ba, non_ba_loop cfg [] groups = Returns non_ba →
       (length non_ba ≤ length groups)%nat)
  ∧ (∀ g, malformed_group g = true → membership_reasons cfg g = []).
Proof.
  assert (Hdec : Forall (fun g => malformed_group g = false) groups
                 ∨ Exists (fun g => malformed_group g = true) groups).
  { induction groups as [| g gs IH]; [left; constructor |].
    destruct (malformed_group g) eqn:Hg; [right; left; exact Hg |].
    destruct IH as [IH | IH]; [left; constructor; assumption | right; right; exact IH]. }
  split; [apply non_ba_loop_ok | split; [| split]].
  - split; [apply non_ba_loop_bad |]. intros Hraise.
    destruct Hdec as [Hall | Hex]; [| exact Hex].
    rewrite (non_ba_loop_ok groups [] Hall) in Hraise. discriminate.
  - intros non_ba Hret. destruct Hdec as [Hall | Hex].
    + rewrite (non_ba_loop_ok groups [] Hall) in Hret. injection Hret as <-. simpl.
      apply length_filter.
    + rewrite (non_ba_loop_bad groups [] Hex) in Hret. discriminate.
  - intros g Hg. unfold membership_reasons, blacklist_step.
    unfold malformed_group in Hg.
    destruct (group_of g); try reflexivity. discriminate.
Qed.

Lemma scan_badges_bad (before after : list json) (badge : json) :
  Forall (passed_over cfg) before → is_record badge = false →
  scan_badges cfg (before ++ badge :: after) = Raises AttributeError.
Proof.
  intros Hbefore Hbad. induction Hbefore as [| b bs Hb _ IH].
  - destruct badge; try discriminate; reflexivity.
  - rewrite <- app_comm_cons, scan_badges_skip by assumption. exact IH.
Qed.

(** X17. The scan of the oldest badges is decided by the first badge that
    is not an object with an ID outside [BA_BADGE_IDS]: if that badge is no
    object the scan raises [AttributeError], whatever follows it; and the
    scan raises only in that way. *)
Theorem badge_scan_raises (badges : list json) :
  (∀ before badge after,
     badges = before ++ badge :: after →
     Forall (passed_over cfg) before → is_record badge = false →
     scan_badges cfg badges = Raises AttributeError)
  ∧ (∀ e, scan_badges cfg badges = Raises e →
       e = AttributeError
       ∧ ∃ before badge after,
           badges = before ++ badge :: after
           ∧ Forall (passed_over cfg) before ∧ is_record badge = false).
Proof.
  split.
  - intros before badge after -> Hbefore Hbad. apply scan_badges_bad; assumption.
  - induction badges as [| b bs IH]; intros e; [discriminate |].
    destruct (is_record b) eqn:Hrec.
    + destruct (is_notable cfg b) eqn:Hnot.
      * rewrite scan_badges_hit by assumption. discriminate.
      * rewrite scan_badges_skip by (split; assumption).
        intros (He & before & badge & after & -> & Hbefore & Hbad)%IH.
        split; [exact He |]. exists (b :: before), badge, after.
        split; [reflexivity | split; [| exact Hbad]].
        constructor; [split; assumption | exact Hbefore].
    + intros Hraise.
      pose proof (scan_badges_bad [] bs b (Forall_nil_2 _) Hrec) as Hbad.
      simpl app in Hbad. rewrite Hbad in Hraise.
      injection Hraise as <-. split; [reflexivity |].
      exists [], b, bs. split; [reflexivity | split; [constructor | exact Hrec]].
Qed.

Lemma no_other_requests (reqs : list request) :
  Forall (fun req => is_badge_request req = true) reqs →
  filter (fun req => is_badge_request req = false) reqs = [].
Proof.
  induction 1 as [| r rs Hr _ IH]; [reflexivity |].
  rewrite filter_cons_False by congruence. exact IH.
Qed.

(** The requests of [check_social_activity]: the friend count, then page
    requests. *)
Lemma check_social_activity_budget user_id groups w :
  ∃ reqs, (check_social_activity cfg srv user_id groups w).2
          = reqs ++ GetFriendCount user_id :: w
          ∧ Forall (fun req => is_badge_request req = true) reqs
          ∧ Z.of_nat (length reqs) ≤ 2 * Z.max 0 (MAX_BADGE_PAGES cfg).
Proof.
  unfold check_social_activity, get_friend_count, http_get.
  set (w0 := GetFriendCount user_id :: w).
  destruct (non_ba_loop cfg [] groups) as [non_ba |];
    [| exists []; repeat split; [constructor | simpl; lia]].
  simpl.
  destruct (get_total_badge_count_pages cfg srv user_id (MIN_BADGE_COUNT cfg) w0)
    as (reqs1 & Hw1 & Hall1 & Hlen1).
  destruct (get_total_badge_count _ _ _ _ _) as [badge_count w1]. simpl in Hw1.
  destruct (get_oldest_badges_pages cfg srv user_id
              (Z.min (OLDEST_BADGES_TO_CHECK cfg) 100) w1)
    as (reqs2 & Hw2 & Hall2 & Hlen2).
  destruct (get_oldest_badges _ _ _ _ _) as [oldest w2]. simpl in Hw2.
  exists (reqs2 ++ reqs1). rewrite <- app_assoc, <- Hw1, <- Hw2.
  split; [destruct (scan_badges cfg oldest) as [[flag|]|]; reflexivity |].
  split; [apply Forall_app; split; assumption | rewrite length_app; lia].
Qed.

(** X18. A run of the checks issues at most two requests besides the page
    requests, first the one for the avatar and then the one for the friend
    count, and at most [2 * MAX_BADGE_PAGES] page requests, whether it ends
    with a verdict or raises. *)
Theorem run_request_budget (now user_id : Z) (user_info : dict) (groups : list json)
    (temp_ifd : gset Z) (w : world) :
  ∃ reqs,
    (run_checks cfg srv now user_id user_info groups temp_ifd w).2 = reqs ++ w
    ∧ Z.of_nat (length reqs) ≤ 2 + 2 * Z.max 0 (MAX_BADGE_PAGES cfg)
    ∧ Z.of_nat (length (filter (fun req => is_badge_request req = false) reqs)) ≤ 2.
Proof.
  unfold run_checks.
  destruct (gather cfg now user_id user_info groups temp_ifd) as [[instant red] | e];
    [| exists []; repeat split; simpl; lia].
  unfold get_user_avatar_url, http_get. set (w0 := GetAvatar user_id :: w).
  destruct (negb _).
  { exists [GetAvatar user_id]. repeat split; simpl; lia. }
  destruct (check_social_activity_budget user_id groups w0) as (reqs & Hw & Hall & Hlen).
  destruct (check_social_activity cfg srv user_id groups w0) as [activity w']. simpl in Hw.
  exists (reqs ++ [GetFriendCount user_id; GetAvatar user_id]).
  split; [| split].
  - rewrite <- app_assoc. simpl. subst w'.
    destruct activity as [flags | e]; [destruct (_ <=? _) |]; reflexivity.
  - rewrite length_app. simpl. lia.
  - rewrite filter_app, length_app.
    rewrite (no_other_requests reqs Hall). simpl. lia.
Qed.

End SocialExtras.

Section LoadProps.
Context `{PyLib}.

(** X19. [load_config] lets every exception of [open] and [json.load]
    escape, except the two it catches, and itself raises [ValueError] for a
    file that decodes to a JSON value that is no object; it raises in no
    other case. A missing file and a file that is not JSON give the empty
    source, from which every threshold resolves to its default and every
    set to the empty set. *)
Theorem load_config_edge (f : config_file) :
  (∀ e, load_config f = Raises e
        ↔ f = FileRaises e
          ∨ (e = ValueError ∧ ∃ root, f = FileJson root ∧ Py.as_dict root = None))
  ∧ (f = FileMissing ∨ f = FileNotJson →
     ∃ raw, load_config f = Returns raw
            ∧ map (fun entry => entry.2 (resolve raw)) threshold_table
              = map (fun entry => entry.1.2) threshold_table
            ∧ Forall (fun entry => entry.2 (resolve raw) = ∅) int_set_table
            ∧ NSFW_WORDS (resolve raw) = ∅
            ∧ BA_MEMBER_IMPERSONATION_LIST (resolve raw) = ∅).
Proof.
  split.
  - intros e. split.
    + destruct f as [| | e' | root]; try discriminate.
      * intros [= ->]. left. reflexivity.
      * intros He. right. destruct root; try discriminate;
          injection He as <-; (split; [reflexivity |]); eexists; split; reflexivity.
    + intros [-> | (-> & root & -> & Hroot)]; [reflexivity |].
      destruct root; try discriminate; reflexivity.
  - intros [-> | ->]; exists []; (split; [reflexivity |]);
      (split; [reflexivity | split; [repeat constructor | split; reflexivity]]).
Qed.

End LoadProps.

Section AgeEdge.
Context `{PyLib} (cfg : config).

(** X20. [check_account_age] raises only in one way: the creation text
    ends in Z and, with Z replaced by the zero offset, parses to a naive
    datetime, which cannot be subtracted from the aware clock; the exception
    is [TypeError]. A text without Z that parses never raises: read without
    offset it counts as UTC. *)
Theorem account_age_raises (now : Z) (user_info : dict) :
  ((∃ e, check_account_age cfg now user_info = Raises e)
   ↔ ∃ s created_date,
       Py.get user_info "created" = JStr s ∧ s ≠ EmptyString
       ∧ Text.endswith "Z" s = true
       ∧ fromisoformat (Text.replace_char "Z"%char "+00:00" s) = Some created_date
       ∧ utcoffset_us created_date = None)
  ∧ (∀ e, check_account_age cfg now user_info = Raises e → e = TypeError)
  ∧ (∀ s created_date,
       Py.get user_info "created" = JStr s → s ≠ EmptyString →
       Text.endswith "Z" s = false →
       fromisoformat s = Some created_date → utcoffset_us created_date = None →
       ∃ msg, check_account_age cfg now user_info
              = Returns (bool_decide ((now - wall_us created_date) `div` us_per_day
                                      < MIN_ACCOUNT_AGE_DAYS cfg), msg)).
Proof.
  split; [| split].
  - unfold check_account_age, parse_created. split.
    + intros [e He].
      destruct (Py.get user_info "created") as [| | | | s | |] eqn:Hc; simpl in He;
        try discriminate;
        try (destruct (negb _); discriminate).
      destruct (bool_decide (s = EmptyString)) eqn:Hs; simpl in He; [discriminate |].
      apply bool_decide_eq_false_1 in Hs.
      destruct (Text.endswith "Z" s) eqn:Hz.
      * destruct (fromisoformat _) as [dt|] eqn:Hp; [| discriminate].
        destruct (utcoffset_us dt) eqn:Ho;
          [destruct (_ <? _); discriminate |].
        exists s, dt. auto.
      * destruct (fromisoformat s) as [dt|]; simpl in He; [| discriminate].
        destruct (utcoffset_us dt) eqn:Ho; simpl in He; [rewrite Ho in He |];
          destruct (_ <? _); discriminate.
    + intros (s & dt & -> & Hs & Hz & Hp & Ho). simpl.
      rewrite bool_decide_eq_false_2 by exact Hs. simpl.
      rewrite Hz, Hp, Ho. eauto.
  - intros e. unfold check_account_age.
    destruct (negb _); [discriminate |].
    destruct (parse_created _) as [dt|]; [| discriminate].
    destruct (utcoffset_us dt); [destruct (_ <? _); discriminate |].
    intros [= <-]. reflexivity.
  - intros s dt Hc Hs Hz Hp Ho. unfold check_account_age, parse_created.
    rewrite Hc. simpl. rewrite bool_decide_eq_false_2 by exact Hs. simpl.
    rewrite Hz, Hp. simpl. rewrite Ho. simpl. unfold days_between. simpl.
    rewrite Z.sub_0_r.
    destruct (Z.ltb_spec ((now - wall_us dt) `div` us_per_day) (MIN_ACCOUNT_AGE_DAYS cfg)).
    + rewrite bool_decide_eq_true_2 by assumption. eauto.
    + rewrite bool_decide_eq_false_2 by lia. eauto.
Qed.

End AgeEdge.

Section RunEdge.
Context `{PyLib} (cfg : config) (srv : server).

Lemma non_ba_loop_raises acc groups e :
  non_ba_loop cfg acc groups = Raises e → e = AttributeError.
Proof.
  revert acc. induction groups as [| g gs IH]; intros acc; simpl; [discriminate |].
  destruct (non_ba_step cfg acc g) as [acc' | e'] eqn:Hstep; [apply IH |].
  intros [= <-]. unfold non_ba_step in Hstep.
  destruct (negb _); [discriminate |].
  destruct (group_of g); simpl in Hstep; try (injection Hstep as <-; reflexivity).
  destruct (Py.get d "id"); try discriminate;
    destruct (py_int _); try discriminate; destruct (bool_decide _); discriminate.
Qed.

Lemma scan_badges_raises badges e :
  scan_badges cfg badges = Raises e → e = AttributeError.
Proof.
  induction badges as [| b bs IH]; simpl; [discriminate |].
  destruct b; simpl; try (intros [= <-]; reflexivity).
  destruct (Py.get d "id"); try exact IH;
    (destruct (py_int _); [| exact IH]);
    (destruct (bool_decide _); [discriminate | exact IH]).
Qed.

Lemma check_social_activity_raises user_id groups w e :
  (check_social_activity cfg srv user_id groups w).1 = Raises e → e = AttributeError.
Proof.
  unfold check_social_activity.
  destruct (get_friend_count srv user_id w) as [friend_count w0].
  destruct (non_ba_loop cfg [] groups) as [non_ba | e'] eqn:Hloop.
  - destruct (get_total_badge_count _ _ _ _ _) as [badge_count w1].
    destruct (get_oldest_badges _ _ _ _ _) as [oldest w2].
    destruct (scan_badges cfg oldest) as [[flag|] | e'] eqn:Hscan; simpl; try discriminate.
    intros [= <-]. eapply scan_badges_raises, Hscan.
  - simpl. intros [= <-]. eapply non_ba_loop_raises, Hloop.
Qed.

(** X21. A run of the checks can end without a verdict in two ways only:
    with the [TypeError] of [check_account_age], before any request, or,
    when nothing dismissed the account at once, with an [AttributeError]
    of the social-activity checks. A run with an instant dismissal is not
    affected by malformed memberships or badges. *)
Theorem run_raises (now user_id : Z) (user_info : dict) (groups : list json)
    (temp_ifd : gset Z) (w : world) (e : pyexn) :
  (run_checks cfg srv now user_id user_info groups temp_ifd w).1 = Raises e →
  (e = TypeError
   ∧ check_account_age cfg now user_info = Raises TypeError
   ∧ (run_checks cfg srv now user_id user_info groups temp_ifd w).2 = w)
  ∨ (e = AttributeError
     ∧ (∃ red_flags, gather cfg now user_id user_info groups temp_ifd = Returns ([], red_flags))
     ∧ (check_social_activity cfg srv user_id groups (GetAvatar user_id :: w)).1
       = Raises AttributeError).
Proof.
  unfold run_checks.
  destruct (gather cfg now user_id user_info groups temp_ifd) as [[instant red] | e'] eqn:Hg.
  - unfold get_user_avatar_url, http_get.
    destruct (bool_decide (instant = [])) eqn:Hi; simpl; [| discriminate].
    apply bool_decide_eq_true_1 in Hi. subst.
    destruct (check_social_activity cfg srv user_id groups (GetAvatar user_id :: w))
      as [activity w'] eqn:Hs.
    destruct activity as [flags | e'']; [destruct (_ <=? _); discriminate |].
    simpl. intros [= <-]. right.
    pose proof (check_social_activity_raises user_id groups (GetAvatar user_id :: w) e'') as He.
    rewrite Hs in He. specialize (He eq_refl). subst. eauto.
  - simpl. intros [= <-]. left. unfold gather, age_step in Hg.
    destruct (check_account_age cfg now user_info) as [[d m] | e''] eqn:Ha.
    + destruct d; [| destruct (_ || _)];
        destruct (username_step cfg user_info _); discriminate.
    + injection Hg as <-.
      assert (e'' = TypeError); [| subst; auto].
      unfold check_account_age in Ha.
      destruct (negb _); [discriminate |].
      destruct (parse_created _) as [dt|]; [| discriminate].
      destruct (utcoffset_us dt); [destruct (_ <? _); discriminate |].
      injection Ha as <-. reflexivity.
Qed.

Lemma non_ba_loop_length (groups non_ba : list json) :
  non_ba_loop cfg [] groups = Returns non_ba → (length non_ba ≤ length groups)%nat.
Proof.
  assert (Hgen : ∀ acc, non_ba_loop cfg acc groups = Returns non_ba →
                        (length non_ba ≤ length acc + length groups)%nat).
  { induction groups as [| g gs IH]; intros acc; simpl.
    - intros [= <-]. lia.
    - destruct (non_ba_step cfg acc g) as [acc' |] eqn:Hstep; [| discriminate].
      intros Hrest%IH.
      assert (length acc' ≤ S (length acc))%nat; [| lia].
      unfold non_ba_step in Hstep.
      destruct (negb _); [injection Hstep as <-; lia |].
      destruct (Py.attr_get _ _) as [gid |]; [| discriminate].
      destruct gid; try (injection Hstep as <-; lia);
        (destruct (py_int _); [| injection Hstep as <-; lia]);
        (destruct (bool_decide _); injection Hstep as <-; rewrite ?length_app; simpl; lia). }
  intros Hret%Hgen. simpl in Hret. exact Hret.
Qed.

(** X22. When [check_social_activity] returns, an account with fewer
    memberships than [MIN_NON_BA_GROUP_COUNT] carries the flag for too few
    groups, and so does every account whose counted groups are too few;
    with pages of at most [k] badges and [k * MAX_BADGE_PAGES] below
    [MIN_BADGE_COUNT], every account carries the flag for too few badges:
    such a threshold cannot be met. *)
Theorem unmeetable_thresholds (user_id : Z) (groups : list json) (w : world)
    (flags : list string) :
  (check_social_activity cfg srv user_id groups w).1 = Returns flags →
  (Z.of_nat (length groups) < MIN_NON_BA_GROUP_COUNT cfg →
   ∃ count, 0 ≤ count ≤ Z.of_nat (length groups) ∧ group_count_flag cfg count ∈ flags)
  ∧ (∀ k, pages_at_most k srv → 0 ≤ k →
       k * Z.max 0 (MAX_BADGE_PAGES cfg) < MIN_BADGE_COUNT cfg →
       ∃ count, 0 ≤ count ≤ k * Z.max 0 (MAX_BADGE_PAGES cfg)
                ∧ badge_count_flag cfg count ∈ flags).
Proof.
  unfold check_social_activity.
  destruct (get_friend_count srv user_id w) as [friend_count w0].
  destruct (non_ba_loop cfg [] groups) as [non_ba |] eqn:Hloop; [| discriminate].
  apply non_ba_loop_length in Hloop.
  pose proof (count_loop_mono cfg srv user_id (MIN_BADGE_COUNT cfg) 0 (JStr "") [] 0 w0)
    as Hmono.
  unfold get_total_badge_count.
  destruct (count_loop cfg srv user_id (MIN_BADGE_COUNT cfg) 0 (JStr "") [] 0 w0)
    as [badge_count w1] eqn:Hcount.
  destruct (get_oldest_badges _ _ _ _ _) as [oldest w2].
  fold (group_count_flag cfg (Z.of_nat (length non_ba))).
  fold (badge_count_flag cfg badge_count).
  set (f1 := match friend_count with Some _ => _ | None => _ end).
  intros Hflags. split.
  - intros Hfew. exists (Z.of_nat (length non_ba)). split; [lia |].
    replace (Z.of_nat (length non_ba) <? MIN_NON_BA_GROUP_COUNT cfg) with true in Hflags
      by (symmetry; apply Z.ltb_lt; lia).
    destruct (badge_count <? MIN_BADGE_COUNT cfg);
      destruct (scan_badges cfg oldest) as [[flag|]|]; simpl in Hflags;
      try discriminate; injection Hflags as <-; set_solver.
  - intros k Hk Hpos Hlow.
    pose proof (count_loop_bound cfg srv k user_id (MIN_BADGE_COUNT cfg) 0 (JStr "") [] 0 w0
                  Hk Hpos) as Hbound.
    rewrite Hcount in Hbound. simpl in Hbound, Hmono.
    rewrite Z.sub_0_r in Hbound.
    exists badge_count. split; [lia |].
    assert (Hlt : badge_count < MIN_BADGE_COUNT cfg) by lia.
    apply Z.ltb_lt in Hlt. rewrite Hlt in Hflags. clear Hbound Hmono Hlt.
    destruct (_ <? MIN_NON_BA_GROUP_COUNT cfg);
      destruct (scan_badges cfg oldest) as [[flag|]|]; simpl in Hflags;
      try discriminate; injection Hflags as <-; set_solver.
Qed.

End RunEdge.

(** A membership whose group is a text makes the social-activity checks, and
    with them the run of an established account, raise. *)
Lemma run_raises_witness :
  (run_checks (H := Reference.lib) default_config deep_account mar_1 1 new_account
     [JDict [("group", JStr "oops")]] ∅ []).1 = Raises AttributeError
  ∧ (check_social_activity (H := Reference.lib) default_config deep_account 1
       [JDict [("group", JStr "oops")]] [GetAvatar 1]).1 = Raises AttributeError.
Proof.
  assert (Hrun : (run_checks (H := Reference.lib) default_config deep_account mar_1 1
                    new_account [JDict [("group", JStr "oops")]] ∅ []).1
                 = Raises AttributeError) by reflexivity.
  split; [exact Hrun |].
  destruct (run_raises (H := Reference.lib) default_config deep_account mar_1 1 new_account
              [JDict [("group", JStr "oops")]] ∅ [] _ Hrun)
    as [(He & _) | (_ & _ & Hsocial)]; [discriminate | exact Hsocial].
Defined.

(** An account without memberships carries the flag for too few groups. *)
Lemma unmeetable_thresholds_witness :
  (check_social_activity (H := Reference.lib) default_config deep_account 1 [] []).1
    = Returns ["Fewer than 13 non-BA groups (0)."; "Fewer than 300 badges (101 total)."]
  ∧ ∃ count, 0 ≤ count ≤ Z.of_nat (length (@nil json))
             ∧ group_count_flag default_config count
               ∈ ["Fewer than 13 non-BA groups (0)."; "Fewer than 300 badges (101 total)."].
Proof.
  assert (Hrun : (check_social_activity (H := Reference.lib) default_config deep_account
                    1 [] []).1
                 = Returns ["Fewer than 13 non-BA groups (0).";
                            "Fewer than 300 badges (101 total)."]) by reflexivity.
  split; [exact Hrun |].
  apply (unmeetable_thresholds (H := Reference.lib) default_config deep_account 1 [] []
           _ Hrun).
  reflexivity.
Defined.
